(** * The CIFAR benchmark harness of tensil-zcu104 ([vitis/main.c])

    A shallow embedding of [argmax], [channel_mean],
    [test_resnet20v2_on_cifar] and [main], followed by the properties the
    design document states about them and by further properties of the
    code.

    - C [float] and [double] values are IEEE 754 binary32 and binary64
      numbers, taken from the parametric specification [SpecFloat] of the
      standard library (round to nearest, ties to even).
    - [size_t] is an unsigned 64-bit integer, a [Z] reduced modulo [2^64]
      where the source can leave the range; [UINT], the byte count of
      [f_read], is an unsigned 32-bit integer.
    - The filesystem, the accelerator driver, the stopwatch and the console
      are collaborators that live outside [main.c].  The first three are the
      fields of the class [Platform]; every call to any of the four is
      recorded, in program order, as an [event]. *)

From Stdlib Require Import Strings.String Strings.Ascii Strings.Byte.
From Stdlib Require Import ZArith List Bool Lia.
From Stdlib Require Import Floats.SpecFloat.
Import ListNotations.

Local Open Scope Z_scope.

(** ** Machine numbers *)

Definition float := spec_float.

(** [float]: binary32. *)
Module F32.
Definition prec : Z := 24.
Definition emax : Z := 128.

Definition add : float -> float -> float := SFadd prec emax.
Definition sub : float -> float -> float := SFsub prec emax.
Definition div : float -> float -> float := SFdiv prec emax.

(** The C comparisons [a > b], [a < b], [a >= b], [a <= b], [a == b]:
    all of them are false as soon as one side is a NaN. *)
Definition gt (a b : float) : bool := SFltb b a.
Definition ge (a b : float) : bool := SFleb b a.
Definition eq (a b : float) : bool := SFeqb a b.

(** Integer to [float] conversion, [(float)n]. *)
Definition of_Z (n : Z) : float := binary_normalize prec emax n 0 false.

(** [double] to [float] conversion: one rounding to 24 bits. *)
Definition of_f64 (x : float) : float :=
  match x with
  | S754_finite s m e => binary_round prec emax s m e
  | _ => x
  end.

(** The [float] nearest to the fraction [n / d], as a decimal literal
    such as [0.9f] denotes it. *)
Definition of_ratio (n d : Z) : float := div (of_Z n) (of_Z d).
End F32.

(** [double]: binary64. *)
Module F64.
Definition prec : Z := 53.
Definition emax : Z := 1024.

Definition add : float -> float -> float := SFadd prec emax.
Definition sub : float -> float -> float := SFsub prec emax.
Definition div : float -> float -> float := SFdiv prec emax.

Definition of_Z (n : Z) : float := binary_normalize prec emax n 0 false.

(** [float] to [double] promotion; it is exact. *)
Definition of_f32 (x : float) : float :=
  match x with
  | S754_finite s m e => binary_round prec emax s m e
  | _ => x
  end.
End F64.

Definition is_nan (x : float) : bool :=
  match x with S754_nan => true | _ => false end.

(** [size_t] on the Cortex-A53 target: 64 bits, unsigned. *)
Definition SIZE_BITS : Z := 64.
Definition SIZE_MAX : Z := 2 ^ SIZE_BITS - 1.
Definition to_size_t (z : Z) : Z := z mod 2 ^ SIZE_BITS.

(** [UINT], the type of the byte count of FatFs's [f_read]: [unsigned int],
    32 bits. *)
Definition UINT_BITS : Z := 32.
Definition to_UINT (z : Z) : Z := z mod 2 ^ UINT_BITS.

(** ** Arrays and counted loops *)

(** [buffer[i]] for a [float] array.  The array is a list; a read past its
    end has no defined value in C and yields a NaN here. *)
Definition fread (buffer : list float) (i : Z) : float :=
  nth (Z.to_nat i) buffer S754_nan.

(** [buffer[i]] for a [u8] array that starts [base] bytes into the memory
    region [mem]: the value of the byte as an integer in [0, 256).  A read
    past the end of [mem] yields 0; the loop never makes one when [mem] holds
    the whole file (lemma [complete_run]). *)
Definition byte_value (b : byte) : Z := Z.of_N (Byte.to_N b).

Definition u8read (mem : list byte) (base i : Z) : Z :=
  byte_value (nth (Z.to_nat (base + i)) mem x00).

(** [for (size_t i = lo; n iterations; i++) s = body i s]. *)
Fixpoint for_range {S : Type} (n : nat) (i : Z) (body : Z -> S -> S) (s : S) : S :=
  match n with
  | O => s
  | Datatypes.S k => for_range k (i + 1) body (body i s)
  end.

(** ** [argmax] *)

Definition argmax_step (buffer : list float) (i : Z) (s : float * Z) : float * Z :=
  let '(max, max_i) := s in
  if F32.gt (fread buffer i) max then (fread buffer i, i) else (max, max_i).

Definition argmax (size : Z) (buffer : list float) : Z :=
  if size =? 0 then to_size_t (-1)
  else
    snd (for_range (Z.to_nat (size - 1)) 1 (argmax_step buffer)
                   (fread buffer 0, 0)).

(** What the scan has established once it has looked at the indices below
    [i]: the candidate is one of them, nothing seen exceeds it, and nothing
    before it reaches it. *)
Definition argmax_inv (buffer : list float) (i : Z) (s : float * Z) : Prop :=
  0 <= snd s < i /\
  fst s = fread buffer (snd s) /\
  (forall j, 0 <= j < i -> F32.gt (fread buffer j) (fst s) = false) /\
  (forall j, 0 <= j < snd s -> F32.ge (fread buffer j) (fst s) = false).

(** ** [channel_mean] *)

(** [CHANNEL_TO_FLOAT(v)] is [((float)v / 255.0)]: the byte is converted to
    [float], promoted, and divided by the [double] constant. *)
Definition CHANNEL_TO_FLOAT (v : Z) : float :=
  F64.div (F64.of_f32 (F32.of_Z v)) (F64.of_Z 255).

(** [sum += x] with [sum] a [float] and [x] a [double]: the addition is
    done in [double] and the result is rounded back. *)
Definition float_add_assign_double (sum x : float) : float :=
  F32.of_f64 (F64.add (F64.of_f32 sum) x).

Definition channel_mean (size : Z) (mem : list byte) (buffer : Z) : float :=
  let sum :=
    for_range (Z.to_nat size) 0
      (fun i sum => float_add_assign_double sum (CHANNEL_TO_FLOAT (u8read mem buffer i)))
      (F32.of_Z 0) in
  F32.div sum (F32.of_Z size).

Definition CIFAR_PIXELS_SIZE : Z := 1024.
Definition CIFAR_CLASSES_SIZE : Z := 10.


Definition cifar_classes : list string :=
  ["airplane"; "automobile"; "bird"; "cat"; "deer";
   "dog"; "frog"; "horse"; "ship"; "truck"]%string.

Definition progress : list ascii := ["-"; "\"; "|"; "/"]%char.

(** ** The collaborators *)

(** [tensil_error_t] and [FRESULT] are integer codes declared outside
    [main.c]; the source tests both with [if (error)] and [if (res)], so
    zero is "no error". *)
Definition tensil_error_t := Z.
Definition TENSIL_ERROR_NONE : tensil_error_t := 0.
Definition FRESULT := Z.

(** What [main.c] calls and does not define.  [world] is the state of the
    machine outside the harness (SD card, DRAM, accelerator, clock); every
    function that takes a handle transforms it.  The console functions and
    [printf] return nothing and take no handle: they only show up as events. *)
Class Platform := {
  world : Type;
  stopwatch : Type;
  TENSIL_FS_ERROR : FRESULT -> tensil_error_t;
  (** [f_stat(file_name, &fno)]: the result and [fno.fsize]. *)
  f_stat : string -> world -> FRESULT * Z * world;
  f_open : string -> world -> FRESULT * world;
  (** [f_read(&fil, CIFAR_BUFFER_BASE, btr, &bytes_read)], with [btr] a
      [UINT]: the result and
      the bytes that the DRAM region at [CIFAR_BUFFER_BASE] holds afterwards.
      The harness never reads [bytes_read].  The region is taken to keep
      these bytes for the rest of the run: no later call writes into it. *)
  f_read : Z -> world -> FRESULT * list byte * world;
  f_close : world -> world;
  tensil_driver_load_model_input_vector_scalars :
    string -> Z -> Z -> list float -> world -> tensil_error_t * world;
  stopwatch_start : world -> tensil_error_t * stopwatch * world;
  tensil_driver_run : world -> tensil_error_t * world;
  stopwatch_stop : stopwatch -> world -> stopwatch * world;
  stopwatch_elapsed_seconds : stopwatch -> float;
  (** [tensil_driver_get_model_output_scalars(driver, model, name, size,
      result)]: the error and the contents of [result] afterwards. *)
  tensil_driver_get_model_output_scalars :
    string -> Z -> world -> tensil_error_t * list float * world;
  tensil_driver_print_model_output_vectors :
    string -> world -> tensil_error_t * world
}.

(** One call that leaves the harness, with its arguments and what came
    back.

    The two strings of [Ev_printf_classes] are the entries of
    [cifar_classes] at the expected and at the predicted class.  [None]
    stands for a read outside the table.  The C code makes that read without
    a check, and its behaviour from there on is undefined: what the model
    says about a run after such an event does not bind the compiled program.
    The runs free of it are those that satisfy [lookups_in_table]. *)
Inductive event : Type :=
| Ev_f_stat (res : FRESULT)
| Ev_f_open (res : FRESULT)
| Ev_f_read (btr : Z) (res : FRESULT)
| Ev_f_close
| Ev_printf_reading (file_name : string)
| Ev_printf_testing
| Ev_printf_progress (i : Z) (fps : float) (glyph : ascii)
| Ev_printf_image
| Ev_printf_newline
| Ev_printf_cell
| Ev_printf_result
| Ev_printf_classes (expected actual : option string)
| Ev_printf_summary (total_count : Z) (accuracy fps : float)
| Ev_console_clear_screen
| Ev_console_set_cursor_position (row col : Z)
| Ev_console_set_background_color (r g b : Z)
| Ev_console_reset_background_color
| Ev_console_set_foreground_color (r g b : Z)
| Ev_console_reset_foreground_color
| Ev_load_input (name : string) (j size : Z) (pixel : list float) (error : tensil_error_t)
| Ev_stopwatch_start (error : tensil_error_t)
| Ev_run (error : tensil_error_t)
| Ev_stopwatch_stop
| Ev_stopwatch_elapsed_seconds (seconds : float)
| Ev_get_output (name : string) (size : Z) (result : list float) (error : tensil_error_t)
| Ev_print_output (name : string) (error : tensil_error_t).

(** ** The loop of [test_resnet20v2_on_cifar] *)

(** Control leaves a statement either at its end or by [goto cleanup] with
    [error] set. *)
Inductive result (A : Type) : Type :=
| Next (a : A)
| Goto_cleanup (error : tensil_error_t).
Arguments Next {A} a.
Arguments Goto_cleanup {A} error.

Section Harness.
Context {P : Platform}.

(** The variables that live across iterations, and the outside world. *)
Record state : Type := {
  ptr : Z;
  misclass_count : Z;
  total_seconds : float;
  env : world
}.

Definition set_ptr (p : Z) (st : state) : state :=
  {| ptr := p; misclass_count := misclass_count st;
     total_seconds := total_seconds st; env := env st |}.

Definition set_misclass_count (n : Z) (st : state) : state :=
  {| ptr := ptr st; misclass_count := n;
     total_seconds := total_seconds st; env := env st |}.

Definition set_total_seconds (x : float) (st : state) : state :=
  {| ptr := ptr st; misclass_count := misclass_count st;
     total_seconds := x; env := env st |}.

Definition set_env (w : world) (st : state) : state :=
  {| ptr := ptr st; misclass_count := misclass_count st;
     total_seconds := total_seconds st; env := w |}.

Definition M (A : Type) : Type := state -> result A * state * list event.

Definition ret {A : Type} (a : A) : M A := fun st => (Next a, st, []).

Definition bind {A B : Type} (m : M A) (k : A -> M B) : M B :=
  fun st =>
    let '(r, st1, t1) := m st in
    match r with
    | Next a => let '(r2, st2, t2) := k a st1 in (r2, st2, t1 ++ t2)
    | Goto_cleanup error => (Goto_cleanup error, st1, t1)
    end.

Definition get : M state := fun st => (Next st, st, []).

Definition put (st : state) : M unit := fun _ => (Next tt, st, []).

Definition emit (e : event) : M unit := fun st => (Next tt, st, [e]).

(** [error = f(...); if (error) goto cleanup;] for a collaborator that also
    hands back a value. *)
Definition call {A : Type} (f : world -> tensil_error_t * A * world)
           (ev : A -> tensil_error_t -> event) : M A :=
  fun st =>
    let '(error, a, w) := f (env st) in
    (if error =? 0 then Next a else Goto_cleanup error, set_env w st,
     [ev a error]).

Definition call_ (f : world -> tensil_error_t * world)
           (ev : tensil_error_t -> event) : M unit :=
  call (fun w => let '(error, w') := f w in (error, tt, w')) (fun _ => ev).
End Harness.

Declare Scope harness_scope.
Delimit Scope harness_scope with harness.
Notation "x <- m ;; k" := (bind m (fun x => k))
  (at level 61, m at next level, right associativity) : harness_scope.
Notation "m ;; k" := (bind m (fun _ => k))
  (at level 61, right associativity) : harness_scope.

(** The variables of one iteration that the reporting block reads. *)
Record classified : Type := {
  expected_class : Z;
  red : Z;
  green : Z;
  blue : Z;
  seconds : float;
  actual_class : Z
}.

Section Loop.
Context {P : Platform}.
Local Open Scope harness_scope.

(** [for (size_t i = lo; n iterations; i++) body(i)], left by the first
    [goto cleanup]. *)
Fixpoint for_each (n : nat) (i : Z) (body : Z -> M unit) : M unit :=
  match n with
  | O => ret tt
  | S k => body i ;; for_each k (i + 1) body
  end.

(** Lines 113-115. *)
Definition normalized_pixel (mem : list byte) (red green blue : Z)
           (red_mean green_mean blue_mean : float) (j : Z) : list float :=
  [F32.of_f64 (F64.sub (CHANNEL_TO_FLOAT (u8read mem red j)) (F64.of_f32 red_mean));
   F32.of_f64 (F64.sub (CHANNEL_TO_FLOAT (u8read mem green j)) (F64.of_f32 green_mean));
   F32.of_f64 (F64.sub (CHANNEL_TO_FLOAT (u8read mem blue j)) (F64.of_f32 blue_mean))].

(** Lines 112-122. *)
Definition load_image (mem : list byte) (red green blue : Z)
           (red_mean green_mean blue_mean : float) : M unit :=
  for_each (Z.to_nat CIFAR_PIXELS_SIZE) 0 (fun j =>
    let pixel := normalized_pixel mem red green blue red_mean green_mean blue_mean j in
    call_ (tensil_driver_load_model_input_vector_scalars "x:0" j 3 pixel)
          (Ev_load_input "x:0" j 3 pixel)).

(** Lines 158-170. *)
Definition print_image (mem : list byte) (red green blue : Z) : M unit :=
  emit Ev_printf_image ;;
  for_each (Z.to_nat CIFAR_PIXELS_SIZE) 0 (fun j =>
    emit (Ev_console_set_background_color
            (u8read mem red j) (u8read mem green j) (u8read mem blue j)) ;;
    (if j mod 32 =? 0 then emit Ev_printf_newline else ret tt) ;;
    emit Ev_printf_cell) ;;
  emit Ev_printf_newline ;;
  emit Ev_console_reset_background_color.

(** Lines 152-191, the body of [if (print_images)].

    Lines 185-187 read [cifar_classes[expected_class]] and
    [cifar_classes[actual_class]] without a check.  [actual_class] comes
    from [argmax] over 10 scores and is below 10; [expected_class] is the
    label byte of the record, and for a label of 10 or more the read is
    outside the table, which C leaves undefined.  The model records such a
    read as [None] in the event and goes on; see [event] and
    [lookups_in_table]. *)
Definition report (mem : list byte) (i : Z) (c : classified) : M unit :=
  emit (Ev_console_set_cursor_position 1 1) ;;
  emit (Ev_printf_progress i (F64.of_f32 (F32.div (F32.of_Z 1) (seconds c)))
          (nth (Z.to_nat (i mod 4)) progress zero)) ;;
  if i mod 100 =? 0 then
    print_image mem (red c) (green c) (blue c) ;;
    emit Ev_printf_result ;;
    call_ (tensil_driver_print_model_output_vectors "Identity:0")
          (Ev_print_output "Identity:0") ;;
    emit (if actual_class c =? expected_class c
          then Ev_console_set_foreground_color 0 255 0
          else Ev_console_set_foreground_color 255 0 0) ;;
    emit (Ev_printf_classes
            (nth_error cifar_classes (Z.to_nat (expected_class c)))
            (nth_error cifar_classes (Z.to_nat (actual_class c)))) ;;
    emit Ev_console_reset_foreground_color
  else ret tt.

(** Lines 96-150: decode the next record, stage it, run the accelerator
    under the stopwatch, fetch the scores and classify. *)
Definition classify (mem : list byte) : M classified :=
  st <- get ;;
  let expected_class := u8read mem (ptr st) 0 in
  let red := ptr st + 1 in
  let green := red + CIFAR_PIXELS_SIZE in
  let blue := green + CIFAR_PIXELS_SIZE in
  put (set_ptr (blue + CIFAR_PIXELS_SIZE) st) ;;
  let red_mean := channel_mean CIFAR_PIXELS_SIZE mem red in
  let green_mean := channel_mean CIFAR_PIXELS_SIZE mem green in
  let blue_mean := channel_mean CIFAR_PIXELS_SIZE mem blue in
  load_image mem red green blue red_mean green_mean blue_mean ;;
  sw <- call stopwatch_start (fun _ => Ev_stopwatch_start) ;;
  call_ tensil_driver_run Ev_run ;;
  (* [stopwatch_stop] returns nothing, so control always goes on. *)
  sw <- call (fun w => let '(sw', w') := stopwatch_stop sw w in (0, sw', w'))
             (fun _ _ => Ev_stopwatch_stop) ;;
  let seconds := stopwatch_elapsed_seconds sw in
  emit (Ev_stopwatch_elapsed_seconds seconds) ;;
  st <- get ;;
  put (set_total_seconds (F32.add (total_seconds st) seconds) st) ;;
  result <- call (tensil_driver_get_model_output_scalars "Identity:0" CIFAR_CLASSES_SIZE)
                 (Ev_get_output "Identity:0" CIFAR_CLASSES_SIZE) ;;
  let actual_class := argmax CIFAR_CLASSES_SIZE result in
  st <- get ;;
  (if negb (actual_class =? expected_class)
   then put (set_misclass_count (to_size_t (misclass_count st + 1)) st)
   else ret tt) ;;
  ret {| expected_class := expected_class; red := red; green := green;
         blue := blue; seconds := seconds; actual_class := actual_class |}.

(** Lines 96-191: one iteration of the loop over the images. *)
Definition image (mem : list byte) (print_images : bool) (i : Z) : M unit :=
  c <- classify mem ;;
  if print_images then report mem i c else ret tt.

(** What a call of [test_resnet20v2_on_cifar] leaves behind: the value it
    returns, the loop variables and the world at that moment, and the
    calls it made. *)
Record run : Type := {
  returned : tensil_error_t;
  final : state;
  trace : list event
}.

Definition initial (w : world) : state :=
  {| ptr := 0; misclass_count := 0; total_seconds := F32.of_Z 0; env := w |}.

(** Lines 194-205. *)
Definition cleanup (print_images : bool) (error : tensil_error_t)
           (total_count misclass_count : Z) (total_seconds : float) : list event :=
  (if print_images
   then [Ev_console_clear_screen; Ev_console_set_cursor_position 1 1]
   else []) ++
  (if error =? TENSIL_ERROR_NONE
   then [Ev_printf_summary total_count
           (F64.sub (F64.of_Z 1)
              (F64.of_f32 (F32.div (F32.of_Z misclass_count) (F32.of_Z total_count))))
           (F64.of_f32 (F32.div (F32.of_Z total_count) total_seconds))]
   else []).

Definition error_of (r : result unit) : tensil_error_t :=
  match r with
  | Next _ => TENSIL_ERROR_NONE
  | Goto_cleanup error => error
  end.

(** Lines 84-205: everything after the file is in memory.  [fsize] is an
    unsigned [FSIZE_t] of at most 64 bits. *)
Definition benchmark (mem : list byte) (fsize : Z) (print_images : bool)
           (w : world) : run :=
  let total_count := to_size_t (to_size_t fsize / (CIFAR_PIXELS_SIZE * 3 + 1)) in
  let '(r, st, t) :=
    for_each (Z.to_nat total_count) 0 (image mem print_images) (initial w) in
  {| returned := error_of r;
     final := st;
     trace := [Ev_printf_testing] ++
              (if print_images then [Ev_console_clear_screen] else []) ++
              t ++ cleanup print_images (error_of r) total_count
                           (misclass_count st) (total_seconds st) |}.

Definition prepend (t : list event) (r : run) : run :=
  {| returned := returned r; final := final r; trace := t ++ trace r |}.

Definition test_resnet20v2_on_cifar (file_name : string) (print_images : bool)
           (w : world) : run :=
  let '(res, fsize, w1) := f_stat file_name w in
  if negb (res =? 0) then
    {| returned := TENSIL_FS_ERROR res; final := initial w1;
       trace := [Ev_f_stat res] |}
  else
    let '(res2, w2) := f_open file_name w1 in
    if negb (res2 =? 0) then
      {| returned := TENSIL_FS_ERROR res2; final := initial w2;
         trace := [Ev_f_stat res; Ev_f_open res2] |}
    else
      (* [f_read] takes its count as a [UINT]: [fno.fsize] is narrowed. *)
      let '(res3, mem, w3) := f_read (to_UINT fsize) w2 in
      let w4 := f_close w3 in
      let t := [Ev_f_stat res; Ev_f_open res2; Ev_printf_reading file_name;
                Ev_f_read (to_UINT fsize) res3; Ev_f_close] in
      if negb (res3 =? 0) then
        {| returned := TENSIL_FS_ERROR res3; final := initial w4; trace := t |}
      else prepend t (benchmark mem fsize print_images w4).
End Loop.

(** ** A scripted platform

    A machine whose collaborators answer from lists: the n-th call of a
    function returns the n-th entry of its script, and "no error" (for the
    stopwatch, zero seconds) once the script is used up.  It is used to run
    the harness on concrete datasets. *)
Module Stub.
Record machine : Type := {
  file : list byte;
  stat_result : FRESULT;
  open_result : FRESULT;
  read_result : FRESULT;
  load_errors : list tensil_error_t;
  start_errors : list tensil_error_t;
  run_errors : list tensil_error_t;
  seconds : list float;
  outputs : list (tensil_error_t * list float);
  print_errors : list tensil_error_t
}.

Definition healthy (f : list byte) (secs : list float)
           (outs : list (tensil_error_t * list float)) : machine :=
  {| file := f; stat_result := 0; open_result := 0; read_result := 0;
     load_errors := []; start_errors := []; run_errors := [];
     seconds := secs; outputs := outs; print_errors := [] |}.

Definition with_run_errors (l : list tensil_error_t) (m : machine) : machine :=
  {| file := file m; stat_result := stat_result m; open_result := open_result m;
     read_result := read_result m; load_errors := load_errors m;
     start_errors := start_errors m; run_errors := l; seconds := seconds m;
     outputs := outputs m; print_errors := print_errors m |}.

Definition with_load_errors (l : list tensil_error_t) (m : machine) : machine :=
  {| file := file m; stat_result := stat_result m; open_result := open_result m;
     read_result := read_result m; load_errors := l;
     start_errors := start_errors m; run_errors := run_errors m; seconds := seconds m;
     outputs := outputs m; print_errors := print_errors m |}.

Definition with_start_errors (l : list tensil_error_t) (m : machine) : machine :=
  {| file := file m; stat_result := stat_result m; open_result := open_result m;
     read_result := read_result m; load_errors := load_errors m;
     start_errors := l; run_errors := run_errors m; seconds := seconds m;
     outputs := outputs m; print_errors := print_errors m |}.

Definition with_seconds (l : list float) (m : machine) : machine :=
  {| file := file m; stat_result := stat_result m; open_result := open_result m;
     read_result := read_result m; load_errors := load_errors m;
     start_errors := start_errors m; run_errors := run_errors m; seconds := l;
     outputs := outputs m; print_errors := print_errors m |}.

Definition with_outputs (l : list (tensil_error_t * list float)) (m : machine) : machine :=
  {| file := file m; stat_result := stat_result m; open_result := open_result m;
     read_result := read_result m; load_errors := load_errors m;
     start_errors := start_errors m; run_errors := run_errors m; seconds := seconds m;
     outputs := l; print_errors := print_errors m |}.

Definition with_print_errors (l : list tensil_error_t) (m : machine) : machine :=
  {| file := file m; stat_result := stat_result m; open_result := open_result m;
     read_result := read_result m; load_errors := load_errors m;
     start_errors := start_errors m; run_errors := run_errors m; seconds := seconds m;
     outputs := outputs m; print_errors := l |}.

#[export] Instance platform : Platform := {|
  world := machine;
  stopwatch := float;
  TENSIL_FS_ERROR := fun res => res;
  f_stat := fun _ m => (stat_result m, Z.of_nat (length (file m)), m);
  f_open := fun _ m => (open_result m, m);
  f_read := fun _ m => (read_result m, file m, m);
  f_close := fun m => m;
  tensil_driver_load_model_input_vector_scalars := fun _ _ _ _ m =>
    (hd 0 (load_errors m), with_load_errors (tl (load_errors m)) m);
  stopwatch_start := fun m =>
    (hd 0 (start_errors m), F32.of_Z 0, with_start_errors (tl (start_errors m)) m);
  tensil_driver_run := fun m =>
    (hd 0 (run_errors m), with_run_errors (tl (run_errors m)) m);
  stopwatch_stop := fun _ m =>
    (hd (F32.of_Z 0) (seconds m), with_seconds (tl (seconds m)) m);
  stopwatch_elapsed_seconds := fun sw => sw;
  tensil_driver_get_model_output_scalars := fun _ _ m =>
    (fst (hd (0, []) (outputs m)), snd (hd (0, []) (outputs m)),
     with_outputs (tl (outputs m)) m);
  tensil_driver_print_model_output_vectors := fun _ m =>
    (hd 0 (print_errors m), with_print_errors (tl (print_errors m)) m)
|}.

(** The same machine with a diagnostic printer that does nothing. *)
Definition quiet_platform : Platform := {|
  world := machine;
  stopwatch := float;
  TENSIL_FS_ERROR := fun res => res;
  f_stat := f_stat (Platform := platform);
  f_open := f_open (Platform := platform);
  f_read := f_read (Platform := platform);
  f_close := f_close (Platform := platform);
  tensil_driver_load_model_input_vector_scalars :=
    tensil_driver_load_model_input_vector_scalars (Platform := platform);
  stopwatch_start := stopwatch_start (Platform := platform);
  tensil_driver_run := tensil_driver_run (Platform := platform);
  stopwatch_stop := stopwatch_stop (Platform := platform);
  stopwatch_elapsed_seconds := stopwatch_elapsed_seconds (Platform := platform);
  tensil_driver_get_model_output_scalars :=
    tensil_driver_get_model_output_scalars (Platform := platform);
  tensil_driver_print_model_output_vectors := fun _ m => (0, m)
|}.

(** The score vector that is [v] at index [k] and zero elsewhere, of
    length [CIFAR_CLASSES_SIZE]. *)
Definition one_hot (k : nat) (v : Z) : list float :=
  map (fun i => if Nat.eqb i k then F32.of_Z v else F32.of_Z 0) (seq 0 10).

(** One record of the dataset file: a label and three constant channels. *)
Definition flat_record (label r g b : byte) : list byte :=
  label :: repeat r 1024 ++ repeat g 1024 ++ repeat b 1024.

(** The end-to-end scenario of the design document: a black image
    labelled 3 and a white image labelled 7, an accelerator that answers
    with the matching one-hot scores, and executions that take 0.1 s and
    0.2 s. *)
Definition two_records : list byte :=
  flat_record x03 x00 x00 x00 ++ flat_record x07 xff xff xff.

(** A dataset of one record whose label byte, 200, names no class. *)
Definition mislabelled : list byte := flat_record xc8 x00 x00 x00.

(** A dataset of one record, labelled 3, whose red channel is black in its
    upper half and saturated in its lower half, over a constant green and
    a constant blue channel. *)
Definition half_lit : list byte :=
  x03 :: (repeat x00 512 ++ repeat xff 512) ++ repeat x80 1024 ++ repeat x33 1024.

Definition scenario : machine :=
  healthy two_records [F32.of_ratio 1 10; F32.of_ratio 2 10]
          [(0, one_hot 3 1); (0, one_hot 7 9)].
End Stub.

(** ** The dataset and the normalisation, in the words of the design document

    These definitions do not come from [main.c]: they restate sections 3,
    4.1, 4.2 and 6 of the design document, so that the harness can be
    compared with them. *)

Definition slice (mem : list byte) (offset len : nat) : list byte :=
  firstn len (skipn offset mem).

(** A record: one label byte, then the red, green and blue channels of 1024
    bytes each. *)
Record image_record : Type := {
  label : Z;
  red_channel : list byte;
  green_channel : list byte;
  blue_channel : list byte
}.

Inductive channel_id : Type := Red | Green | Blue.

Definition channel (r : image_record) (c : channel_id) : list byte :=
  match c with
  | Red => red_channel r
  | Green => green_channel r
  | Blue => blue_channel r
  end.

Definition RECORD_SIZE : nat := 1 + 3 * 1024.

Definition record_at (mem : list byte) (i : nat) : image_record :=
  {| label := byte_value (nth (i * RECORD_SIZE) mem x00);
     red_channel := slice mem (i * RECORD_SIZE + 1) 1024;
     green_channel := slice mem (i * RECORD_SIZE + 1 + 1024) 1024;
     blue_channel := slice mem (i * RECORD_SIZE + 1 + 2048) 1024 |}.

(** Record count = buffer length / record size, remainder ignored. *)
Definition spec_records (mem : list byte) : list image_record :=
  map (record_at mem) (seq 0 (length mem / RECORD_SIZE)).

(** [byteValue/255.0]: the intensity, a whole number from 0 to 255, divided
    by the double-precision constant 255.0. *)
Definition spec_scaled (b : byte) : float :=
  F64.div (F64.of_Z (Z.of_N (Byte.to_N b))) (F64.of_Z 255).

(** The mean of the [/255.0] values of one channel: a single pass in array
    order over a single-precision accumulator that starts at zero, each
    value added in double precision and the sum rounded back, then a
    division by the number of entries. *)
Definition spec_channel_mean (channel : list byte) : float :=
  F32.div
    (fold_left (fun sum b => F32.of_f64 (F64.add (F64.of_f32 sum) (spec_scaled b)))
               channel (F32.of_Z 0))
    (F32.of_Z (Z.of_nat (length channel))).

(** Component [c] of position [j]: [channel[c][j]/255.0 - mean[c]], a
    single-precision value. *)
Definition spec_component (r : image_record) (c : channel_id) (j : nat) : float :=
  F32.of_f64
    (F64.sub (spec_scaled (nth j (channel r c) x00))
             (F64.of_f32 (spec_channel_mean (channel r c)))).

Definition spec_normalized (r : image_record) (j : nat) : list float :=
  map (fun c => spec_component r c j) [Red; Green; Blue].

(** Every input vector the harness has to stage for a dataset, in order:
    for each record, positions 0 to 1023. *)
Definition record_inputs (r : image_record) : list (Z * list float) :=
  map (fun j => (Z.of_nat j, spec_normalized r j)) (seq 0 1024).

Definition spec_inputs (mem : list byte) : list (Z * list float) :=
  flat_map record_inputs (spec_records mem).

(** ** The course of one iteration

    Whatever the collaborators answer, an iteration of the loop takes one of
    six courses.  [image_run] lists them, each with the events it leaves and
    with the values of the loop variables afterwards.  The lemmas
    [image_course] and [images_course] below establish that [image] and the
    loop follow it. *)

Record vars : Type := {
  v_ptr : Z;
  v_misclass_count : Z;
  v_total_seconds : float
}.

Definition vars_of {P : Platform} (st : state) : vars :=
  {| v_ptr := ptr st; v_misclass_count := misclass_count st;
     v_total_seconds := total_seconds st |}.

(** The vector staged for position [j] of the record that starts at [p]. *)
Definition pixel_at (mem : list byte) (p j : Z) : list float :=
  let red := p + 1 in
  let green := red + CIFAR_PIXELS_SIZE in
  let blue := green + CIFAR_PIXELS_SIZE in
  normalized_pixel mem red green blue
    (channel_mean CIFAR_PIXELS_SIZE mem red)
    (channel_mean CIFAR_PIXELS_SIZE mem green)
    (channel_mean CIFAR_PIXELS_SIZE mem blue) j.

Definition load_event (mem : list byte) (p : Z) (j : Z) (error : tensil_error_t) : event :=
  Ev_load_input "x:0" j 3 (pixel_at mem p j) error.

(** Positions [0 .. k-1] staged without error. *)
Definition staged (mem : list byte) (p : Z) (k : nat) : list event :=
  map (fun j => load_event mem p (Z.of_nat j) 0) (seq 0 k).

Definition timed (s : float) : list event :=
  [Ev_stopwatch_start 0; Ev_run 0; Ev_stopwatch_stop; Ev_stopwatch_elapsed_seconds s].

Definition fetched (result : list float) (error : tensil_error_t) : event :=
  Ev_get_output "Identity:0" CIFAR_CLASSES_SIZE result error.

Definition progress_line (i : Z) (s : float) : list event :=
  [Ev_console_set_cursor_position 1 1;
   Ev_printf_progress i (F64.of_f32 (F32.div (F32.of_Z 1) s))
     (nth (Z.to_nat (i mod 4)) progress zero)].

Definition picture_cell (mem : list byte) (p j : Z) : list event :=
  [Ev_console_set_background_color
     (u8read mem (p + 1) j)
     (u8read mem (p + 1 + CIFAR_PIXELS_SIZE) j)
     (u8read mem (p + 1 + CIFAR_PIXELS_SIZE + CIFAR_PIXELS_SIZE) j)] ++
  (if j mod 32 =? 0 then [Ev_printf_newline] else []) ++
  [Ev_printf_cell].

Definition picture (mem : list byte) (p : Z) : list event :=
  [Ev_printf_image] ++
  flat_map (fun j => picture_cell mem p (Z.of_nat j)) (seq 0 1024) ++
  [Ev_printf_newline; Ev_console_reset_background_color].

Definition verdict (expected actual : Z) : list event :=
  [if actual =? expected
   then Ev_console_set_foreground_color 0 255 0
   else Ev_console_set_foreground_color 255 0 0;
   Ev_printf_classes (nth_error cifar_classes (Z.to_nat expected))
                     (nth_error cifar_classes (Z.to_nat actual));
   Ev_console_reset_foreground_color].

(** What the reporting block prints for image [i] when nothing fails. *)
Definition reported (mem : list byte) (print_images : bool) (i p : Z) (s : float)
           (result : list float) : list event :=
  if print_images then
    progress_line i s ++
    (if i mod 100 =? 0 then
       picture mem p ++ [Ev_printf_result; Ev_print_output "Identity:0" 0] ++
       verdict (u8read mem p 0) (argmax CIFAR_CLASSES_SIZE result)
     else [])
  else [].

(** The record at [v_ptr v] has been consumed. *)
Definition consumed (v : vars) : vars :=
  {| v_ptr := v_ptr v + 3073; v_misclass_count := v_misclass_count v;
     v_total_seconds := v_total_seconds v |}.

(** ... and the accelerator has run for [s] seconds. *)
Definition measured (v : vars) (s : float) : vars :=
  {| v_ptr := v_ptr v + 3073; v_misclass_count := v_misclass_count v;
     v_total_seconds := F32.add (v_total_seconds v) s |}.

Definition mismatch (mem : list byte) (p : Z) (result : list float) : bool :=
  negb (argmax CIFAR_CLASSES_SIZE result =? u8read mem p 0).

(** ... and its scores have been compared with the label. *)
Definition scored (mem : list byte) (v : vars) (s : float) (result : list float) : vars :=
  {| v_ptr := v_ptr v + 3073;
     v_misclass_count :=
       if mismatch mem (v_ptr v) result
       then to_size_t (v_misclass_count v + 1) else v_misclass_count v;
     v_total_seconds := F32.add (v_total_seconds v) s |}.

Inductive image_run (mem : list byte) (print_images : bool) (i : Z) (v : vars) :
  result unit -> vars -> list event -> Prop :=
| Load_failed (j : nat) (error : tensil_error_t) :
    (j < 1024)%nat -> error <> 0 ->
    image_run mem print_images i v (Goto_cleanup error) (consumed v)
      (staged mem (v_ptr v) j ++ [load_event mem (v_ptr v) (Z.of_nat j) error])
| Start_failed (error : tensil_error_t) :
    error <> 0 ->
    image_run mem print_images i v (Goto_cleanup error) (consumed v)
      (staged mem (v_ptr v) 1024 ++ [Ev_stopwatch_start error])
| Run_failed (error : tensil_error_t) :
    error <> 0 ->
    image_run mem print_images i v (Goto_cleanup error) (consumed v)
      (staged mem (v_ptr v) 1024 ++ [Ev_stopwatch_start 0; Ev_run error])
| Output_failed (s : float) (result : list float) (error : tensil_error_t) :
    error <> 0 ->
    image_run mem print_images i v (Goto_cleanup error) (measured v s)
      (staged mem (v_ptr v) 1024 ++ timed s ++ [fetched result error])
| Print_failed (s : float) (result : list float) (error : tensil_error_t) :
    error <> 0 -> print_images = true -> i mod 100 = 0 ->
    image_run mem print_images i v (Goto_cleanup error) (scored mem v s result)
      (staged mem (v_ptr v) 1024 ++ timed s ++ [fetched result 0] ++
       progress_line i s ++ picture mem (v_ptr v) ++
       [Ev_printf_result; Ev_print_output "Identity:0" error])
| Completed (s : float) (result : list float) :
    image_run mem print_images i v (Next tt) (scored mem v s result)
      (staged mem (v_ptr v) 1024 ++ timed s ++ [fetched result 0] ++
       reported mem print_images i (v_ptr v) s result).

(** [n] iterations from index [i] on, stopped by the first that fails. *)
Inductive images_run (mem : list byte) (print_images : bool) :
  nat -> Z -> vars -> result unit -> vars -> list event -> Prop :=
| Images_done (i : Z) (v : vars) :
    images_run mem print_images 0 i v (Next tt) v []
| Images_abort (n : nat) (i : Z) (v v' : vars) (error : tensil_error_t)
               (t : list event) :
    image_run mem print_images i v (Goto_cleanup error) v' t ->
    images_run mem print_images (S n) i v (Goto_cleanup error) v' t
| Images_next (n : nat) (i : Z) (v v1 v2 : vars) (r : result unit)
              (t1 t2 : list event) :
    image_run mem print_images i v (Next tt) v1 t1 ->
    images_run mem print_images n (i + 1) v1 r v2 t2 ->
    images_run mem print_images (S n) i v r v2 (t1 ++ t2).

Definition start : vars :=
  {| v_ptr := 0; v_misclass_count := 0; v_total_seconds := F32.of_Z 0 |}.

(** ** Reading a trace *)

(** The error a collaborator reported, if the event is a call that did. *)
Definition failure (e : event) : list tensil_error_t :=
  match e with
  | Ev_load_input _ _ _ _ error
  | Ev_stopwatch_start error
  | Ev_run error
  | Ev_get_output _ _ _ error
  | Ev_print_output _ error => if error =? 0 then [] else [error]
  | _ => []
  end.

Definition failures (t : list event) : list tensil_error_t := flat_map failure t.

(** The three stages of an image: staging its input, executing, fetching
    its scores. *)
Definition stage (e : event) : bool :=
  match e with
  | Ev_load_input _ _ _ _ _ | Ev_run _ | Ev_get_output _ _ _ _ => true
  | _ => false
  end.

Definition input_of (e : event) : list (Z * list float) :=
  match e with
  | Ev_load_input _ j _ pixel _ => [(j, pixel)]
  | _ => []
  end.

(** The vectors handed to the accelerator, with their positions. *)
Definition staged_inputs (t : list event) : list (Z * list float) := flat_map input_of t.

Definition begin_of (e : event) : list unit :=
  match e with
  | Ev_load_input _ j _ _ _ => if j =? 0 then [tt] else []
  | _ => []
  end.

(** The number of images whose staging has begun. *)
Definition images_begun (t : list event) : nat := length (flat_map begin_of t).

Definition run_of (e : event) : list unit :=
  match e with
  | Ev_run error => if error =? 0 then [tt] else []
  | _ => []
  end.

(** The number of executions that completed. *)
Definition images_executed (t : list event) : nat := length (flat_map run_of t).

Definition reading_of (e : event) : list float :=
  match e with
  | Ev_stopwatch_elapsed_seconds s => [s]
  | _ => []
  end.

(** The elapsed times read off the stopwatch. *)
Definition elapsed_readings (t : list event) : list float := flat_map reading_of t.

Definition output_of (e : event) : list (list float) :=
  match e with
  | Ev_get_output _ _ result error => if error =? 0 then [result] else []
  | _ => []
  end.

(** The score vectors fetched without error. *)
Definition fetched_outputs (t : list event) : list (list float) := flat_map output_of t.

Definition summary_of (e : event) : list (Z * float * float) :=
  match e with
  | Ev_printf_summary total_count accuracy fps => [(total_count, accuracy, fps)]
  | _ => []
  end.

Definition summaries (t : list event) : list (Z * float * float) := flat_map summary_of t.

(** The predicted class of each fetched score vector. *)
Definition predictions (t : list event) : list Z :=
  map (argmax CIFAR_CLASSES_SIZE) (fetched_outputs t).

(** The number of score vectors whose [argmax] differs from the label of
    their record; the first vector belongs to record [k]. *)
Definition mismatches_from (mem : list byte) (k : nat) (outs : list (list float)) : Z :=
  Z.of_nat
    (length
       (filter (fun ko => negb (argmax CIFAR_CLASSES_SIZE (snd ko)
                                =? label (record_at mem (fst ko))))
               (combine (seq k (length outs)) outs))).

Definition mismatches (mem : list byte) (outs : list (list float)) : Z :=
  mismatches_from mem 0 outs.

(** The sum of the readings as the loop forms it: in order, in [float]. *)
Definition cumulative (secs : list float) : float :=
  fold_left F32.add secs (F32.of_Z 0).

(** Events of the reporting block that only draw: console calls and the
    [printf]s of the progress line, the picture and the verdict. *)
Definition display (e : event) : bool :=
  match e with
  | Ev_printf_progress _ _ _ | Ev_printf_image | Ev_printf_newline
  | Ev_printf_cell | Ev_printf_result | Ev_printf_classes _ _
  | Ev_console_clear_screen | Ev_console_set_cursor_position _ _
  | Ev_console_set_background_color _ _ _ | Ev_console_reset_background_color
  | Ev_console_set_foreground_color _ _ _ | Ev_console_reset_foreground_color => true
  | _ => false
  end.

(** ** The stopwatch protocol

    A monitor that reads a trace event by event and accepts it only if the
    stopwatch is used the way section 4.3 and section 5 of the design
    document demand.  Its phases say where the current image stands. *)
Inductive phase : Type :=
| Between    (** no image is waiting to be timed: none has begun, or the
                 reading of the last one has been taken *)
| Staging    (** the input of an image is being staged *)
| Armed      (** the stopwatch runs, the execution has not been called *)
| Executed   (** the execution has returned, the stopwatch still runs *)
| Stopped    (** the stopwatch is stopped, its reading not yet taken *)
| Aborted.   (** a call has failed *)

Definition after (error : tensil_error_t) (ph : phase) : phase :=
  if error =? 0 then ph else Aborted.

Definition step (ph : phase) (e : event) : option phase :=
  match ph, e with
  | Between, Ev_load_input _ j _ _ error =>
      if j =? 0 then Some (after error Staging) else None
  | Between, Ev_get_output _ _ _ error => Some (after error Between)
  | Between, Ev_print_output _ error => Some (after error Between)
  | Between, (Ev_printf_testing | Ev_printf_summary _ _ _) => Some Between
  | Staging, Ev_load_input _ _ _ _ error => Some (after error Staging)
  | Staging, Ev_stopwatch_start error => Some (after error Armed)
  | Armed, Ev_run error => Some (after error Executed)
  | Executed, Ev_stopwatch_stop => Some Stopped
  | Stopped, Ev_stopwatch_elapsed_seconds _ => Some Between
  | (Between | Aborted), _ => if display e then Some ph else None
  | _, _ => None
  end.

Fixpoint protocol (ph : phase) (t : list event) : option phase :=
  match t with
  | [] => Some ph
  | e :: t' =>
      match step ph e with
      | Some ph' => protocol ph' t'
      | None => None
      end
  end.

(** The images begun that may still be timed. *)
Definition untimed (ph : phase) : nat :=
  match ph with
  | Staging | Armed | Executed | Stopped => 1
  | Between | Aborted => 0
  end.

(** Events only the reporting block produces: what it draws, and its call
    of the driver's diagnostic printer. *)
Definition reporting (e : event) : bool :=
  match e with
  | Ev_print_output _ _ => true
  | _ => display e
  end.

(** A verdict line whose two names were read inside the class table. *)
Definition in_table (e : event) : bool :=
  match e with
  | Ev_printf_classes None _ | Ev_printf_classes _ None => false
  | _ => true
  end.

(** No read outside [cifar_classes] happens in the run: the behaviour of the
    C code is defined throughout. *)
Definition lookups_in_table (t : list event) : Prop :=
  forall e, In e t -> in_table e = true.

(** The labels that the reporting block looks up, those of the records
    whose index is a multiple of 100, all name a class. *)
Definition reported_labels_in_table (mem : list byte) (total_count : Z) : Prop :=
  forall k : nat,
    Z.of_nat k < total_count -> Z.of_nat k mod 100 = 0 ->
    label (record_at mem k) < CIFAR_CLASSES_SIZE.

(** The diagnostic printer never fails and leaves the machine as it was. *)
Definition quiet_printer {P : Platform} : Prop :=
  forall (name : string) (w : world),
    tensil_driver_print_model_output_vectors name w = (0, w).

(** The events a preview is made of. *)
Definition picture_part (e : event) : bool :=
  match e with
  | Ev_printf_image | Ev_printf_newline | Ev_printf_cell
  | Ev_console_set_background_color _ _ _ | Ev_console_reset_background_color => true
  | _ => false
  end.

(** ** What one iteration can emit

    The events that iteration [i], working on the record at offset [p], can
    leave in the trace, whatever course it takes. *)
Inductive image_event (mem : list byte) (print_images : bool) (i p : Z) :
  event -> Prop :=
| Emits_load (j : Z) (error : tensil_error_t) :
    0 <= j < 1024 ->
    image_event mem print_images i p (load_event mem p j error)
| Emits_start (error : tensil_error_t) :
    image_event mem print_images i p (Ev_stopwatch_start error)
| Emits_run (error : tensil_error_t) :
    image_event mem print_images i p (Ev_run error)
| Emits_stop :
    image_event mem print_images i p Ev_stopwatch_stop
| Emits_reading (s : float) :
    image_event mem print_images i p (Ev_stopwatch_elapsed_seconds s)
| Emits_fetch (result : list float) (error : tensil_error_t) :
    image_event mem print_images i p (fetched result error)
| Emits_cursor :
    print_images = true ->
    image_event mem print_images i p (Ev_console_set_cursor_position 1 1)
| Emits_progress (s : float) :
    print_images = true ->
    image_event mem print_images i p
      (Ev_printf_progress i (F64.of_f32 (F32.div (F32.of_Z 1) s))
                          (nth (Z.to_nat (i mod 4)) progress zero))
| Emits_picture (e : event) :
    print_images = true -> i mod 100 = 0 -> picture_part e = true ->
    image_event mem print_images i p e
| Emits_result :
    print_images = true -> i mod 100 = 0 ->
    image_event mem print_images i p Ev_printf_result
| Emits_print (error : tensil_error_t) :
    print_images = true -> i mod 100 = 0 ->
    image_event mem print_images i p (Ev_print_output "Identity:0" error)
| Emits_colour (r g b : Z) :
    print_images = true -> i mod 100 = 0 ->
    image_event mem print_images i p (Ev_console_set_foreground_color r g b)
| Emits_verdict (result : list float) :
    print_images = true -> i mod 100 = 0 ->
    image_event mem print_images i p
      (Ev_printf_classes
         (nth_error cifar_classes (Z.to_nat (u8read mem p 0)))
         (nth_error cifar_classes (Z.to_nat (argmax CIFAR_CLASSES_SIZE result))))
| Emits_reset :
    print_images = true -> i mod 100 = 0 ->
    image_event mem print_images i p Ev_console_reset_foreground_color.

(** An event of the benchmark: the banner, the console calls around the
    loop, the summary line, or an event of one of its iterations. *)
Inductive benchmark_event (mem : list byte) (print_images : bool) (total_count : Z) :
  event -> Prop :=
| Emits_banner :
    benchmark_event mem print_images total_count Ev_printf_testing
| Emits_clear :
    print_images = true ->
    benchmark_event mem print_images total_count Ev_console_clear_screen
| Emits_home :
    print_images = true ->
    benchmark_event mem print_images total_count (Ev_console_set_cursor_position 1 1)
| Emits_summary (accuracy fps : float) :
    benchmark_event mem print_images total_count
                    (Ev_printf_summary total_count accuracy fps)
| Emits_image (k : nat) (e : event) :
    Z.of_nat k < total_count ->
    image_event mem print_images (Z.of_nat k) (3073 * Z.of_nat k) e ->
    benchmark_event mem print_images total_count e.

(** How the tensors of the model are addressed. *)
Definition well_addressed (e : event) : Prop :=
  match e with
  | Ev_load_input name j size pixel _ =>
      name = "x:0"%string /\ 0 <= j < CIFAR_PIXELS_SIZE /\ size = 3 /\
      length pixel = 3%nat
  | Ev_get_output name size _ _ =>
      name = "Identity:0"%string /\ size = CIFAR_CLASSES_SIZE
  | Ev_print_output name _ => name = "Identity:0"%string
  | _ => True
  end.

(** More readings of a trace. *)

Definition start_of (e : event) : list unit :=
  match e with
  | Ev_stopwatch_start error => if error =? 0 then [tt] else []
  | _ => []
  end.

(** The number of stopwatches started. *)
Definition stopwatches_started (t : list event) : nat := length (flat_map start_of t).

Definition stop_of (e : event) : list unit :=
  match e with
  | Ev_stopwatch_stop => [tt]
  | _ => []
  end.

(** The number of stopwatches stopped. *)
Definition stopwatches_stopped (t : list event) : nat := length (flat_map stop_of t).

Definition failed_run_of (e : event) : list unit :=
  match e with
  | Ev_run error => if error =? 0 then [] else [tt]
  | _ => []
  end.

(** The number of executions that reported an error. *)
Definition executions_failed (t : list event) : nat := length (flat_map failed_run_of t).

Definition progress_of (e : event) : list (Z * ascii) :=
  match e with
  | Ev_printf_progress i _ glyph => [(i, glyph)]
  | _ => []
  end.

(** The progress lines printed: image index and glyph. *)
Definition progress_lines (t : list event) : list (Z * ascii) := flat_map progress_of t.

Definition preview_of (e : event) : list unit :=
  match e with
  | Ev_printf_image => [tt]
  | _ => []
  end.

(** The number of image previews drawn. *)
Definition previews (t : list event) : nat := length (flat_map preview_of t).

Definition print_of (e : event) : list unit :=
  match e with
  | Ev_print_output _ _ => [tt]
  | _ => []
  end.

(** The number of calls of the diagnostic printer. *)
Definition diagnostic_prints (t : list event) : nat := length (flat_map print_of t).

Definition filesystem (e : event) : bool :=
  match e with
  | Ev_f_stat _ | Ev_f_open _ | Ev_f_read _ _ | Ev_f_close => true
  | _ => false
  end.

Definition fs_failure (e : event) : list FRESULT :=
  match e with
  | Ev_f_stat res | Ev_f_open res | Ev_f_read _ res => if res =? 0 then [] else [res]
  | _ => []
  end.

(** The results of the filesystem calls that failed. *)
Definition fs_failures (t : list event) : list FRESULT := flat_map fs_failure t.

Definition open_of (e : event) : list unit :=
  match e with
  | Ev_f_open res => if res =? 0 then [tt] else []
  | _ => []
  end.

Definition close_of (e : event) : list unit :=
  match e with
  | Ev_f_close => [tt]
  | _ => []
  end.

(** The number of files opened, and of files closed. *)
Definition files_opened (t : list event) : nat := length (flat_map open_of t).
Definition files_closed (t : list event) : nat := length (flat_map close_of t).

(** A machine whose dataset file can be found and opened, but not read. *)
Definition unreadable : Stub.machine :=
  {| Stub.file := []; Stub.stat_result := 0; Stub.open_result := 0;
     Stub.read_result := 1; Stub.load_errors := []; Stub.start_errors := [];
     Stub.run_errors := []; Stub.seconds := []; Stub.outputs := [];
     Stub.print_errors := [] |}.

(** ** The entry point

    Lines 208-249.  [main] mounts the card, brings up the accelerator, reads
    the model and loads it, and runs the benchmark on ["test_batch.bin"]
    with live reporting.  The collaborators it adds to those of the
    benchmark: *)

Definition MODEL_FILE_PATH : string := "baseline/resnet20v2_cifar_onnx_zcu104.tmodel".

Class Board := {
  board_platform :: Platform;
  (** [f_mount(&fatfs, path, opt)] *)
  f_mount : string -> Z -> world -> FRESULT * world;
  tensil_driver_init : world -> tensil_error_t * world;
  (** [tensil_model_from_file(&model, file_name)] *)
  tensil_model_from_file : string -> world -> tensil_error_t * world;
  tensil_driver_load_model : world -> tensil_error_t * world;
  tensil_error_print : tensil_error_t -> world -> world
}.

(** One call of [main], with its arguments and what came back; [Ev_test]
    wraps a call made by [test_resnet20v2_on_cifar]. *)
Inductive main_event : Type :=
| Ev_f_mount (path : string) (opt : Z) (res : FRESULT)
| Ev_driver_init (error : tensil_error_t)
| Ev_model_from_file (file_name : string) (error : tensil_error_t)
| Ev_driver_load_model (error : tensil_error_t)
| Ev_test (e : event)
| Ev_error_print (error : tensil_error_t).

(** Lines 211-242: the value of [error] at the label [cleanup], the machine
    and the calls made so far. *)
Definition main_body {B : Board} (w : world) : tensil_error_t * world * list main_event :=
  let '(res, w1) := f_mount "0:/" 0 w in
  if negb (res =? 0) then
    (TENSIL_FS_ERROR res, w1, [Ev_f_mount "0:/" 0 res])
  else
    let '(error, w2) := tensil_driver_init w1 in
    if negb (error =? 0) then
      (error, w2, [Ev_f_mount "0:/" 0 res; Ev_driver_init error])
    else
      let '(error2, w3) := tensil_model_from_file MODEL_FILE_PATH w2 in
      if negb (error2 =? 0) then
        (error2, w3, [Ev_f_mount "0:/" 0 res; Ev_driver_init error;
                      Ev_model_from_file MODEL_FILE_PATH error2])
      else
        let '(error3, w4) := tensil_driver_load_model w3 in
        if negb (error3 =? 0) then
          (error3, w4, [Ev_f_mount "0:/" 0 res; Ev_driver_init error;
                        Ev_model_from_file MODEL_FILE_PATH error2;
                        Ev_driver_load_model error3])
        else
          let r := test_resnet20v2_on_cifar "test_batch.bin" true w4 in
          (returned r, env (final r),
           [Ev_f_mount "0:/" 0 res; Ev_driver_init error;
            Ev_model_from_file MODEL_FILE_PATH error2;
            Ev_driver_load_model error3] ++ map Ev_test (trace r)).

(** What [main] leaves behind: its exit status, the machine and the calls
    it made. *)
Record outcome {B : Board} : Type := {
  status : Z;
  board : world;
  log : list main_event
}.

(** Lines 210-249. *)
Definition main {B : Board} (w : world) : outcome :=
  let '(error, w', t) := main_body w in
  if negb (error =? 0) then
    {| status := 0; board := tensil_error_print error w';
       log := t ++ [Ev_error_print error] |}
  else
    {| status := 0; board := w'; log := t |}.

(** The error of a set-up step that failed. *)
Definition step_error {B : Board} (e : main_event) : list tensil_error_t :=
  match e with
  | Ev_f_mount _ _ res => if res =? 0 then [] else [TENSIL_FS_ERROR res]
  | Ev_driver_init error
  | Ev_model_from_file _ error
  | Ev_driver_load_model error => if error =? 0 then [] else [error]
  | _ => []
  end.

Definition step_errors {B : Board} (t : list main_event) : list tensil_error_t :=
  flat_map step_error t.

Definition test_of (e : main_event) : list event :=
  match e with
  | Ev_test e => [e]
  | _ => []
  end.

(** The calls made by the benchmark. *)
Definition tests (t : list main_event) : list event := flat_map test_of t.

Definition error_print_of (e : main_event) : list tensil_error_t :=
  match e with
  | Ev_error_print error => [error]
  | _ => []
  end.

(** The errors printed. *)
Definition error_prints (t : list main_event) : list tensil_error_t :=
  flat_map error_print_of t.

(** A board on the scripted machine whose set-up steps give fixed answers. *)
Definition stub_board (mount : FRESULT) (init from_file load : tensil_error_t) : Board :=
  {| board_platform := Stub.platform;
     f_mount := fun _ _ m => (mount, m);
     tensil_driver_init := fun m => (init, m);
     tensil_model_from_file := fun _ m => (from_file, m);
     tensil_driver_load_model := fun m => (load, m);
     tensil_error_print := fun _ m => m |}.

(** * Properties *)

(** ** The order of [float] values *)


Lemma SFltb_leb_trans (a b c : float) :
  SFltb a b = true -> SFleb b c = true -> SFltb a c = true.
Proof.
  unfold SFltb, SFleb.
  destruct a as [sa|sa| |sa ma ea], b as [sb|sb| |sb mb eb], c as [sc|sc| |sc mc ec];
    try destruct sa; try destruct sb; try destruct sc;
    cbn [SFcompare]; try discriminate; try reflexivity.
  all: change (Pos.compare_cont Eq ma mb) with (Pos.compare ma mb);
       change (Pos.compare_cont Eq mb mc) with (Pos.compare mb mc);
       change (Pos.compare_cont Eq ma mc) with (Pos.compare ma mc).
  all: destruct (Z.compare_spec ea eb), (Z.compare_spec eb ec), (Z.compare_spec ea ec);
       try lia; try discriminate; try reflexivity.
  all: destruct (Pos.compare_spec ma mb), (Pos.compare_spec mb mc), (Pos.compare_spec ma mc);
       cbn; try lia; try discriminate; try reflexivity.
Qed.

Lemma SFltb_irrefl (a : float) : SFltb a a = false.
Proof.
  unfold SFltb.
  destruct a as [s|s| |s m e]; try destruct s; cbn [SFcompare]; try reflexivity.
  all: rewrite Z.compare_refl;
       change (Pos.compare_cont Eq m m) with (Pos.compare m m);
       rewrite Pos.compare_refl; reflexivity.
Qed.

Lemma SFltb_SFleb (a b : float) : SFltb a b = true -> SFleb a b = true.
Proof. unfold SFltb, SFleb. destruct (SFcompare a b) as [[]|]; easy. Qed.




(** ** Counted loops *)

Lemma for_range_invariant {S : Type} (Inv : Z -> S -> Prop) (body : Z -> S -> S) :
  forall (n : nat) (lo : Z) (s : S),
    Inv lo s ->
    (forall i s', lo <= i < lo + Z.of_nat n -> Inv i s' -> Inv (i + 1) (body i s')) ->
    Inv (lo + Z.of_nat n) (for_range n lo body s).
Proof.
  induction n as [|n IH]; intros lo s H0 Hstep.
  - cbn. now rewrite Z.add_0_r.
  - cbn [for_range].
    replace (lo + Z.of_nat (Datatypes.S n)) with ((lo + 1) + Z.of_nat n) by lia.
    apply IH.
    + apply Hstep; [lia | exact H0].
    + intros i s' Hi. apply Hstep. lia.
Qed.

(** ** [argmax] *)

Lemma argmax_step_inv (buffer : list float) (i : Z) (s : float * Z) :
  1 <= i -> argmax_inv buffer i s -> argmax_inv buffer (i + 1) (argmax_step buffer i s).
Proof.
  intros Hi (Hr & Hm & Hup & Hlo). destruct s as [max max_i]. cbn [fst snd] in *.
  unfold argmax_step. destruct (F32.gt (fread buffer i) max) eqn:Hgt.
  - unfold argmax_inv, F32.gt, F32.ge in *. repeat split; cbn [fst snd]; try lia.
    + intros j Hj. destruct (Z.eq_dec j i) as [->|Hne].
      * apply SFltb_irrefl.
      * destruct (SFltb (fread buffer i) (fread buffer j)) eqn:E; [|reflexivity].
        rewrite <- (Hup j ltac:(lia)). symmetry.
        apply (SFltb_leb_trans _ _ _ Hgt). now apply SFltb_SFleb.
    + intros j Hj.
      destruct (SFleb (fread buffer i) (fread buffer j)) eqn:E; [|reflexivity].
      rewrite <- (Hup j ltac:(lia)). symmetry.
      apply (SFltb_leb_trans _ _ _ Hgt E).
  - repeat split; cbn [fst snd]; try lia; try assumption.
    intros j Hj. destruct (Z.eq_dec j i) as [->|Hne]; [assumption|].
    apply Hup. lia.
Qed.

Lemma argmax_scan (size : Z) (buffer : list float) :
  0 < size ->
  argmax_inv buffer size
    (for_range (Z.to_nat (size - 1)) 1 (argmax_step buffer) (fread buffer 0, 0)).
Proof.
  intros Hs.
  replace size with (1 + Z.of_nat (Z.to_nat (size - 1))) at 1 by lia.
  apply (for_range_invariant (argmax_inv buffer)).
  - repeat split; cbn [fst snd]; try lia; try reflexivity.
    intros j Hj. replace j with 0 by lia. apply SFltb_irrefl.
  - intros i s' Hi. apply argmax_step_inv. lia.
Qed.

Lemma argmax_in_range (size : Z) (buffer : list float) :
  0 < size -> 0 <= argmax size buffer < size.
Proof.
  intros Hs. unfold argmax.
  destruct (Z.eqb_spec size 0) as [->|_]; [lia|].
  apply (argmax_scan size buffer Hs).
Qed.




(** C5, as the code has it.  [argmax] has no error result: on an empty
    vector it returns the sentinel [(size_t)-1], which is [SIZE_MAX] and
    therefore below no length; on every non-empty vector it returns an index
    of the vector. *)
Theorem argmax_empty_sentinel :
  (forall buffer : list float, argmax 0 buffer = SIZE_MAX) /\
  (forall size : Z, to_size_t size <= SIZE_MAX) /\
  (forall (size : Z) (buffer : list float),
     0 < size -> 0 <= argmax size buffer < size).
Proof.
  split; [reflexivity|]. split.
  - intros size. unfold to_size_t, SIZE_MAX.
    pose proof (Z.mod_pos_bound size (2 ^ SIZE_BITS) ltac:(reflexivity)). lia.
  - apply argmax_in_range.
Qed.

Lemma argmax_empty_sentinel_witness :
  0 < 10 /\ 0 <= argmax 10 (Stub.one_hot 7 9) < 10.
Proof.
  split; [reflexivity|].
  exact (proj2 (proj2 argmax_empty_sentinel) 10 (Stub.one_hot 7 9) ltac:(reflexivity)).
Defined.

(** C5, as the design document states it, fails: the empty vector is not
    rejected, and the value returned for it is not an index of the vector. *)
Lemma argmax_empty_not_rejected :
  argmax 0 [] = 18446744073709551615 /\
  ~ (forall (size : Z) (buffer : list float),
       size = Z.of_nat (length buffer) -> 0 <= argmax size buffer < size).
Proof.
  split; [reflexivity|].
  intros H. specialize (H 0 [] eq_refl). lia.
Qed.

(** ** Reading memory through a pointer, and slices *)

Lemma nth_slice (mem : list byte) (offset len k : nat) :
  (k < len)%nat -> nth k (slice mem offset len) x00 = nth (offset + k) mem x00.
Proof.
  intros Hk. unfold slice. rewrite nth_firstn.
  destruct (Nat.ltb_spec k len); [|lia]. apply nth_skipn.
Qed.

Lemma length_slice (mem : list byte) (offset len : nat) :
  (offset + len <= length mem)%nat -> length (slice mem offset len) = len.
Proof.
  intros H. unfold slice. rewrite length_firstn, length_skipn. lia.
Qed.

Lemma u8read_slice (mem : list byte) (base i : Z) (len : nat) :
  0 <= base -> 0 <= i < Z.of_nat len ->
  u8read mem base i = byte_value (nth (Z.to_nat i) (slice mem (Z.to_nat base) len) x00).
Proof.
  intros Hb Hi. unfold u8read. rewrite nth_slice by lia.
  f_equal. f_equal. lia.
Qed.

(** A counted loop that reads [l] front to back is a left fold over [l]. *)
Lemma for_range_fold_left {S : Type} (f : S -> byte -> S) (g : Z -> byte) :
  forall (l : list byte) (lo : Z) (s : S),
    (forall k, (k < length l)%nat -> g (lo + Z.of_nat k) = nth k l x00) ->
    for_range (length l) lo (fun i s' => f s' (g i)) s = fold_left f l s.
Proof.
  induction l as [|b l IH]; intros lo s Hg; [reflexivity|].
  cbn [length for_range fold_left].
  rewrite <- (Z.add_0_r lo) at 2. change 0 with (Z.of_nat 0).
  rewrite (Hg 0%nat) by (cbn; lia). cbn [nth].
  apply IH. intros k Hk.
  replace (lo + 1 + Z.of_nat k) with (lo + Z.of_nat (Datatypes.S k)) by lia.
  apply (Hg (Datatypes.S k)). cbn. lia.
Qed.

(** ** [channel_mean] *)

(** The loop of [channel_mean] is a left fold over the bytes it reads. *)
Lemma channel_mean_fold (mem : list byte) (base : Z) (size : nat) :
  0 <= base -> (Z.to_nat base + size <= length mem)%nat ->
  channel_mean (Z.of_nat size) mem base
  = F32.div
      (fold_left
         (fun sum b => float_add_assign_double sum (CHANNEL_TO_FLOAT (byte_value b)))
         (slice mem (Z.to_nat base) size) (F32.of_Z 0))
      (F32.of_Z (Z.of_nat size)).
Proof.
  intros Hb Hlen. unfold channel_mean. f_equal.
  rewrite Nat2Z.id.
  rewrite <- (length_slice mem (Z.to_nat base) size Hlen) at 1.
  apply (for_range_fold_left
           (fun sum b => float_add_assign_double sum (CHANNEL_TO_FLOAT (byte_value b)))
           (fun i => nth (Z.to_nat (base + i)) mem x00)).
  intros k Hk. rewrite length_slice in Hk by exact Hlen.
  rewrite nth_slice by exact Hk. f_equal. lia.
Qed.

(** A byte is converted to [float] without loss, so that the macro
    [CHANNEL_TO_FLOAT] computes the quotient of the intensity by 255.0. *)
Lemma CHANNEL_TO_FLOAT_scaled (b : byte) :
  CHANNEL_TO_FLOAT (byte_value b) = spec_scaled b.
Proof. destruct b; vm_compute; reflexivity. Qed.

Lemma fold_left_ext {A B : Type} (f g : A -> B -> A) (l : list B) :
  (forall a b, f a b = g a b) -> forall a, fold_left f l a = fold_left g l a.
Proof.
  intros H. induction l as [|b l IH]; intros a; [reflexivity|].
  cbn [fold_left]. rewrite H. apply IH.
Qed.

Lemma channel_mean_slice (mem : list byte) (base : Z) (size : nat) :
  0 <= base -> (Z.to_nat base + size <= length mem)%nat ->
  channel_mean (Z.of_nat size) mem base
  = spec_channel_mean (slice mem (Z.to_nat base) size).
Proof.
  intros Hb Hlen. rewrite (channel_mean_fold mem base size Hb Hlen).
  unfold spec_channel_mean. rewrite length_slice by exact Hlen. f_equal.
  apply fold_left_ext. intros sum b.
  unfold float_add_assign_double. now rewrite CHANNEL_TO_FLOAT_scaled.
Qed.

(** C2.  On a channel of 1024 bytes, wherever it lies in memory,
    [channel_mean] is the sum of the [byte/255.0] values, accumulated from
    zero over the entries in array order, one addition per entry, divided by
    1024. *)
Theorem channel_mean_is_mean :
  forall (mem : list byte) (base : Z),
    0 <= base ->
    base + CIFAR_PIXELS_SIZE <= Z.of_nat (length mem) ->
    let channel := slice mem (Z.to_nat base) 1024 in
    length channel = 1024%nat /\
    (forall k, (k < 1024)%nat -> nth k channel x00 = nth (Z.to_nat base + k) mem x00) /\
    channel_mean CIFAR_PIXELS_SIZE mem base
    = F32.div
        (fold_left
           (fun sum b => F32.of_f64 (F64.add (F64.of_f32 sum)
                                      (F64.div (F64.of_f32 (F32.of_Z (byte_value b)))
                                               (F64.of_Z 255))))
           channel (F32.of_Z 0))
        (F32.of_Z 1024).
Proof.
  intros mem base Hb Hlen channel. unfold CIFAR_PIXELS_SIZE in *.
  assert (Hn : (Z.to_nat base + 1024 <= length mem)%nat) by lia.
  split; [apply length_slice; exact Hn|]. split.
  - intros k Hk. apply nth_slice. exact Hk.
  - change 1024 with (Z.of_nat 1024).
    rewrite (channel_mean_fold mem base 1024 Hb Hn). reflexivity.
Qed.

Lemma channel_mean_is_mean_witness :
  0 <= 1 /\
  1 + CIFAR_PIXELS_SIZE <= Z.of_nat (length (Stub.flat_record x03 x80 x00 xff)) /\
  channel_mean CIFAR_PIXELS_SIZE (Stub.flat_record x03 x80 x00 xff) 1
  = F32.div
      (fold_left
         (fun sum b => F32.of_f64 (F64.add (F64.of_f32 sum)
                                    (F64.div (F64.of_f32 (F32.of_Z (byte_value b)))
                                             (F64.of_Z 255))))
         (slice (Stub.flat_record x03 x80 x00 xff) (Z.to_nat 1) 1024) (F32.of_Z 0))
      (F32.of_Z 1024).
Proof.
  assert (H0 : 0 <= 1) by lia.
  assert (H1 : 1 + CIFAR_PIXELS_SIZE
               <= Z.of_nat (length (Stub.flat_record x03 x80 x00 xff)))
    by (vm_compute; discriminate).
  split; [exact H0|]. split; [exact H1|].
  exact (proj2 (proj2 (channel_mean_is_mean (Stub.flat_record x03 x80 x00 xff) 1 H0 H1))).
Defined.

(** ** The loop follows [image_run] *)

Arguments load_image : simpl never.
Arguments print_image : simpl never.
Arguments channel_mean : simpl never.
Arguments argmax : simpl never.
Arguments to_size_t : simpl never.
Arguments staged : simpl never.
Arguments picture : simpl never.
Arguments pixel_at : simpl never.

Section Course.
Context {P : Platform}.

(** A loop of fallible calls: it stages [n] items, or stops at the first
    call that reports an error. *)
Lemma for_each_calls (f : Z -> world -> tensil_error_t * world)
      (ev : Z -> tensil_error_t -> event) :
  forall (n a : nat) (st : state) (r : result unit) (st' : state) (t : list event),
    for_each n (Z.of_nat a) (fun j => call_ (f j) (ev j)) st = (r, st', t) ->
    vars_of st' = vars_of st /\
    ((r = Next tt /\ t = map (fun j => ev (Z.of_nat j) 0) (seq a n)) \/
     (exists (m : nat) (error : tensil_error_t),
         (m < n)%nat /\ error <> 0 /\ r = Goto_cleanup error /\
         t = map (fun j => ev (Z.of_nat j) 0) (seq a m)
             ++ [ev (Z.of_nat (a + m)) error])).
Proof.
  induction n as [|n IH]; intros a st r st' t H.
  - cbn in H. inversion H; subst. split; [reflexivity|]. left. split; reflexivity.
  - cbn [for_each] in H. unfold bind at 1 in H.
    unfold call_ at 1, call at 1 in H.
    destruct (f (Z.of_nat a) (env st)) as [error w] eqn:Ef.
    destruct (Z.eqb_spec error 0) as [->|Hne].
    + replace (Z.of_nat a + 1) with (Z.of_nat (S a)) in H by lia.
      destruct (for_each n (Z.of_nat (S a)) (fun j => call_ (f j) (ev j)) (set_env w st))
        as [[r2 st2] t2] eqn:E2.
      inversion H; subst; clear H.
      destruct (IH _ _ _ _ _ E2) as [Hv [[-> ->] | (m & e & Hm & He & -> & ->)]].
      * split; [exact Hv|]. left. split; reflexivity.
      * split; [exact Hv|]. right. exists (S m), e.
        repeat split; try lia; try assumption.
        replace (a + S m)%nat with (S a + m)%nat by lia. reflexivity.
    + inversion H; subst; clear H. split; [reflexivity|].
      right. exists 0%nat, error. repeat split; try lia; try assumption.
      cbn. now rewrite Nat.add_0_r.
Qed.

(** A loop that only prints. *)
Lemma for_each_emits (body : Z -> M unit) (evs : Z -> list event) :
  (forall j st, body j st = (Next tt, st, evs j)) ->
  forall (n a : nat) (st : state),
    for_each n (Z.of_nat a) body st
    = (Next tt, st, flat_map (fun j => evs (Z.of_nat j)) (seq a n)).
Proof.
  intros Hb. induction n as [|n IH]; intros a st; [reflexivity|].
  cbn [for_each]. unfold bind. rewrite Hb.
  replace (Z.of_nat a + 1) with (Z.of_nat (S a)) by lia.
  rewrite IH. reflexivity.
Qed.

Lemma load_image_course (mem : list byte) (p : Z) (st : state)
      (r : result unit) (st' : state) (t : list event) :
  load_image mem (p + 1) (p + 1 + CIFAR_PIXELS_SIZE)
             (p + 1 + CIFAR_PIXELS_SIZE + CIFAR_PIXELS_SIZE)
             (channel_mean CIFAR_PIXELS_SIZE mem (p + 1))
             (channel_mean CIFAR_PIXELS_SIZE mem (p + 1 + CIFAR_PIXELS_SIZE))
             (channel_mean CIFAR_PIXELS_SIZE mem
                           (p + 1 + CIFAR_PIXELS_SIZE + CIFAR_PIXELS_SIZE)) st
  = (r, st', t) ->
  vars_of st' = vars_of st /\
  ((r = Next tt /\ t = staged mem p 1024) \/
   (exists (j : nat) (error : tensil_error_t),
       (j < 1024)%nat /\ error <> 0 /\ r = Goto_cleanup error /\
       t = staged mem p j ++ [load_event mem p (Z.of_nat j) error])).
Proof.
  unfold load_image. intros H.
  exact (for_each_calls
           (fun j => tensil_driver_load_model_input_vector_scalars "x:0" j 3
                       (pixel_at mem p j))
           (fun j => load_event mem p j)
           (Z.to_nat CIFAR_PIXELS_SIZE) 0%nat st r st' t H).
Qed.

Lemma print_image_course (mem : list byte) (p : Z) (st : state) :
  print_image mem (p + 1) (p + 1 + CIFAR_PIXELS_SIZE)
              (p + 1 + CIFAR_PIXELS_SIZE + CIFAR_PIXELS_SIZE) st
  = (Next tt, st, picture mem p).
Proof.
  assert (Hcell : forall j st0,
             (emit (Ev_console_set_background_color
                      (u8read mem (p + 1) j)
                      (u8read mem (p + 1 + CIFAR_PIXELS_SIZE) j)
                      (u8read mem (p + 1 + CIFAR_PIXELS_SIZE + CIFAR_PIXELS_SIZE) j)) ;;
              (if j mod 32 =? 0 then emit Ev_printf_newline else ret tt) ;;
              emit Ev_printf_cell)%harness st0
             = (Next tt, st0, picture_cell mem p j)).
  { intros j st0. unfold bind, emit, picture_cell.
    destruct (j mod 32 =? 0); reflexivity. }
  pose proof (for_each_emits _ (picture_cell mem p) Hcell
                             (Z.to_nat CIFAR_PIXELS_SIZE) 0%nat) as E.
  change (Z.of_nat 0) with 0 in E.
  unfold print_image, picture. unfold bind at 1, emit at 1.
  unfold bind at 1. rewrite E. reflexivity.
Qed.
Lemma image_run_eq (mem : list byte) (print_images : bool) (i : Z) (v : vars)
      (r : result unit) (v1 v2 : vars) (t1 t2 : list event) :
  image_run mem print_images i v r v1 t1 -> v1 = v2 -> t1 = t2 ->
  image_run mem print_images i v r v2 t2.
Proof. intros H <- <-. exact H. Qed.

Ltac same_trace :=
  unfold reported, timed, fetched, progress_line, verdict;
  cbn [app v_ptr];
  repeat match goal with
         | H : ?x = 0 |- context [?x =? 0] =>
             rewrite (proj2 (Z.eqb_eq x 0) H)
         | H : ?x <> 0 |- context [?x =? 0] =>
             rewrite (proj2 (Z.eqb_neq x 0) H)
         end;
  cbn [app]; repeat rewrite <- app_assoc; rewrite ?app_nil_r; cbn [app];
  try reflexivity.
Ltac same_vars :=
  unfold consumed, measured, scored, mismatch, vars_of, set_env, set_ptr,
    set_misclass_count, set_total_seconds, CIFAR_PIXELS_SIZE;
  cbn [v_ptr v_misclass_count v_total_seconds ptr misclass_count total_seconds env];
  try match goal with E : negb _ = _ |- _ => rewrite E end;
  f_equal; try lia.
Ltac settle H :=
  unfold set_env, set_ptr, set_misclass_count, set_total_seconds in H;
  cbn [ptr misclass_count total_seconds env Z.eqb] in H.
Ltac course H c :=
  settle H;
  apply pair_equal_spec in H; destruct H as [H ?];
  apply pair_equal_spec in H; destruct H as [? ?];
  subst; eapply image_run_eq;
  [ c; first [eassumption | reflexivity] | same_vars | same_trace ].

Lemma image_course (mem : list byte) (print_images : bool) (i : Z)
      (st : state) (r : result unit) (st' : state) (t : list event) :
  image mem print_images i st = (r, st', t) ->
  image_run mem print_images i (vars_of st) r (vars_of st') t.
Proof.
  intros H. unfold image, classify in H.
  unfold bind, get, put, ret, emit in H.
  match type of H with
  | context [load_image ?a ?b ?c ?d ?e ?f ?g ?s] =>
      destruct (load_image a b c d e f g s) as [[r1 st1] t1] eqn:Hl
  end.
  apply load_image_course in Hl. destruct Hl as [Hv Hl].
  destruct st as [p mc ts w], st1 as [p1 mc1 ts1 w1].
  unfold vars_of, set_ptr in Hv. cbn [ptr misclass_count total_seconds env] in Hv.
  inversion Hv; subst p1 mc1 ts1; clear Hv.
  unfold vars_of. cbn [ptr misclass_count total_seconds env] in *.
  unfold call_, call in H. settle H.
  destruct Hl as [[-> Ht1] | (j & e & Hj & He & -> & Ht1)]; [|course H ltac:(eapply Load_failed)].
  settle H.
  destruct (stopwatch_start w1) as [[e1 sw] w2]. settle H.
  destruct (Z.eqb_spec e1 0) as [->|He1]; [|course H ltac:(eapply Start_failed)].
  settle H.
  destruct (tensil_driver_run w2) as [e2 w3]. settle H.
  destruct (Z.eqb_spec e2 0) as [->|He2]; [|course H ltac:(eapply Run_failed)].
  settle H.
  destruct (stopwatch_stop sw w3) as [sw' w4].
  settle H.
  destruct (tensil_driver_get_model_output_scalars "Identity:0" CIFAR_CLASSES_SIZE w4)
    as [[e3 result] w5]. settle H.
  destruct (Z.eqb_spec e3 0) as [->|He3]; [|course H ltac:(eapply Output_failed)].
  settle H.
  destruct (negb (argmax CIFAR_CLASSES_SIZE result =? u8read mem p 0)) eqn:Emis;
    settle H.
  all: destruct print_images.
  2,4: course H ltac:(apply (Completed _ _ _ _ (stopwatch_elapsed_seconds sw') result)).
  all: unfold report, bind, emit, ret, call_, call in H;
       cbn [seconds red green blue expected_class actual_class] in H.
  all: destruct (Z.eqb_spec (i mod 100) 0) as [Hi|Hi].
  2,4: course H ltac:(apply (Completed _ _ _ _ (stopwatch_elapsed_seconds sw') result)).
  all: rewrite print_image_course in H; settle H.
  all: destruct (tensil_driver_print_model_output_vectors "Identity:0" w5) as [e4 w6];
       settle H.
  all: destruct (Z.eqb_spec e4 0) as [->|He4].
  1,3: course H ltac:(apply (Completed _ _ _ _ (stopwatch_elapsed_seconds sw') result)).
  all: course H ltac:(eapply (Print_failed _ _ _ _ (stopwatch_elapsed_seconds sw') result e4)).
Qed.

Lemma images_course (mem : list byte) (print_images : bool) :
  forall (n : nat) (i : Z) (st : state) (r : result unit) (st' : state)
         (t : list event),
    for_each n i (image mem print_images) st = (r, st', t) ->
    images_run mem print_images n i (vars_of st) r (vars_of st') t.
Proof.
  induction n as [|n IH]; intros i st r st' t H.
  - cbn in H. apply pair_equal_spec in H. destruct H as [H <-].
    apply pair_equal_spec in H. destruct H as [<- <-]. constructor.
  - cbn [for_each] in H. unfold bind at 1 in H.
    destruct (image mem print_images i st) as [[r1 st1] t1] eqn:E1.
    apply image_course in E1.
    destruct r1 as [[]|error].
    + destruct (for_each n (i + 1) (image mem print_images) st1)
        as [[r2 st2] t2] eqn:E2.
      apply IH in E2.
      apply pair_equal_spec in H. destruct H as [H <-].
      apply pair_equal_spec in H. destruct H as [<- <-].
      eapply Images_next; eassumption.
    + apply pair_equal_spec in H. destruct H as [H <-].
      apply pair_equal_spec in H. destruct H as [<- <-].
      apply Images_abort. exact E1.
Qed.
End Course.

(** ** Reading the traces of the six courses *)

Lemma flat_map_silent {A : Type} (f : event -> list A) (t : list event) :
  Forall (fun e => f e = []) t -> flat_map f t = [].
Proof.
  induction 1 as [|e t He _ IH]; [reflexivity|]. cbn. now rewrite He, IH.
Qed.

Lemma staged_loads (mem : list byte) (p : Z) (k : nat) :
  Forall (fun e => exists j, e = load_event mem p j 0) (staged mem p k).
Proof.
  unfold staged. apply Forall_forall. intros e He.
  apply in_map_iff in He. destruct He as (j & <- & _). now exists (Z.of_nat j).
Qed.

Lemma picture_display (mem : list byte) (p : Z) :
  Forall (fun e => display e = true) (picture mem p).
Proof.
  unfold picture.
  apply Forall_app; split; [repeat constructor|].
  apply Forall_app; split; [|repeat constructor].
  apply Forall_flat_map. apply Forall_forall. intros j _.
  unfold picture_cell. destruct (Z.of_nat j mod 32 =? 0); repeat constructor.
Qed.

Lemma silent_staged {A : Type} (f : event -> list A) (mem : list byte) (p : Z) (k : nat) :
  (forall j, f (load_event mem p j 0) = []) -> flat_map f (staged mem p k) = [].
Proof.
  intros Hf. apply flat_map_silent.
  eapply Forall_impl; [|apply staged_loads]. intros e [j ->]. apply Hf.
Qed.

Lemma silent_picture {A : Type} (f : event -> list A) (mem : list byte) (p : Z) :
  (forall e, display e = true -> f e = []) -> flat_map f (picture mem p) = [].
Proof.
  intros Hf. apply flat_map_silent.
  eapply Forall_impl; [|apply picture_display]. exact Hf.
Qed.

Lemma display_no_failure (e : event) : display e = true -> failure e = [].
Proof. destruct e; cbn; congruence. Qed.

Lemma display_no_input (e : event) : display e = true -> input_of e = [].
Proof. destruct e; cbn; congruence. Qed.

Lemma display_no_begin (e : event) : display e = true -> begin_of e = [].
Proof. destruct e; cbn; congruence. Qed.

Lemma display_no_run (e : event) : display e = true -> run_of e = [].
Proof. destruct e; cbn; congruence. Qed.

Lemma display_no_reading (e : event) : display e = true -> reading_of e = [].
Proof. destruct e; cbn; congruence. Qed.

Lemma display_no_output (e : event) : display e = true -> output_of e = [].
Proof. destruct e; cbn; congruence. Qed.

Lemma display_no_summary (e : event) : display e = true -> summary_of e = [].
Proof. destruct e; cbn; congruence. Qed.

Lemma failures_staged mem p k : flat_map failure (staged mem p k) = [].
Proof. now apply silent_staged. Qed.

Lemma runs_staged mem p k : flat_map run_of (staged mem p k) = [].
Proof. now apply silent_staged. Qed.

Lemma readings_staged mem p k : flat_map reading_of (staged mem p k) = [].
Proof. now apply silent_staged. Qed.

Lemma outputs_staged mem p k : flat_map output_of (staged mem p k) = [].
Proof. now apply silent_staged. Qed.

Lemma summaries_staged mem p k : flat_map summary_of (staged mem p k) = [].
Proof. now apply silent_staged. Qed.

Lemma failures_picture mem p : flat_map failure (picture mem p) = [].
Proof. apply silent_picture, display_no_failure. Qed.

Lemma inputs_picture mem p : flat_map input_of (picture mem p) = [].
Proof. apply silent_picture, display_no_input. Qed.

Lemma begins_picture mem p : flat_map begin_of (picture mem p) = [].
Proof. apply silent_picture, display_no_begin. Qed.

Lemma runs_picture mem p : flat_map run_of (picture mem p) = [].
Proof. apply silent_picture, display_no_run. Qed.

Lemma readings_picture mem p : flat_map reading_of (picture mem p) = [].
Proof. apply silent_picture, display_no_reading. Qed.

Lemma outputs_picture mem p : flat_map output_of (picture mem p) = [].
Proof. apply silent_picture, display_no_output. Qed.

Lemma summaries_picture mem p : flat_map summary_of (picture mem p) = [].
Proof. apply silent_picture, display_no_summary. Qed.

Lemma begins_staged mem p k :
  flat_map begin_of (staged mem p k) = match k with O => [] | S _ => [tt] end.
Proof.
  destruct k as [|k]; [reflexivity|].
  unfold staged. cbn [seq map flat_map begin_of load_event Z.of_nat Z.eqb app].
  f_equal. apply flat_map_silent. apply Forall_forall. intros e He.
  apply in_map_iff in He. destruct He as (j & <- & Hj). apply in_seq in Hj.
  cbn. destruct (Z.eqb_spec (Z.of_nat j) 0); [lia | reflexivity].
Qed.

Lemma inputs_staged mem p k :
  flat_map input_of (staged mem p k)
  = map (fun j => (Z.of_nat j, pixel_at mem p (Z.of_nat j))) (seq 0 k).
Proof.
  unfold staged. generalize (seq 0 k). intros l.
  induction l as [|j l IH]; [reflexivity|]. cbn. now rewrite IH.
Qed.

Create Rewrite HintDb trace.
#[global] Hint Rewrite @flat_map_app
  failures_staged runs_staged readings_staged outputs_staged summaries_staged
  failures_picture inputs_picture begins_picture runs_picture readings_picture
  outputs_picture summaries_picture begins_staged inputs_staged
  @app_nil_r @app_nil_l @length_app : trace.

(** Unfold a reading of a trace down to the pieces the courses are made
    of. *)
Ltac read_trace :=
  unfold failures, staged_inputs, images_begun, images_executed, elapsed_readings,
    fetched_outputs, summaries, timed, fetched, progress_line, verdict in *;
  autorewrite with trace in *;
  cbn [flat_map failure input_of begin_of run_of reading_of output_of summary_of
       app Z.eqb load_event length filter] in *.
Lemma image_account (mem : list byte) (print_images : bool) (i : Z) (v : vars)
      (r : result unit) (v' : vars) (t : list event) :
  image_run mem print_images i v r v' t ->
  v_ptr v' = v_ptr v + 3073 /\
  summaries t = [] /\
  v_total_seconds v' = fold_left F32.add (elapsed_readings t) (v_total_seconds v) /\
  images_begun t = 1%nat /\
  ((fetched_outputs t = [] /\ v_misclass_count v' = v_misclass_count v) \/
   (exists out, fetched_outputs t = [out] /\
                v_misclass_count v'
                = if mismatch mem (v_ptr v) out
                  then to_size_t (v_misclass_count v + 1) else v_misclass_count v)) /\
  match r with
  | Next _ =>
      failures t = [] /\ length (fetched_outputs t) = 1%nat /\
      length (elapsed_readings t) = 1%nat /\ images_executed t = 1%nat
  | Goto_cleanup error =>
      error <> 0 /\
      exists pre ev,
        t = pre ++ [ev] /\ failure ev = [error] /\ failures pre = [] /\
        fetched_outputs pre = fetched_outputs t /\
        (stage ev = true -> fetched_outputs t = [])
  end.
Proof.
  intros H.
  assert (Hb : forall j : nat, (j < 1024)%nat ->
             (length match j with O => [] | S _ => [tt] end
              + length ((if (Z.of_nat j =? 0)%Z then [tt] else []) ++ @nil unit))%nat
             = 1%nat).
  { intros [|j] _; [reflexivity|].
    destruct (Z.eqb_spec (Z.of_nat (S j)) 0); [lia | reflexivity]. }
  destruct H as [j error Hj He | error He | error He | s result error He
                | s result error He Hp Hi | s result].
  - read_trace. rewrite ?(proj2 (Z.eqb_neq error 0) He).
    repeat split; auto.
    exists (staged mem (v_ptr v) j), (load_event mem (v_ptr v) (Z.of_nat j) error).
    read_trace. rewrite ?(proj2 (Z.eqb_neq error 0) He). repeat split; auto.
  - read_trace. repeat split; auto.
    exists (staged mem (v_ptr v) 1024), (Ev_stopwatch_start error).
    read_trace. rewrite ?(proj2 (Z.eqb_neq error 0) He). repeat split; auto.
  - read_trace. repeat split; auto.
    exists (staged mem (v_ptr v) 1024 ++ [Ev_stopwatch_start 0]), (Ev_run error).
    read_trace. rewrite ?(proj2 (Z.eqb_neq error 0) He). rewrite <- app_assoc.
    repeat split; auto.
  - read_trace. rewrite ?(proj2 (Z.eqb_neq error 0) He). repeat split; auto.
    exists (staged mem (v_ptr v) 1024 ++ timed s), (fetched result error).
    read_trace. rewrite ?(proj2 (Z.eqb_neq error 0) He). rewrite <- app_assoc.
    repeat split; auto.
  - read_trace. repeat split; auto.
    + right. exists result. split; reflexivity.
    + exists (staged mem (v_ptr v) 1024 ++ timed s ++ [fetched result 0] ++
              progress_line i s ++ picture mem (v_ptr v) ++ [Ev_printf_result]),
             (Ev_print_output "Identity:0" error).
      read_trace. rewrite ?(proj2 (Z.eqb_neq error 0) He).
      repeat split; auto; try (intros Hs; discriminate Hs).
  - assert (Hr : forall {A} (f : event -> list A),
               (forall e, display e = true -> f e = []) ->
               f (Ev_print_output "Identity:0" 0) = [] ->
               flat_map f (reported mem print_images i (v_ptr v) s result) = []).
    { intros A f Hf Hp. unfold reported.
      destruct print_images; [|reflexivity].
      destruct (i mod 100 =? 0); unfold progress_line, verdict;
        rewrite ?flat_map_app, ?(silent_picture f mem (v_ptr v) Hf);
        cbn [flat_map app]; rewrite ?Hp, ?Hf; try reflexivity.
      all: destruct (argmax CIFAR_CLASSES_SIZE result =? u8read mem (v_ptr v) 0);
           reflexivity. }
    read_trace.
    rewrite ?(Hr _ failure display_no_failure eq_refl),
            ?(Hr _ begin_of display_no_begin eq_refl),
            ?(Hr _ run_of display_no_run eq_refl),
            ?(Hr _ reading_of display_no_reading eq_refl),
            ?(Hr _ output_of display_no_output eq_refl),
            ?(Hr _ summary_of display_no_summary eq_refl).
    cbn [app length filter Z.eqb]. repeat split; auto.
    right. exists result. split; reflexivity.
Qed.
Lemma label_record_at (mem : list byte) (k : nat) :
  u8read mem (3073 * Z.of_nat k) 0 = label (record_at mem k).
Proof.
  unfold u8read, record_at, label, RECORD_SIZE. f_equal. f_equal. lia.
Qed.

Lemma mismatches_from_nil (mem : list byte) (k : nat) : mismatches_from mem k [] = 0.
Proof. reflexivity. Qed.

Lemma mismatches_from_cons (mem : list byte) (k : nat) (out : list float)
      (outs : list (list float)) :
  mismatches_from mem k (out :: outs)
  = (if mismatch mem (3073 * Z.of_nat k) out then 1 else 0)
    + mismatches_from mem (S k) outs.
Proof.
  unfold mismatches_from, mismatch. cbn [length seq combine filter fst snd].
  rewrite label_record_at.
  destruct (negb (argmax CIFAR_CLASSES_SIZE out =? label (record_at mem k)));
    cbn [length]; lia.
Qed.

Lemma mismatches_from_bounds (mem : list byte) (outs : list (list float)) :
  forall k, 0 <= mismatches_from mem k outs <= Z.of_nat (length outs).
Proof.
  induction outs as [|out outs IH]; intros k.
  - cbn. lia.
  - rewrite mismatches_from_cons. specialize (IH (S k)). cbn [length].
    destruct (mismatch mem (3073 * Z.of_nat k) out); lia.
Qed.

Lemma to_size_t_small (z : Z) : 0 <= z < 2 ^ 64 -> to_size_t z = z.
Proof. intros H. unfold to_size_t, SIZE_BITS. now apply Z.mod_small. Qed.

Lemma images_account (mem : list byte) (print_images : bool) :
  forall (n : nat) (i : Z) (v : vars) (r : result unit) (v' : vars) (t : list event),
    images_run mem print_images n i v r v' t ->
    forall k : nat,
      i = Z.of_nat k -> v_ptr v = 3073 * i ->
      0 <= v_misclass_count v -> v_misclass_count v + Z.of_nat n < 2 ^ 64 ->
      summaries t = [] /\
      v_total_seconds v' = fold_left F32.add (elapsed_readings t) (v_total_seconds v) /\
      v_misclass_count v'
      = v_misclass_count v + mismatches_from mem k (fetched_outputs t) /\
      (length (fetched_outputs t) <= n)%nat /\
      match r with
      | Next _ =>
          failures t = [] /\ length (fetched_outputs t) = n /\
          length (elapsed_readings t) = n /\ images_begun t = n /\
          images_executed t = n /\ v_ptr v' = 3073 * (i + Z.of_nat n)
      | Goto_cleanup error =>
          error <> 0 /\
          exists pre ev,
            t = pre ++ [ev] /\ failure ev = [error] /\ failures pre = [] /\
            fetched_outputs pre = fetched_outputs t /\
            (stage ev = true -> images_begun t = S (length (fetched_outputs t)))
      end.
Proof.
  induction 1 as [i v | n i v v' error t Himg | n i v v1 v2 r t1 t2 Himg Hrest IH];
    intros k Hk Hp Hm0 Hm1.
  - cbn [fetched_outputs elapsed_readings summaries failures images_begun
              images_executed flat_map fold_left length filter Z.of_nat].
    rewrite mismatches_from_nil, !Z.add_0_r. repeat split; auto.
  - apply image_account in Himg.
    destruct Himg as (Hptr & Hsum & Hsec & Hbeg & Hout & He & pre & ev & Ht & Hf & Hpre & Hop & Hst).
    repeat split; auto.
    + destruct Hout as [[-> ->] | (out & -> & ->)].
      * rewrite mismatches_from_nil. lia.
      * rewrite mismatches_from_cons, mismatches_from_nil, Hp, Hk.
        destruct (mismatch mem (3073 * Z.of_nat k) out); [|lia].
        rewrite to_size_t_small; lia.
    + destruct Hout as [[-> _] | (out & -> & _)]; cbn; lia.
    + exists pre, ev. repeat split; auto.
      intros Hs. rewrite Hbeg, (Hst Hs). reflexivity.
  - apply image_account in Himg.
    destruct Himg as (Hptr & Hsum & Hsec & Hbeg & Hout & Hf & Ho1 & He1 & Hx1).
    assert (Hmis : v_misclass_count v1
                   = v_misclass_count v + mismatches_from mem k (fetched_outputs t1)
                   /\ 0 <= v_misclass_count v1 <= v_misclass_count v + 1).
    { destruct Hout as [[E _] | (out & E & ->)]; [rewrite E in Ho1; discriminate|].
      rewrite E, mismatches_from_cons, mismatches_from_nil, Hp, Hk.
      destruct (mismatch mem (3073 * Z.of_nat k) out);
        [rewrite to_size_t_small|]; lia. }
    destruct Hmis as [Hmis Hb1].
    destruct (IH (S k)) as (Hsum2 & Hsec2 & Hmis2 & Hlen2 & Hr); try lia.
    assert (Hout1 : exists out, fetched_outputs t1 = [out]).
    { destruct (fetched_outputs t1) as [|out [|]]; try discriminate. now exists out. }
    destruct Hout1 as [out Eo].
    assert (Es : summaries (t1 ++ t2) = [])
      by (unfold summaries in *; now rewrite flat_map_app, Hsum, Hsum2).
    assert (Eo' : fetched_outputs (t1 ++ t2) = out :: fetched_outputs t2)
      by (unfold fetched_outputs in *; now rewrite flat_map_app, Eo).
    assert (Er : elapsed_readings (t1 ++ t2) = elapsed_readings t1 ++ elapsed_readings t2)
      by (unfold elapsed_readings; now rewrite flat_map_app).
    assert (Eb : images_begun (t1 ++ t2) = S (images_begun t2))
      by (unfold images_begun in *; now rewrite flat_map_app, length_app, Hbeg).
    assert (Ef : failures (t1 ++ t2) = failures t2)
      by (unfold failures in *; now rewrite flat_map_app, Hf).
    repeat split.
    + exact Es.
    + rewrite Er, fold_left_app, <- Hsec. exact Hsec2.
    + rewrite Eo', mismatches_from_cons, Hmis2, Hmis, Eo, mismatches_from_cons,
        mismatches_from_nil. lia.
    + rewrite Eo'. cbn [length]. lia.
    + destruct r as [[]|error].
      * destruct Hr as (Hf2 & Ho2 & He2 & Hb2 & Hx2 & Hp2).
        repeat split.
        -- now rewrite Ef.
        -- rewrite Eo'. cbn [length]. lia.
        -- rewrite Er, length_app. lia.
        -- rewrite Eb. lia.
        -- unfold images_executed in *. rewrite flat_map_app, length_app. lia.
        -- rewrite Hp2. lia.
      * destruct Hr as (He & pre & ev & -> & Hfe & Hpre & Hop & Hst).
        split; [exact He|].
        exists (t1 ++ pre), ev. repeat split.
        -- now rewrite app_assoc.
        -- exact Hfe.
        -- unfold failures in *. now rewrite flat_map_app, Hf, Hpre.
        -- unfold fetched_outputs in *.
           rewrite (flat_map_app _ t1 pre), (flat_map_app _ t1 (pre ++ [ev])), Hop.
           reflexivity.
        -- intros Hs. rewrite Eb, Eo', (Hst Hs). reflexivity.
Qed.

(** ** The whole benchmark *)

Lemma benchmark_course {P : Platform} (mem : list byte) (fsize : Z)
      (print_images : bool) (w : world) :
  exists (r : result unit) (t : list event),
    images_run mem print_images (Z.to_nat (to_size_t (to_size_t fsize / 3073))) 0 start r
               (vars_of (final (benchmark mem fsize print_images w))) t /\
    returned (benchmark mem fsize print_images w) = error_of r /\
    trace (benchmark mem fsize print_images w)
    = [Ev_printf_testing] ++
      (if print_images then [Ev_console_clear_screen] else []) ++
      t ++ cleanup print_images (error_of r) (to_size_t (to_size_t fsize / 3073))
                   (misclass_count (final (benchmark mem fsize print_images w)))
                   (total_seconds (final (benchmark mem fsize print_images w))).
Proof.
  unfold benchmark.
  change (CIFAR_PIXELS_SIZE * 3 + 1) with 3073.
  destruct (for_each (Z.to_nat (to_size_t (to_size_t fsize / 3073))) 0
                     (image mem print_images) (initial w))
    as [[r st] t] eqn:E.
  apply images_course in E. exists r, t. cbn [returned final trace].
  repeat split. exact E.
Qed.

Lemma total_count_range (fsize : Z) :
  to_size_t (to_size_t fsize / 3073) = to_size_t fsize / 3073 /\
  0 <= to_size_t fsize / 3073 < 2 ^ 64.
Proof.
  unfold to_size_t, SIZE_BITS.
  pose proof (Z.mod_pos_bound fsize (2 ^ 64) ltac:(lia)) as H.
  assert (0 <= fsize mod 2 ^ 64 / 3073 <= fsize mod 2 ^ 64).
  { split; [apply Z.div_pos; lia|].
    apply Z.div_le_upper_bound; lia. }
  split; [apply Z.mod_small|]; lia.
Qed.

(** The readings of a whole run, from the accounts of its loop. *)
Lemma benchmark_account {P : Platform} (mem : list byte) (fsize : Z)
      (print_images : bool) (w : world) :
  let total_count := to_size_t fsize / 3073 in
  let b := benchmark mem fsize print_images w in
  exists (r : result unit) (t : list event),
    returned b = error_of r /\
    trace b = [Ev_printf_testing] ++
              (if print_images then [Ev_console_clear_screen] else []) ++
              t ++ cleanup print_images (error_of r) total_count
                           (misclass_count (final b)) (total_seconds (final b)) /\
    images_run mem print_images (Z.to_nat total_count) 0 start r (vars_of (final b)) t /\
    summaries t = [] /\
    total_seconds (final b) = cumulative (elapsed_readings t) /\
    misclass_count (final b) = mismatches mem (fetched_outputs t) /\
    match r with
    | Next _ =>
        failures t = [] /\
        length (fetched_outputs t) = Z.to_nat total_count /\
        length (elapsed_readings t) = Z.to_nat total_count /\
        images_begun t = Z.to_nat total_count /\
        images_executed t = Z.to_nat total_count /\
        ptr (final b) = 3073 * total_count
    | Goto_cleanup error =>
        error <> 0 /\
        exists pre ev,
          t = pre ++ [ev] /\ failure ev = [error] /\ failures pre = [] /\
          fetched_outputs pre = fetched_outputs t /\
          (stage ev = true -> images_begun t = S (length (fetched_outputs t)))
    end.
Proof.
  intros total_count b.
  destruct (benchmark_course mem fsize print_images w) as (r & t & Hrun & Hret & Htr).
  destruct (total_count_range fsize) as [Etot Htot].
  rewrite Etot in Hrun, Htr. subst total_count b.
  exists r, t. split; [exact Hret|]. split; [exact Htr|]. split; [exact Hrun|].
  destruct (images_account mem print_images _ _ _ _ _ _ Hrun 0%nat)
    as (Hsum & Hsec & Hmis & Hlen & Hr); try reflexivity.
  { cbn. lia. }
  cbn [start v_total_seconds v_misclass_count vars_of] in Hsec, Hmis.
  repeat split; try assumption.
  destruct r as [[]|error]; [|exact Hr].
  destruct Hr as (? & ? & ? & ? & ? & Hp). repeat split; try assumption.
  cbn [vars_of v_ptr] in Hp. rewrite Hp. lia.
Qed.
(** [test_resnet20v2_on_cifar] is [benchmark] after the file has been
    read; if [f_stat], [f_open] or [f_read] fails it returns before. *)
Lemma test_resnet20v2_on_cifar_loaded {P : Platform} (file_name : string)
      (print_images : bool) (w w1 w2 w3 : world) (fsize : Z) (mem : list byte) :
  f_stat file_name w = (0, fsize, w1) ->
  f_open file_name w1 = (0, w2) ->
  f_read (to_UINT fsize) w2 = (0, mem, w3) ->
  test_resnet20v2_on_cifar file_name print_images w
  = prepend [Ev_f_stat 0; Ev_f_open 0; Ev_printf_reading file_name;
             Ev_f_read (to_UINT fsize) 0; Ev_f_close]
            (benchmark mem fsize print_images (f_close w3)).
Proof.
  intros E1 E2 E3. unfold test_resnet20v2_on_cifar. rewrite E1. cbn [Z.eqb negb].
  rewrite E2. cbn [Z.eqb negb]. rewrite E3. reflexivity.
Qed.

Lemma test_resnet20v2_on_cifar_not_loaded {P : Platform} (file_name : string)
      (print_images : bool) (w : world) :
  fst (fst (f_stat file_name w)) <> 0 ->
  returned (test_resnet20v2_on_cifar file_name print_images w)
  = TENSIL_FS_ERROR (fst (fst (f_stat file_name w))) /\
  trace (test_resnet20v2_on_cifar file_name print_images w)
  = [Ev_f_stat (fst (fst (f_stat file_name w)))].
Proof.
  intros H. unfold test_resnet20v2_on_cifar.
  destruct (f_stat file_name w) as [[res fsize] w1]. cbn [fst] in *.
  rewrite (proj2 (Z.eqb_neq res 0) H). split; reflexivity.
Qed.

(** The end-to-end scenario of the design document, run on the scripted
    machine: classes 3 and 7 are predicted, nothing is misclassified, and
    the summary reports 2 images with accuracy 1.0. *)
Example scenario_runs :
  let b := test_resnet20v2_on_cifar (P := Stub.platform) "test_batch.bin" true
                                    Stub.scenario in
  returned b = TENSIL_ERROR_NONE /\
  predictions (trace b) = [3; 7] /\
  misclass_count (final b) = 0 /\
  summaries (trace b)
  = [(2, F64.of_Z 1, F64.of_f32 (F32.div (F32.of_Z 2) (F32.of_ratio 3 10)))].
Proof. vm_compute. repeat split; reflexivity. Qed.

(** The events around the loop carry none of the readings. *)
Lemma around_loop {A : Type} (f : event -> list A) (print_images : bool)
      (t : list event) :
  (forall e, display e = true -> f e = []) -> f Ev_printf_testing = [] ->
  flat_map f ([Ev_printf_testing] ++
              (if print_images then [Ev_console_clear_screen] else []) ++ t ++
              (if print_images
               then [Ev_console_clear_screen; Ev_console_set_cursor_position 1 1]
               else []))
  = flat_map f t.
Proof.
  intros Hd Ht. rewrite !flat_map_app.
  destruct print_images; cbn [flat_map app]; rewrite ?Ht, ?Hd, ?app_nil_r; reflexivity.
Qed.

(** C7.  A run that completes ends with the summary line.  The accuracy it
    prints is [1.0 - (float)misclassified / (float)total] and the rate is
    [(float)total / cumulative], where [total] is the number of images,
    [misclassified] the number of fetched score vectors whose [argmax]
    differs from the record's label, and [cumulative] the [float] sum of the
    stopwatch readings, one per image, in order.  With readings 0.1 s and
    0.2 s the rate printed is [2 / 0.3f], not the mean 7.5 of the two
    instantaneous rates. *)
Theorem summary_accuracy_and_throughput :
  (forall (P : Platform) (mem : list byte) (fsize : Z) (print_images : bool)
          (w : world),
      let b := benchmark mem fsize print_images w in
      returned b = TENSIL_ERROR_NONE ->
      exists pre : list event,
        let total := to_size_t fsize / 3073 in
        let misclassified := mismatches mem (fetched_outputs pre) in
        let seconds := cumulative (elapsed_readings pre) in
        trace b
        = pre ++
          [Ev_printf_summary total
             (F64.sub (F64.of_Z 1)
                (F64.of_f32 (F32.div (F32.of_Z misclassified) (F32.of_Z total))))
             (F64.of_f32 (F32.div (F32.of_Z total) seconds))] /\
        summaries pre = [] /\
        Z.of_nat (length (fetched_outputs pre)) = total /\
        Z.of_nat (length (elapsed_readings pre)) = total) /\
  (let b := benchmark (P := Stub.platform) Stub.two_records 6146 false Stub.scenario in
   elapsed_readings (trace b) = [F32.of_ratio 1 10; F32.of_ratio 2 10] /\
   summaries (trace b)
   = [(2, F64.of_Z 1, F64.of_f32 (F32.div (F32.of_Z 2) (F32.of_ratio 3 10)))] /\
   F32.div (F32.add (F32.div (F32.of_Z 1) (F32.of_ratio 1 10))
                    (F32.div (F32.of_Z 1) (F32.of_ratio 2 10))) (F32.of_Z 2)
   = F32.of_ratio 15 2 /\
   F32.eq (F32.div (F32.of_Z 2) (F32.of_ratio 3 10)) (F32.of_ratio 15 2) = false).
Proof.
  split; [|vm_compute; repeat split; reflexivity].
  intros P mem fsize print_images w b Hret.
  destruct (benchmark_account mem fsize print_images w)
    as (r & t & Hr & Htr & _ & Hsum & Hsec & Hmis & Hcase).
  fold b in Hr, Htr, Hsec, Hmis, Hcase.
  destruct r as [[]|error].
  2:{ cbn in Hr. destruct Hcase as [He _]. unfold TENSIL_ERROR_NONE in Hret. congruence. }
  destruct Hcase as (_ & Hlo & Hle & _).
  destruct (total_count_range fsize) as [_ Htot].
  exists ([Ev_printf_testing] ++
          (if print_images then [Ev_console_clear_screen] else []) ++ t ++
          (if print_images
           then [Ev_console_clear_screen; Ev_console_set_cursor_position 1 1]
           else [])).
  cbv zeta. unfold summaries, fetched_outputs, elapsed_readings.
  rewrite (around_loop summary_of), (around_loop output_of), (around_loop reading_of);
    try reflexivity;
    try apply display_no_summary; try apply display_no_output;
    try apply display_no_reading.
  fold (fetched_outputs t) (elapsed_readings t) (summaries t).
  rewrite Htr, Hmis, Hsec, Hlo, Hle. cbn [error_of cleanup Z.eqb TENSIL_ERROR_NONE].
  repeat split; try assumption; try lia.
  rewrite <- !app_assoc. reflexivity.
Qed.

Lemma summary_accuracy_and_throughput_witness :
  let b := benchmark (P := Stub.platform) Stub.two_records 6146 true Stub.scenario in
  returned b = TENSIL_ERROR_NONE /\
  exists pre : list event,
    trace b
    = pre ++
      [Ev_printf_summary (to_size_t 6146 / 3073)
         (F64.sub (F64.of_Z 1)
            (F64.of_f32 (F32.div (F32.of_Z (mismatches Stub.two_records (fetched_outputs pre)))
                                 (F32.of_Z (to_size_t 6146 / 3073)))))
         (F64.of_f32 (F32.div (F32.of_Z (to_size_t 6146 / 3073))
                              (cumulative (elapsed_readings pre))))] /\
    summaries pre = [] /\
    Z.of_nat (length (fetched_outputs pre)) = to_size_t 6146 / 3073 /\
    Z.of_nat (length (elapsed_readings pre)) = to_size_t 6146 / 3073.
Proof.
  intros b.
  assert (H : returned b = TENSIL_ERROR_NONE) by (vm_compute; reflexivity).
  split; [exact H|].
  exact (proj1 summary_accuracy_and_throughput Stub.platform Stub.two_records 6146 true
               Stub.scenario H).
Defined.
(** C6.  When a collaborator called for an image reports an error, that
    call is the last the benchmark makes: before it no call failed, after it
    come only the two console calls that reset the screen when live
    reporting is on.  The benchmark returns that error, prints no summary
    line, and its misclassification counter holds the mismatches among the
    score vectors fetched before the failure.  When the failing call stages
    an input, executes, or fetches the scores, the image it belongs to is
    one more than those counted. *)
Theorem failure_aborts_benchmark :
  forall (P : Platform) (mem : list byte) (fsize : Z) (print_images : bool)
         (w : world),
    let b := benchmark mem fsize print_images w in
    failures (trace b) <> [] ->
    exists (pre : list event) (ev : event) (error : tensil_error_t),
      trace b
      = pre ++ ev ::
        (if print_images
         then [Ev_console_clear_screen; Ev_console_set_cursor_position 1 1]
         else []) /\
      failure ev = [error] /\ error <> TENSIL_ERROR_NONE /\
      failures pre = [] /\
      returned b = error /\
      summaries (trace b) = [] /\
      misclass_count (final b) = mismatches mem (fetched_outputs pre) /\
      (stage ev = true ->
       images_begun (pre ++ [ev]) = S (length (fetched_outputs pre))).
Proof.
  intros P mem fsize print_images w b Hfail.
  destruct (benchmark_account mem fsize print_images w)
    as (r & t & Hr & Htr & _ & Hsum & Hsec & Hmis & Hcase).
  fold b in Hr, Htr, Hsec, Hmis, Hcase.
  assert (Hcl : forall error, error <> 0 ->
            cleanup print_images error (to_size_t fsize / 3073)
                    (misclass_count (final b)) (total_seconds (final b))
            = if print_images
              then [Ev_console_clear_screen; Ev_console_set_cursor_position 1 1]
              else []).
  { intros error He. unfold cleanup, TENSIL_ERROR_NONE.
    rewrite (proj2 (Z.eqb_neq error 0) He). apply app_nil_r. }
  destruct r as [[]|error].
  - exfalso. apply Hfail. destruct Hcase as (Hf & _).
    rewrite Htr. cbn [error_of]. unfold cleanup, TENSIL_ERROR_NONE. cbn [Z.eqb].
    unfold failures in *. rewrite !flat_map_app, Hf.
    destruct print_images; reflexivity.
  - destruct Hcase as (He & pre & ev & -> & Hfe & Hpre & Hop & Hst).
    cbn [error_of] in Hr, Htr. rewrite (Hcl error He) in Htr.
    exists ([Ev_printf_testing] ++
            (if print_images then [Ev_console_clear_screen] else []) ++ pre), ev, error.
    assert (Eo : fetched_outputs
                   ([Ev_printf_testing] ++
                    (if print_images then [Ev_console_clear_screen] else []) ++ pre)
                 = fetched_outputs pre).
    { unfold fetched_outputs. rewrite !flat_map_app.
      destruct print_images; reflexivity. }
    repeat split.
    + rewrite Htr. rewrite <- !app_assoc. reflexivity.
    + exact Hfe.
    + exact He.
    + unfold failures in *. rewrite !flat_map_app, Hpre.
      destruct print_images; reflexivity.
    + exact Hr.
    + rewrite Htr. unfold summaries in *.
      rewrite (flat_map_app summary_of [Ev_printf_testing]).
      rewrite (flat_map_app summary_of (if print_images then _ else _)).
      rewrite (flat_map_app summary_of (pre ++ [ev])), Hsum.
      destruct print_images; reflexivity.
    + rewrite Eo, Hop. exact Hmis.
    + intros Hs. rewrite Eo, Hop, <- (Hst Hs).
      unfold images_begun. rewrite <- !app_assoc, !flat_map_app.
      destruct print_images; reflexivity.
Qed.

Lemma failure_aborts_benchmark_witness :
  let b := benchmark (P := Stub.platform) Stub.two_records 6146 true
                     (Stub.with_run_errors [0; 5] Stub.scenario) in
  failures (trace b) <> [] /\
  exists (pre : list event) (ev : event) (error : tensil_error_t),
    trace b
    = pre ++ [ev; Ev_console_clear_screen; Ev_console_set_cursor_position 1 1] /\
    failure ev = [error] /\ error <> TENSIL_ERROR_NONE /\
    failures pre = [] /\
    returned b = error /\
    summaries (trace b) = [] /\
    misclass_count (final b) = mismatches Stub.two_records (fetched_outputs pre) /\
    (stage ev = true ->
     images_begun (pre ++ [ev]) = S (length (fetched_outputs pre))).
Proof.
  intros b.
  assert (H : failures (trace b) <> []) by (vm_compute; discriminate).
  split; [exact H|].
  exact (failure_aborts_benchmark Stub.platform Stub.two_records 6146 true
           (Stub.with_run_errors [0; 5] Stub.scenario) H).
Defined.
(** ** The staged inputs against the design document's normalisation *)

Lemma record_offsets (k : nat) :
  Z.to_nat (3073 * Z.of_nat k + 1) = (k * RECORD_SIZE + 1)%nat /\
  Z.to_nat (3073 * Z.of_nat k + 1 + CIFAR_PIXELS_SIZE) = (k * RECORD_SIZE + 1 + 1024)%nat /\
  Z.to_nat (3073 * Z.of_nat k + 1 + CIFAR_PIXELS_SIZE + CIFAR_PIXELS_SIZE)
  = (k * RECORD_SIZE + 1 + 2048)%nat.
Proof. unfold RECORD_SIZE, CIFAR_PIXELS_SIZE. repeat split; lia. Qed.

Lemma channel_mean_pixels (mem : list byte) (base : Z) :
  0 <= base -> (Z.to_nat base + 1024 <= length mem)%nat ->
  channel_mean CIFAR_PIXELS_SIZE mem base
  = spec_channel_mean (slice mem (Z.to_nat base) 1024).
Proof. apply (channel_mean_slice mem base 1024). Qed.

Lemma pixel_at_spec (mem : list byte) (k j : nat) :
  (S k * RECORD_SIZE <= length mem)%nat -> (j < 1024)%nat ->
  pixel_at mem (3073 * Z.of_nat k) (Z.of_nat j) = spec_normalized (record_at mem k) j.
Proof.
  intros Hlen Hj.
  destruct (record_offsets k) as (Er & Eg & Eb).
  assert (Hl : (k * RECORD_SIZE + 3073 <= length mem)%nat)
    by (unfold RECORD_SIZE in *; lia).
  unfold pixel_at, normalized_pixel, spec_normalized, spec_component, record_at, channel.
  cbn [map red_channel green_channel blue_channel].
  rewrite !channel_mean_pixels by (unfold CIFAR_PIXELS_SIZE; lia).
  rewrite !(u8read_slice mem _ _ 1024) by (unfold CIFAR_PIXELS_SIZE; lia).
  rewrite !CHANNEL_TO_FLOAT_scaled.
  rewrite Er, Eg, Eb, Nat2Z.id. reflexivity.
Qed.

Lemma map_seq_prefix {A : Type} (f : nat -> A) (N m : nat) :
  (m <= N)%nat -> exists rest, map f (seq 0 N) = map f (seq 0 m) ++ rest.
Proof.
  intros H. exists (map f (seq m (N - m))).
  rewrite <- map_app, <- seq_app. do 2 f_equal. lia.
Qed.

Lemma image_inputs (mem : list byte) (print_images : bool) (i : Z) (v : vars)
      (r : result unit) (v' : vars) (t : list event) :
  image_run mem print_images i v r v' t ->
  exists m : nat,
    (m <= 1024)%nat /\
    staged_inputs t
    = map (fun j => (Z.of_nat j, pixel_at mem (v_ptr v) (Z.of_nat j))) (seq 0 m) /\
    (r = Next tt -> m = 1024%nat).
Proof.
  intros H.
  destruct H as [j error Hj He | error He | error He | s result error He
                | s result error He Hp Hi | s result].
  - exists (S j). read_trace. rewrite seq_S, map_app. cbn [map Nat.add].
    repeat split; try lia; try discriminate; try reflexivity.
  - exists 1024%nat. read_trace. repeat split; try lia; try discriminate; try reflexivity.
  - exists 1024%nat. read_trace. repeat split; try lia; try discriminate; try reflexivity.
  - exists 1024%nat. read_trace. repeat split; try lia; try discriminate; try reflexivity.
  - exists 1024%nat. read_trace. repeat split; try lia; try discriminate; try reflexivity.
  - exists 1024%nat. read_trace.
    assert (Hr : flat_map input_of (reported mem print_images i (v_ptr v) s result) = []).
    { unfold reported. destruct print_images; [|reflexivity].
      destruct (i mod 100 =? 0); unfold progress_line, verdict;
        rewrite ?flat_map_app, ?inputs_picture; cbn [flat_map app input_of]; try reflexivity.
      destruct (argmax CIFAR_CLASSES_SIZE result =? u8read mem (v_ptr v) 0); reflexivity. }
    rewrite Hr, app_nil_r. repeat split; try lia; try reflexivity.
Qed.

Lemma images_inputs (mem : list byte) (print_images : bool) :
  forall (n : nat) (i : Z) (v : vars) (r : result unit) (v' : vars) (t : list event),
    images_run mem print_images n i v r v' t ->
    forall k : nat,
      i = Z.of_nat k -> v_ptr v = 3073 * i ->
      ((k + n) * RECORD_SIZE <= length mem)%nat ->
      exists rest,
        flat_map record_inputs (map (record_at mem) (seq k n)) = staged_inputs t ++ rest /\
        (r = Next tt -> rest = []).
Proof.
  assert (Himg : forall i v r v' t (k : nat),
             image_run mem print_images i v r v' t ->
             v_ptr v = 3073 * Z.of_nat k ->
             (S k * RECORD_SIZE <= length mem)%nat ->
             exists rest, record_inputs (record_at mem k) = staged_inputs t ++ rest /\
                          (r = Next tt -> rest = [])).
  { intros i v r v' t k H Hp Hlen.
    destruct (image_inputs _ _ _ _ _ _ _ H) as (m & Hm & -> & Hfull).
    rewrite Hp. unfold record_inputs.
    rewrite (map_ext_in (fun j => (Z.of_nat j, pixel_at mem (3073 * Z.of_nat k) (Z.of_nat j)))
                        (fun j => (Z.of_nat j, spec_normalized (record_at mem k) j))).
    2:{ intros j Hj. apply in_seq in Hj. rewrite pixel_at_spec; [reflexivity | exact Hlen | lia]. }
    destruct (Nat.eq_dec m 1024) as [->|Hne].
    - exists []. rewrite app_nil_r. split; reflexivity.
    - destruct (map_seq_prefix (fun j => (Z.of_nat j, spec_normalized (record_at mem k) j))
                               1024 m Hm) as [rest Hrest].
      exists rest. split; [exact Hrest|]. intros Hn. elim Hne. exact (Hfull Hn). }
  induction 1 as [i v | n i v v' error t H1 | n i v v1 v2 r t1 t2 H1 Hrest IH];
    intros k Hk Hp Hlen.
  - exists []. split; reflexivity.
  - subst i. destruct (Himg _ _ _ _ _ k H1 Hp) as (rest & E & _); [lia|].
    cbn [seq map flat_map]. rewrite E, <- app_assoc. eexists. split; [reflexivity|].
    discriminate.
  - subst i. destruct (Himg _ _ _ _ _ k H1 Hp) as (rest & E & Hnil); [lia|].
    rewrite (Hnil eq_refl), app_nil_r in E.
    pose proof (image_account _ _ _ _ _ _ _ H1) as (Hptr & _).
    destruct (IH (S k)) as (rest2 & E2 & Hnil2); try lia.
    cbn [seq map flat_map]. rewrite E, E2.
    exists rest2. split; [|exact Hnil2].
    unfold staged_inputs. rewrite flat_map_app, app_assoc. reflexivity.
Qed.
(** Neither the banner, nor the console calls around the loop, nor the
    summary line carry any of the per-image readings. *)
Lemma around_benchmark {A : Type} (f : event -> list A) (print_images : bool)
      (t : list event) (error : tensil_error_t) (total_count mc : Z) (ts : float) :
  (forall e, display e = true -> f e = []) -> f Ev_printf_testing = [] ->
  (forall a b c, f (Ev_printf_summary a b c) = []) ->
  flat_map f ([Ev_printf_testing] ++
              (if print_images then [Ev_console_clear_screen] else []) ++ t ++
              cleanup print_images error total_count mc ts)
  = flat_map f t.
Proof.
  intros Hd Ht Hs. unfold cleanup. rewrite !flat_map_app.
  destruct print_images, (error =? TENSIL_ERROR_NONE);
    cbn [flat_map app]; rewrite ?Ht, ?Hs; rewrite ?Hd by reflexivity;
    rewrite ?app_nil_r; reflexivity.
Qed.

Lemma records_in_buffer (mem : list byte) :
  let L := Z.of_nat (length mem) in
  Z.to_nat (L / 3073) = (length mem / RECORD_SIZE)%nat /\
  ((0 + Z.to_nat (L / 3073)) * RECORD_SIZE <= length mem)%nat /\
  0 <= L / 3073 /\ 3073 * (L / 3073) <= L /\ L - 3073 * (L / 3073) < 3073.
Proof.
  intros L. subst L.
  change 3073 with (Z.of_nat RECORD_SIZE).
  rewrite <- Nat2Z.inj_div, Nat2Z.id.
  pose proof (Nat.div_mod_eq (length mem) RECORD_SIZE) as E.
  pose proof (Nat.mod_upper_bound (length mem) RECORD_SIZE ltac:(discriminate)) as B.
  repeat split; try lia.
Qed.

(** C1.  The vectors staged during a run are, in order, those the design
    document prescribes for the records of the buffer: for each record and
    each position [j] from 0 to 1023, the three components
    [channel[c][j]/255.0 - mean[c]] with [mean[c]] the mean of that record's
    own channel [c].  A run that completes stages all of them, a run that
    aborts an initial segment. *)
Theorem staged_inputs_are_normalized :
  forall (P : Platform) (mem : list byte) (print_images : bool) (w : world),
    Z.of_nat (length mem) < 2 ^ 64 ->
    let b := benchmark mem (Z.of_nat (length mem)) print_images w in
    let prescribed :=
      flat_map
        (fun r : image_record =>
           map (fun j => (Z.of_nat j,
                          [spec_component r Red j; spec_component r Green j;
                           spec_component r Blue j]))
               (seq 0 1024))
        (spec_records mem) in
    (exists rest, prescribed = staged_inputs (trace b) ++ rest) /\
    (returned b = TENSIL_ERROR_NONE -> staged_inputs (trace b) = prescribed).
Proof.
  intros P mem print_images w HL b prescribed.
  destruct (benchmark_account mem (Z.of_nat (length mem)) print_images w)
    as (r & t & Hr & Htr & Hrun & _ & _ & _ & Hcase).
  fold b in Hr, Htr, Hrun, Hcase.
  rewrite (to_size_t_small (Z.of_nat (length mem))) in Htr, Hrun by lia.
  destruct (records_in_buffer mem) as (En & Hlen & _).
  destruct (images_inputs mem print_images _ _ _ _ _ _ Hrun 0%nat eq_refl eq_refl Hlen)
    as (rest & E & Hnil).
  assert (Ei : staged_inputs (trace b) = staged_inputs t).
  { rewrite Htr. apply around_benchmark; try reflexivity. apply display_no_input. }
  assert (Ep : prescribed = staged_inputs t ++ rest).
  { rewrite <- E. subst prescribed. unfold spec_records. rewrite En. reflexivity. }
  rewrite Ei. split.
  - exists rest. exact Ep.
  - intros H0. destruct r as [[]|error].
    + rewrite Ep, (Hnil eq_refl), app_nil_r. reflexivity.
    + destruct Hcase as [He _]. cbn in Hr. unfold TENSIL_ERROR_NONE in H0. congruence.
Qed.

Lemma staged_inputs_are_normalized_witness :
  let mem := Stub.half_lit in
  let b := benchmark (P := Stub.platform) mem (Z.of_nat (length mem)) false
                     (Stub.healthy mem [] []) in
  Z.of_nat (length mem) < 2 ^ 64 /\
  returned b = TENSIL_ERROR_NONE /\
  staged_inputs (trace b)
  = flat_map
      (fun r : image_record =>
         map (fun j => (Z.of_nat j,
                        [spec_component r Red j; spec_component r Green j;
                         spec_component r Blue j]))
             (seq 0 1024))
      (spec_records mem) /\
  nth 0 (staged_inputs (trace b)) (0, [])
  = (0, [F32.of_ratio (-1) 2; S754_finite false 8520194 (-42);
         S754_finite false 8506573 (-42)]) /\
  nth 512 (staged_inputs (trace b)) (0, [])
  = (512, [F32.of_ratio 1 2; S754_finite false 8520194 (-42);
           S754_finite false 8506573 (-42)]).
Proof.
  intros mem b.
  assert (HL : Z.of_nat (length mem) < 2 ^ 64) by (vm_compute; reflexivity).
  assert (H0 : returned b = TENSIL_ERROR_NONE) by (vm_compute; reflexivity).
  split; [exact HL|]. split; [exact H0|]. split.
  - exact (proj2 (staged_inputs_are_normalized Stub.platform mem false
                    (Stub.healthy mem [] []) HL) H0).
  - split; vm_compute; reflexivity.
Defined.

(** A run in which no collaborator reports an error. *)
Lemma complete_run {P : Platform} (mem : list byte) (print_images : bool) (w : world) :
  let L := Z.of_nat (length mem) in
  L < 2 ^ 64 ->
  let b := benchmark mem L print_images w in
  failures (trace b) = [] ->
  returned b = TENSIL_ERROR_NONE /\
  length (spec_records mem) = Z.to_nat (L / 3073) /\
  images_begun (trace b) = Z.to_nat (L / 3073) /\
  images_executed (trace b) = Z.to_nat (L / 3073) /\
  length (fetched_outputs (trace b)) = Z.to_nat (L / 3073) /\
  staged_inputs (trace b) = flat_map record_inputs (spec_records mem) /\
  misclass_count (final b) = mismatches mem (fetched_outputs (trace b)) /\
  ptr (final b) = 3073 * (L / 3073) /\
  0 <= L - ptr (final b) < 3073.
Proof.
  intros L HL b Hfail.
  destruct (benchmark_account mem L print_images w)
    as (r & t & Hr & Htr & Hrun & _ & _ & Hmis & Hcase).
  fold b in Hr, Htr, Hrun, Hmis, Hcase.
  rewrite (to_size_t_small L) in Htr, Hrun, Hcase by (subst L; lia).
  destruct (records_in_buffer mem) as (En & Hlen & Hq0 & Hq1 & Hq2).
  fold L in En, Hlen, Hq0, Hq1, Hq2.
  assert (Hall : forall A (f : event -> list A),
             (forall e, display e = true -> f e = []) -> f Ev_printf_testing = [] ->
             (forall a b c, f (Ev_printf_summary a b c) = []) ->
             flat_map f (trace b) = flat_map f t).
  { intros A f H1 H2 H3. rewrite Htr. now apply around_benchmark. }
  destruct r as [[]|error].
  - destruct Hcase as (_ & Hlo & _ & Hbeg & Hex & Hp).
    destruct (images_inputs mem print_images _ _ _ _ _ _ Hrun 0%nat eq_refl eq_refl Hlen)
      as (rest & E & Hnil).
    rewrite (Hnil eq_refl), app_nil_r in E.
    unfold images_begun, images_executed, fetched_outputs, staged_inputs in *.
    rewrite (Hall _ begin_of), (Hall _ run_of), (Hall _ output_of), (Hall _ input_of);
      try reflexivity;
      try apply display_no_begin; try apply display_no_run;
      try apply display_no_output; try apply display_no_input.
    repeat split; try assumption; try lia.
    + unfold spec_records. rewrite length_map, length_seq. symmetry. exact En.
    + rewrite <- E. unfold spec_records. rewrite En. reflexivity.
  - exfalso. destruct Hcase as (He & pre & ev & -> & Hfe & _).
    unfold failures in Hfail.
    rewrite (Hall _ failure), flat_map_app in Hfail;
      try reflexivity; try apply display_no_failure.
    apply app_eq_nil in Hfail. destruct Hfail as [_ Hfail].
    cbn [flat_map] in Hfail. rewrite Hfe in Hfail. discriminate.
Qed.

(** C3.  On a buffer of [L] bytes whose collaborators report no error the
    benchmark returns no error and handles exactly [L / 3073] records,
    whatever [L mod 3073] is: that many images are staged, executed and
    fetched; image [k] is staged from the three 1024-byte channels that
    follow byte [3073 * k] and is judged against that byte as its label; the
    read pointer ends at [3073 * (L / 3073)], fewer than 3073 bytes before
    the end.  On the empty buffer no collaborator is called at all. *)
Theorem record_count_is_quotient :
  (forall (P : Platform) (mem : list byte) (print_images : bool) (w : world),
      let L := Z.of_nat (length mem) in
      L < 2 ^ 64 ->
      let b := benchmark mem L print_images w in
      failures (trace b) = [] ->
      returned b = TENSIL_ERROR_NONE /\
      length (spec_records mem) = Z.to_nat (L / 3073) /\
      images_begun (trace b) = Z.to_nat (L / 3073) /\
      images_executed (trace b) = Z.to_nat (L / 3073) /\
      length (fetched_outputs (trace b)) = Z.to_nat (L / 3073) /\
      staged_inputs (trace b) = flat_map record_inputs (spec_records mem) /\
      misclass_count (final b) = mismatches mem (fetched_outputs (trace b)) /\
      ptr (final b) = 3073 * (L / 3073) /\
      0 <= L - ptr (final b) < 3073) /\
  (forall (P : Platform) (print_images : bool) (w : world),
      let b := benchmark [] 0 print_images w in
      returned b = TENSIL_ERROR_NONE /\
      images_begun (trace b) = 0%nat /\ images_executed (trace b) = 0%nat /\
      failures (trace b) = [] /\ env (final b) = w).
Proof.
  split.
  - intros P mem print_images w. apply complete_run.
  - intros P print_images w b. subst b. destruct print_images; repeat split.
Qed.

Lemma record_count_is_quotient_witness :
  let mem := Stub.two_records ++ [x01; x02; x03] in
  let L := Z.of_nat (length mem) in
  let b := benchmark (P := Stub.platform) mem L false Stub.scenario in
  L < 2 ^ 64 /\ failures (trace b) = [] /\
  returned b = TENSIL_ERROR_NONE /\
  images_executed (trace b) = 2%nat /\
  ptr (final b) = 6146.
Proof.
  intros mem L b.
  assert (HL : L < 2 ^ 64) by (vm_compute; reflexivity).
  assert (Hf : failures (trace b) = []) by (vm_compute; reflexivity).
  destruct (proj1 record_count_is_quotient Stub.platform mem false Stub.scenario HL Hf)
    as (H0 & _ & _ & H2 & _ & _ & _ & H3 & _).
  split; [exact HL|]. split; [exact Hf|]. split; [exact H0|].
  split; [exact H2 | exact H3].
Defined.
(** ** The stopwatch protocol *)

Lemma protocol_app (t1 t2 : list event) :
  forall ph,
    protocol ph (t1 ++ t2)
    = match protocol ph t1 with
      | Some ph' => protocol ph' t2
      | None => None
      end.
Proof.
  induction t1 as [|e t1 IH]; intros ph; [reflexivity|].
  cbn [app protocol]. destruct (step ph e); [apply IH | reflexivity].
Qed.

Lemma protocol_display (t : list event) (ph : phase) :
  Forall (fun e => display e = true) t -> ph = Between \/ ph = Aborted ->
  protocol ph t = Some ph.
Proof.
  induction 1 as [|e t He _ IH]; intros Hph; [reflexivity|].
  cbn [protocol].
  assert (E : step ph e = Some ph).
  { destruct Hph as [-> | ->]; destruct e; cbn in *; congruence. }
  rewrite E. apply IH, Hph.
Qed.

Lemma protocol_loads (mem : list byte) (p : Z) (l : list nat) :
  protocol Staging (map (fun j => load_event mem p (Z.of_nat j) 0) l) = Some Staging.
Proof. induction l as [|j l IH]; [reflexivity | exact IH]. Qed.

Lemma protocol_staged (mem : list byte) (p : Z) (k : nat) :
  protocol Between (staged mem p (S k)) = Some Staging.
Proof. unfold staged. cbn [seq map]. apply protocol_loads. Qed.

(** Each course of an image is accepted from [Between]; it ends [Between]
    again when the image completes and [Aborted] when it does not. *)
Lemma image_protocol (mem : list byte) (print_images : bool) (i : Z) (v : vars)
      (r : result unit) (v' : vars) (t : list event) :
  image_run mem print_images i v r v' t ->
  protocol Between t = Some (match r with Next _ => Between | Goto_cleanup _ => Aborted end).
Proof.
  intros H.
  destruct H as [j error Hj He | error He | error He | s result error He
                | s result error He Hp Hi | s result].
  - destruct j as [|j].
    + unfold staged. cbn. unfold after. now rewrite (proj2 (Z.eqb_neq error 0) He).
    + rewrite protocol_app, protocol_staged. cbn. unfold after.
      now rewrite (proj2 (Z.eqb_neq error 0) He).
  - rewrite protocol_app, protocol_staged. cbn. unfold after.
    now rewrite (proj2 (Z.eqb_neq error 0) He).
  - rewrite protocol_app, protocol_staged. cbn. unfold after.
    now rewrite (proj2 (Z.eqb_neq error 0) He).
  - rewrite protocol_app, protocol_staged. cbn. unfold after.
    now rewrite (proj2 (Z.eqb_neq error 0) He).
  - rewrite protocol_app, protocol_staged. cbn [timed fetched progress_line app protocol step
                                               after Z.eqb display].
    rewrite protocol_app, (protocol_display (picture mem (v_ptr v)) Between)
      by (auto using picture_display).
    cbn. unfold after. now rewrite (proj2 (Z.eqb_neq error 0) He).
  - rewrite protocol_app, protocol_staged. cbn [timed fetched app protocol step
                                               after Z.eqb display].
    unfold reported. destruct print_images; [|reflexivity].
    cbn [progress_line app protocol step display].
    destruct (i mod 100 =? 0); [|reflexivity].
    rewrite protocol_app, (protocol_display (picture mem (v_ptr v)) Between)
      by (auto using picture_display).
    unfold verdict.
    destruct (argmax CIFAR_CLASSES_SIZE result =? u8read mem (v_ptr v) 0); reflexivity.
Qed.

Lemma images_protocol (mem : list byte) (print_images : bool) :
  forall (n : nat) (i : Z) (v : vars) (r : result unit) (v' : vars) (t : list event),
    images_run mem print_images n i v r v' t ->
    protocol Between t
    = Some (match r with Next _ => Between | Goto_cleanup _ => Aborted end).
Proof.
  induction 1 as [i v | n i v v' error t H1 | n i v v1 v2 r t1 t2 H1 Hrest IH].
  - reflexivity.
  - exact (image_protocol _ _ _ _ _ _ _ H1).
  - rewrite protocol_app, (image_protocol _ _ _ _ _ _ _ H1). exact IH.
Qed.

(** What an accepted trace guarantees. *)

Lemma step_to_stopped (ph : phase) (e : event) :
  step ph e = Some Stopped ->
  (ph = Executed /\ e = Ev_stopwatch_stop).
Proof.
  destruct ph, e; cbn; unfold after;
    repeat match goal with |- context [if ?c then _ else _] => destruct c end;
    intros H; try discriminate H; auto.
Qed.

Lemma step_to_executed (ph : phase) (e : event) :
  step ph e = Some Executed -> ph = Armed /\ e = Ev_run 0.
Proof.
  destruct ph, e; cbn; unfold after;
    repeat match goal with |- context [if ?c then _ else _] => destruct c eqn:? end;
    intros H; try discriminate H.
  split; [reflexivity|]. f_equal. now apply Z.eqb_eq.
Qed.

Lemma step_to_armed (ph : phase) (e : event) :
  step ph e = Some Armed -> ph = Staging /\ e = Ev_stopwatch_start 0.
Proof.
  destruct ph, e; cbn; unfold after;
    repeat match goal with |- context [if ?c then _ else _] => destruct c eqn:? end;
    intros H; try discriminate H.
  split; [reflexivity|]. f_equal. now apply Z.eqb_eq.
Qed.

Lemma step_reading (ph : phase) (s : float) (ph' : phase) :
  step ph (Ev_stopwatch_elapsed_seconds s) = Some ph' -> ph = Stopped.
Proof. destruct ph; cbn; intros H; try discriminate H; reflexivity. Qed.

Lemma protocol_last (t : list event) (e : event) (ph0 ph : phase) :
  protocol ph0 (t ++ [e]) = Some ph ->
  exists ph1, protocol ph0 t = Some ph1 /\ step ph1 e = Some ph.
Proof.
  rewrite protocol_app. destruct (protocol ph0 t) as [ph1|]; [|discriminate].
  cbn. destruct (step ph1 e) as [ph2|] eqn:E; [|discriminate].
  intros H. injection H as <-. now exists ph1.
Qed.

Lemma protocol_reaches (target : phase) (t : list event) (ph0 : phase) :
  protocol ph0 t = Some target -> ph0 <> target ->
  exists t' e ph1, t = t' ++ [e] /\ protocol ph0 t' = Some ph1 /\ step ph1 e = Some target.
Proof.
  intros H Hne. destruct t as [|x t0].
  - cbn in H. congruence.
  - destruct (exists_last (l := x :: t0)) as (t' & e & E); [discriminate|].
    rewrite E in H. destruct (protocol_last _ _ _ _ H) as (ph1 & H1 & H2).
    now exists t', e, ph1.
Qed.

(** In an accepted trace a reading is taken right after the stopwatch is
    stopped, which is right after an execution has returned without error,
    which is right after the stopwatch was started. *)
Lemma reading_is_bracketed (pre post : list event) (s : float) (ph : phase) :
  protocol Between (pre ++ Ev_stopwatch_elapsed_seconds s :: post) = Some ph ->
  exists pre', pre = pre' ++ [Ev_stopwatch_start 0; Ev_run 0; Ev_stopwatch_stop].
Proof.
  rewrite protocol_app.
  destruct (protocol Between pre) as [ph1|] eqn:E1; [|discriminate].
  cbn [protocol]. destruct (step ph1 (Ev_stopwatch_elapsed_seconds s)) as [ph2|] eqn:E2;
    [|discriminate].
  intros _. apply step_reading in E2. subst ph1.
  destruct (protocol_reaches Stopped pre Between E1 ltac:(discriminate))
    as (t1 & e1 & p1 & -> & H1 & S1).
  apply step_to_stopped in S1. destruct S1 as [-> ->].
  destruct (protocol_reaches Executed t1 Between H1 ltac:(discriminate))
    as (t2 & e2 & p2 & -> & H2 & S2).
  apply step_to_executed in S2. destruct S2 as [-> ->].
  destruct (protocol_reaches Armed t2 Between H2 ltac:(discriminate))
    as (t3 & e3 & p3 & -> & H3 & S3).
  apply step_to_armed in S3. destruct S3 as [-> ->].
  exists t3. rewrite <- !app_assoc. reflexivity.
Qed.

(** In an accepted trace there are never more readings than images begun. *)
Lemma readings_bounded (t : list event) :
  forall ph ph',
    protocol ph t = Some ph' ->
    (length (elapsed_readings t) + untimed ph' <= images_begun t + untimed ph)%nat.
Proof.
  induction t as [|e t IH]; intros ph ph' H.
  - cbn in H. injection H as <-. cbn. lia.
  - cbn [protocol] in H. destruct (step ph e) as [ph1|] eqn:E; [|discriminate].
    specialize (IH _ _ H).
    unfold elapsed_readings, images_begun in *.
    cbn [flat_map]. rewrite !length_app.
    assert (Hs : (length (reading_of e) + untimed ph1
                  <= length (begin_of e) + untimed ph)%nat).
    { clear IH H. destruct ph, e; cbn in E; unfold after in E;
        repeat match type of E with
               | context [if ?c then _ else _] => destruct c eqn:?
               end;
        try discriminate E; injection E as <-; cbn; try lia.
      all: rewrite ?Heqb; cbn; lia. }
    lia.
Qed.
(** C8.  Every trace of the benchmark obeys the stopwatch protocol: the
    stopwatch is started only after the input of an image has been staged
    and while no interval is open; the very next call is the execution; the
    very next call after an execution that returns without error stops the
    stopwatch, and the next takes the reading; nothing else, in particular
    no staging and no fetching of scores, happens in between; and no second
    interval is opened before the next image begins.  The cumulative time is
    the [float] sum of the readings in order, and there are never more
    readings than images begun.  Spelled out for one reading: the three
    calls before it are the start, the execution and the stop. *)
Theorem stopwatch_brackets_execution :
  forall (P : Platform) (mem : list byte) (fsize : Z) (print_images : bool)
         (w : world),
    let b := benchmark mem fsize print_images w in
    (exists ph, protocol Between (trace b) = Some ph) /\
    total_seconds (final b) = cumulative (elapsed_readings (trace b)) /\
    (length (elapsed_readings (trace b)) <= images_begun (trace b))%nat /\
    (forall pre s post,
        trace b = pre ++ Ev_stopwatch_elapsed_seconds s :: post ->
        exists pre',
          pre = pre' ++ [Ev_stopwatch_start 0; Ev_run 0; Ev_stopwatch_stop]).
Proof.
  intros P mem fsize print_images w b.
  destruct (benchmark_account mem fsize print_images w)
    as (r & t & Hr & Htr & Hrun & _ & Hsec & _ & Hcase).
  fold b in Hr, Htr, Hrun, Hsec, Hcase.
  pose proof (images_protocol _ _ _ _ _ _ _ _ Hrun) as Hp.
  assert (Hacc : exists ph, protocol Between (trace b) = Some ph).
  { rewrite Htr, protocol_app. cbn [protocol step display].
    rewrite protocol_app.
    rewrite (protocol_display (if print_images then [Ev_console_clear_screen] else []) Between)
      by (auto; destruct print_images; repeat constructor).
    rewrite protocol_app, Hp. unfold cleanup.
    destruct r as [[]|error].
    - cbn [error_of TENSIL_ERROR_NONE Z.eqb]. rewrite protocol_app.
      rewrite (protocol_display _ Between)
        by (auto; destruct print_images; repeat constructor).
      cbn. eauto.
    - destruct Hcase as [He _]. cbn [error_of]. unfold TENSIL_ERROR_NONE.
      rewrite (proj2 (Z.eqb_neq error 0) He), app_nil_r.
      rewrite (protocol_display _ Aborted)
        by (auto; destruct print_images; repeat constructor).
      eauto. }
  split; [exact Hacc|]. split; [|split].
  - rewrite Hsec. unfold elapsed_readings. rewrite Htr.
    rewrite around_benchmark; try reflexivity. apply display_no_reading.
  - destruct Hacc as [ph Hph]. pose proof (readings_bounded _ _ _ Hph) as Hb.
    cbn [untimed] in Hb. lia.
  - intros pre s post E. destruct Hacc as [ph Hph]. rewrite E in Hph.
    exact (reading_is_bracketed _ _ _ _ Hph).
Qed.

Lemma stopwatch_brackets_execution_witness :
  let b := benchmark (P := Stub.platform) Stub.two_records 6146 false Stub.scenario in
  let pre := firstn 1028 (trace b) in
  let post := skipn 1029 (trace b) in
  trace b = pre ++ Ev_stopwatch_elapsed_seconds (F32.of_ratio 1 10) :: post /\
  exists pre', pre = pre' ++ [Ev_stopwatch_start 0; Ev_run 0; Ev_stopwatch_stop].
Proof.
  intros b pre post.
  assert (E : trace b = pre ++ Ev_stopwatch_elapsed_seconds (F32.of_ratio 1 10) :: post)
    by (vm_compute; reflexivity).
  split; [exact E|].
  exact (proj2 (proj2 (proj2 (stopwatch_brackets_execution Stub.platform Stub.two_records
                                6146 false Stub.scenario)))
               pre (F32.of_ratio 1 10) post E).
Defined.
(** ** Live reporting on and off *)

Section Reporting.
Context {P : Platform}.

Lemma print_image_draws (mem : list byte) (r g b : Z) (st : state) :
  exists t, print_image mem r g b st = (Next tt, st, t) /\
            Forall (fun e => reporting e = true) t.
Proof.
  pose (cell := fun j : Z =>
          [Ev_console_set_background_color (u8read mem r j) (u8read mem g j)
                                           (u8read mem b j)] ++
          (if j mod 32 =? 0 then [Ev_printf_newline] else []) ++ [Ev_printf_cell]).
  assert (Hcell : forall j st0,
             (emit (Ev_console_set_background_color
                      (u8read mem r j) (u8read mem g j) (u8read mem b j)) ;;
              (if j mod 32 =? 0 then emit Ev_printf_newline else ret tt) ;;
              emit Ev_printf_cell)%harness st0
             = (Next tt, st0, cell j)).
  { intros j st0. unfold bind, emit, cell. destruct (j mod 32 =? 0); reflexivity. }
  pose proof (for_each_emits _ cell Hcell (Z.to_nat CIFAR_PIXELS_SIZE) 0%nat) as E.
  change (Z.of_nat 0) with 0 in E.
  unfold print_image. unfold bind at 1, emit at 1. unfold bind at 1. rewrite E.
  eexists. split; [reflexivity|].
  cbn [app]. constructor; [reflexivity|].
  apply Forall_app; split; [|repeat constructor].
  apply Forall_flat_map, Forall_forall. intros j _. unfold cell.
  destruct (Z.of_nat j mod 32 =? 0); repeat constructor.
Qed.

Lemma report_draws (mem : list byte) (i : Z) (c : classified) (st : state) :
  quiet_printer ->
  exists t, report mem i c st = (Next tt, st, t) /\
            Forall (fun e => reporting e = true) t.
Proof.
  intros Hq. unfold report. unfold bind at 1, emit at 1. unfold bind at 1, emit at 1.
  destruct (i mod 100 =? 0).
  - unfold bind at 1.
    destruct (print_image_draws mem (red c) (green c) (blue c) st) as (t & -> & Ht).
    unfold bind, emit, call_, call. rewrite Hq. cbn [Z.eqb].
    destruct st as [p mc ts w]. unfold set_env. cbn [ptr misclass_count total_seconds env].
    eexists. split; [reflexivity|].
    cbn [app]. repeat (constructor; [reflexivity|]).
    apply Forall_app; split; [exact Ht|].
    destruct (actual_class c =? expected_class c); repeat constructor.
  - unfold ret. eexists. split; [reflexivity|]. repeat constructor.
Qed.

Lemma image_reporting (mem : list byte) (i : Z) (st : state) :
  quiet_printer ->
  exists r st' t0 t1,
    image mem false i st = (r, st', t0) /\
    image mem true i st = (r, st', t1) /\
    forall A (f : event -> list A),
      (forall e, reporting e = true -> f e = []) -> flat_map f t1 = flat_map f t0.
Proof.
  intros Hq. unfold image. unfold bind.
  destruct (classify mem st) as [[[c|error] st1] t] eqn:E.
  - destruct (report_draws mem i c st1 Hq) as (t' & -> & Ht').
    unfold ret. exists (Next tt), st1, (t ++ []), (t ++ t').
    repeat split. intros A f Hf. rewrite !flat_map_app. f_equal.
    cbn. apply flat_map_silent. eapply Forall_impl; [|exact Ht']. exact Hf.
  - exists (Goto_cleanup error), st1, t, t. repeat split.
Qed.

Lemma images_reporting (mem : list byte) :
  quiet_printer ->
  forall (n : nat) (i : Z) (st : state),
  exists r st' t0 t1,
    for_each n i (image mem false) st = (r, st', t0) /\
    for_each n i (image mem true) st = (r, st', t1) /\
    forall A (f : event -> list A),
      (forall e, reporting e = true -> f e = []) -> flat_map f t1 = flat_map f t0.
Proof.
  intros Hq. induction n as [|n IH]; intros i st.
  - exists (Next tt), st, [], []. repeat split.
  - cbn [for_each]. unfold bind.
    destruct (image_reporting mem i st Hq) as (r & st1 & t0 & t1 & -> & -> & Hf).
    destruct r as [[]|error].
    + destruct (IH (i + 1) st1) as (r2 & st2 & u0 & u1 & -> & -> & Hg).
      exists r2, st2, (t0 ++ u0), (t1 ++ u1). repeat split.
      intros A f H. rewrite !flat_map_app, (Hf A f H), (Hg A f H). reflexivity.
    + exists (Goto_cleanup error), st1, t0, t1. repeat split. exact Hf.
Qed.

Lemma benchmark_reporting (mem : list byte) (fsize : Z) (w : world) :
  quiet_printer ->
  let b1 := benchmark mem fsize true w in
  let b0 := benchmark mem fsize false w in
  returned b1 = returned b0 /\ final b1 = final b0 /\
  forall A (f : event -> list A),
    (forall e, reporting e = true -> f e = []) ->
    flat_map f (trace b1) = flat_map f (trace b0).
Proof.
  intros Hq b1 b0. subst b1 b0. unfold benchmark.
  destruct (images_reporting mem Hq
              (Z.to_nat (to_size_t (to_size_t fsize / (CIFAR_PIXELS_SIZE * 3 + 1)))) 0
              (initial w)) as (r & st & t0 & t1 & -> & -> & Hf).
  cbn [returned final trace]. repeat split.
  intros A f H. unfold cleanup. rewrite !flat_map_app, (Hf A f H).
  cbn [flat_map app].
  rewrite (H Ev_console_clear_screen eq_refl),
          (H (Ev_console_set_cursor_position 1 1) eq_refl). reflexivity.
Qed.
End Reporting.

(** ** Labels outside the class table *)

Lemma mismatch_out_of_range (mem : list byte) (k : nat) (out : list float) :
  10 <= label (record_at mem k) -> mismatch mem (3073 * Z.of_nat k) out = true.
Proof.
  intros H. unfold mismatch. rewrite label_record_at.
  pose proof (argmax_in_range CIFAR_CLASSES_SIZE out ltac:(reflexivity)) as Hr.
  unfold CIFAR_CLASSES_SIZE in *.
  destruct (Z.eqb_spec (argmax 10 out) (label (record_at mem k))); [lia | reflexivity].
Qed.

Lemma mismatches_from_mislabelled (mem : list byte) (outs : list (list float)) :
  forall k,
    Z.of_nat (length (filter (fun r => 10 <=? label r)
                             (map (record_at mem) (seq k (length outs)))))
    <= mismatches_from mem k outs.
Proof.
  induction outs as [|out outs IH]; intros k.
  - cbn. lia.
  - rewrite mismatches_from_cons. cbn [length seq map filter].
    specialize (IH (S k)).
    destruct (Z.leb_spec 10 (label (record_at mem k))) as [Hl|Hl].
    + rewrite (mismatch_out_of_range mem k out Hl). cbn [length]. lia.
    + destruct (mismatch mem (3073 * Z.of_nat k) out); lia.
Qed.

Lemma completed_course (mem : list byte) (print_images : bool) (i : Z) (v v' : vars)
      (t : list event) :
  image_run mem print_images i v (Next tt) v' t ->
  exists s result,
    t = staged mem (v_ptr v) 1024 ++ timed s ++ [fetched result 0] ++
        reported mem print_images i (v_ptr v) s result /\
    fetched_outputs t = [result].
Proof.
  intros H. remember (Next tt) as r eqn:Er.
  destruct H as [j error Hj He | error He | error He | s result error He
                | s result error He Hp Hi | s result]; try discriminate Er.
  exists s, result. split; [reflexivity|].
  read_trace.
  assert (Hr : flat_map output_of (reported mem print_images i (v_ptr v) s result) = []).
  { unfold reported. destruct print_images; [|reflexivity].
    destruct (i mod 100 =? 0); unfold progress_line, verdict;
      rewrite ?flat_map_app, ?outputs_picture; cbn [flat_map app output_of Z.eqb];
      try reflexivity.
    destruct (argmax CIFAR_CLASSES_SIZE result =? u8read mem (v_ptr v) 0); reflexivity. }
  rewrite Hr. reflexivity.
Qed.

(** With live reporting on, every hundredth image that completes has its
    verdict line printed, the names looked up in the class table by the
    label byte and by the prediction. *)
Lemma images_verdicts (mem : list byte) :
  forall (n : nat) (i : Z) (v : vars) (r : result unit) (v' : vars) (t : list event),
    images_run mem true n i v r v' t ->
    r = Next tt ->
    forall k0 : nat,
      i = Z.of_nat k0 -> v_ptr v = 3073 * i ->
      forall k : nat,
        (k0 <= k < k0 + n)%nat -> Z.of_nat k mod 100 = 0 ->
        In (Ev_printf_classes
              (nth_error cifar_classes (Z.to_nat (label (record_at mem k))))
              (nth_error cifar_classes
                 (Z.to_nat (argmax CIFAR_CLASSES_SIZE
                                   (nth (k - k0) (fetched_outputs t) [])))))
           t.
Proof.
  induction 1 as [i v | n i v v' error t H1 | n i v v1 v2 r t1 t2 H1 Hrest IH];
    intros Er k0 Hk0 Hp k Hk Hmod.
  - lia.
  - discriminate Er.
  - subst r i.
    pose proof (image_account _ _ _ _ _ _ _ H1) as (Hptr & _).
    destruct (completed_course _ _ _ _ _ _ H1) as (s & result & Et & Eo).
    assert (Eo' : fetched_outputs (t1 ++ t2) = result :: fetched_outputs t2)
      by (unfold fetched_outputs in *; now rewrite flat_map_app, Eo).
    rewrite Eo'. apply in_or_app.
    destruct (Nat.eq_dec k k0) as [->|Hne].
    + left. rewrite Nat.sub_diag. cbn [nth]. rewrite Et.
      apply in_or_app. right. apply in_or_app. right. apply in_or_app. right.
      unfold reported. rewrite Hmod. cbn [Z.eqb].
      apply in_or_app. right. apply in_or_app. right. apply in_or_app. right.
      unfold verdict. rewrite Hp, label_record_at. right. left. reflexivity.
    + right. replace (k - k0)%nat with (S (k - S k0)) by lia. cbn [nth].
      apply (IH eq_refl (S k0)); try lia.
Qed.

(** C10.  Nothing checks the label byte against the ten classes.  In a run
    whose collaborators report no error, every record whose label is 10 or
    more counts as a misclassification whatever the accelerator answers, and
    the benchmark still returns no error.  With live reporting on, the
    verdict line of such a record, when its index is a multiple of 100,
    looks the label up in the class table past its end: the lookup at index
    [label] has no entry. *)
Theorem label_is_not_validated :
  forall (P : Platform) (mem : list byte) (print_images : bool) (w : world),
    let L := Z.of_nat (length mem) in
    L < 2 ^ 64 ->
    let b := benchmark mem L print_images w in
    failures (trace b) = [] ->
    returned b = TENSIL_ERROR_NONE /\
    Z.of_nat (length (filter (fun r => 10 <=? label r) (spec_records mem)))
    <= misclass_count (final b) /\
    (print_images = true ->
     forall k : nat,
       (k < length (spec_records mem))%nat ->
       10 <= label (record_at mem k) ->
       Z.of_nat k mod 100 = 0 ->
       nth_error cifar_classes (Z.to_nat (label (record_at mem k))) = None /\
       In (Ev_printf_classes
             None
             (nth_error cifar_classes
                (Z.to_nat (argmax CIFAR_CLASSES_SIZE
                                  (nth k (fetched_outputs (trace b)) [])))))
          (trace b)).
Proof.
  intros P mem print_images w L HL b Hfail.
  destruct (complete_run mem print_images w HL Hfail)
    as (H0 & Hn & _ & _ & Hlo & _ & Hmis & _).
  fold L b in H0, Hn, Hlo, Hmis.
  split; [exact H0|]. split.
  - rewrite Hmis. unfold mismatches, spec_records.
    destruct (records_in_buffer mem) as (En & _). fold L in En.
    rewrite <- En, <- Hlo. apply mismatches_from_mislabelled.
  - intros -> k Hk Hl Hmod.
    assert (Enone : nth_error cifar_classes (Z.to_nat (label (record_at mem k))) = None).
    { apply nth_error_None. cbn [cifar_classes length]. lia. }
    split; [exact Enone|].
    destruct (benchmark_account mem L true w)
      as (r & t & Hr & Htr & Hrun & _ & _ & _ & Hcase).
    fold b in Hr, Htr, Hrun, Hcase.
    rewrite (to_size_t_small L) in Htr, Hrun by (subst L; lia).
    destruct r as [[]|error].
    2:{ destruct Hcase as [He _]. cbn in Hr. unfold TENSIL_ERROR_NONE in H0. congruence. }
    assert (Eo : fetched_outputs (trace b) = fetched_outputs t).
    { unfold fetched_outputs. rewrite Htr.
      apply (around_benchmark output_of true t); try reflexivity.
      apply display_no_output. }
    pose proof (images_verdicts mem _ _ _ _ _ _ Hrun eq_refl 0%nat eq_refl eq_refl k) as Hin.
    rewrite Nat.sub_0_r, Enone in Hin. rewrite Eo, Htr.
    apply in_or_app. right. apply in_or_app. right. apply in_or_app. left.
    apply Hin; [lia | exact Hmod].
Qed.

Lemma label_is_not_validated_witness :
  let mem := Stub.mislabelled in
  let b := benchmark (P := Stub.platform) mem (Z.of_nat (length mem)) true
                     (Stub.healthy mem [F32.of_ratio 1 10] [(0, Stub.one_hot 3 1)]) in
  Z.of_nat (length mem) < 2 ^ 64 /\ failures (trace b) = [] /\
  (0 < length (spec_records mem))%nat /\ label (record_at mem 0) = 200 /\
  returned b = TENSIL_ERROR_NONE /\
  1 <= misclass_count (final b) /\
  In (Ev_printf_classes None (Some "cat"%string)) (trace b).
Proof.
  intros mem b.
  assert (HL : Z.of_nat (length mem) < 2 ^ 64) by (vm_compute; reflexivity).
  assert (Hf : failures (trace b) = []) by (vm_compute; reflexivity).
  assert (Hk : (0 < length (spec_records mem))%nat) by (vm_compute; constructor).
  assert (Hl : 10 <= label (record_at mem 0)) by (vm_compute; discriminate).
  destruct (label_is_not_validated Stub.platform mem true
              (Stub.healthy mem [F32.of_ratio 1 10] [(0, Stub.one_hot 3 1)]) HL Hf)
    as (H0 & Hm & Hv).
  destruct (Hv eq_refl 0%nat Hk Hl eq_refl) as [_ Hin].
  assert (Hc : Z.of_nat (length (filter (fun r => 10 <=? label r) (spec_records mem))) = 1)
    by (vm_compute; reflexivity).
  assert (Ha : nth_error cifar_classes
                 (Z.to_nat (argmax CIFAR_CLASSES_SIZE (nth 0 (fetched_outputs (trace b)) [])))
               = Some "cat"%string)
    by (vm_compute; reflexivity).
  change (In (Ev_printf_classes
                None
                (nth_error cifar_classes
                   (Z.to_nat (argmax CIFAR_CLASSES_SIZE
                                     (nth 0 (fetched_outputs (trace b)) [])))))
             (trace b)) in Hin.
  change (Z.of_nat (length (filter (fun r => 10 <=? label r) (spec_records mem)))
          <= misclass_count (final b)) in Hm.
  rewrite Hc in Hm. rewrite Ha in Hin.
  split; [exact HL|]. split; [exact Hf|]. split; [exact Hk|].
  split; [vm_compute; reflexivity|]. split; [exact H0|]. split; [exact Hm | exact Hin].
Defined.

(** ** What the loop can emit *)

Lemma staged_in_range (mem : list byte) (p : Z) (k : nat) :
  (k <= 1024)%nat ->
  Forall (fun e => exists j, 0 <= j < 1024 /\ e = load_event mem p j 0) (staged mem p k).
Proof.
  intros Hk. unfold staged. apply Forall_forall. intros e He.
  apply in_map_iff in He. destruct He as (j & <- & Hj). apply in_seq in Hj.
  exists (Z.of_nat j). split; [lia | reflexivity].
Qed.

Lemma picture_parts (mem : list byte) (p : Z) :
  Forall (fun e => picture_part e = true) (picture mem p).
Proof.
  unfold picture.
  apply Forall_app; split; [repeat constructor|].
  apply Forall_app; split; [|repeat constructor].
  apply Forall_flat_map. apply Forall_forall. intros j _.
  unfold picture_cell. destruct (Z.of_nat j mod 32 =? 0); repeat constructor.
Qed.

Lemma image_run_events (mem : list byte) (print_images : bool) (i : Z) (v : vars)
      (r : result unit) (v' : vars) (t : list event) :
  image_run mem print_images i v r v' t ->
  Forall (image_event mem print_images i (v_ptr v)) t.
Proof.
  intros H.
  assert (Hst : forall k, (k <= 1024)%nat ->
             Forall (image_event mem print_images i (v_ptr v)) (staged mem (v_ptr v) k)).
  { intros k Hk. eapply Forall_impl; [|apply (staged_in_range mem (v_ptr v) k Hk)].
    intros e (j & Hj & ->). now apply Emits_load. }
  assert (Htm : forall s, Forall (image_event mem print_images i (v_ptr v)) (timed s)).
  { intros s. unfold timed.
    constructor; [apply Emits_start|]. constructor; [apply Emits_run|].
    constructor; [apply Emits_stop|]. constructor; [apply Emits_reading|]. constructor. }
  assert (Hpr : forall s, print_images = true ->
             Forall (image_event mem print_images i (v_ptr v)) (progress_line i s)).
  { intros s Hp. unfold progress_line.
    constructor; [now apply Emits_cursor|].
    constructor; [now apply Emits_progress|]. constructor. }
  assert (Hpic : print_images = true -> i mod 100 = 0 ->
             Forall (image_event mem print_images i (v_ptr v)) (picture mem (v_ptr v))).
  { intros Hp Hi. eapply Forall_impl; [|apply picture_parts].
    intros e He. now apply Emits_picture. }
  destruct H as [j error Hj He | error He | error He | s result error He
                | s result error He Hp Hi | s result].
  - apply Forall_app; split; [apply Hst; lia|].
    constructor; [apply Emits_load; lia | constructor].
  - apply Forall_app; split; [apply Hst; lia|].
    constructor; [apply Emits_start | constructor].
  - apply Forall_app; split; [apply Hst; lia|].
    constructor; [apply Emits_start|]. constructor; [apply Emits_run | constructor].
  - apply Forall_app; split; [apply Hst; lia|].
    apply Forall_app; split; [apply Htm|].
    constructor; [apply Emits_fetch | constructor].
  - apply Forall_app; split; [apply Hst; lia|].
    apply Forall_app; split; [apply Htm|].
    apply Forall_app; split; [constructor; [apply Emits_fetch | constructor]|].
    apply Forall_app; split; [now apply Hpr|].
    apply Forall_app; split; [now apply Hpic|].
    constructor; [now apply Emits_result|].
    constructor; [now apply Emits_print|]. constructor.
  - apply Forall_app; split; [apply Hst; lia|].
    apply Forall_app; split; [apply Htm|].
    apply Forall_app; split; [constructor; [apply Emits_fetch | constructor]|].
    unfold reported. destruct print_images; [|constructor].
    apply Forall_app; split; [now apply Hpr|].
    destruct (Z.eqb_spec (i mod 100) 0) as [Hi|Hi]; [|constructor].
    apply Forall_app; split; [now apply Hpic|].
    constructor; [now apply Emits_result|].
    constructor; [now apply Emits_print|].
    unfold verdict.
    constructor.
    { destruct (argmax CIFAR_CLASSES_SIZE result =? u8read mem (v_ptr v) 0);
        now apply Emits_colour. }
    constructor; [now apply Emits_verdict|].
    constructor; [now apply Emits_reset | constructor].
Qed.

Lemma images_run_events (mem : list byte) (print_images : bool) :
  forall (n : nat) (i : Z) (v : vars) (r : result unit) (v' : vars) (t : list event),
    images_run mem print_images n i v r v' t ->
    forall k0 : nat,
      i = Z.of_nat k0 -> v_ptr v = 3073 * i ->
      Forall (fun e => exists k : nat,
                  (k0 <= k < k0 + n)%nat /\
                  image_event mem print_images (Z.of_nat k) (3073 * Z.of_nat k) e) t.
Proof.
  induction 1 as [i v | n i v v' error t H1 | n i v v1 v2 r t1 t2 H1 Hrest IH];
    intros k0 Hk Hp.
  - constructor.
  - subst i. apply image_run_events in H1. rewrite Hp in H1.
    eapply Forall_impl; [|exact H1]. intros e He. exists k0. split; [lia | exact He].
  - subst i. pose proof (image_account _ _ _ _ _ _ _ H1) as (Hptr & _).
    apply image_run_events in H1. rewrite Hp in H1.
    apply Forall_app; split.
    + eapply Forall_impl; [|exact H1]. intros e He. exists k0. split; [lia | exact He].
    + eapply Forall_impl; [|apply (IH (S k0)); lia].
      intros e (k & Hk & He). exists k. split; [lia | exact He].
Qed.

Lemma benchmark_events {P : Platform} (mem : list byte) (fsize : Z)
      (print_images : bool) (w : world) :
  Forall (benchmark_event mem print_images (to_size_t fsize / 3073))
         (trace (benchmark mem fsize print_images w)).
Proof.
  destruct (benchmark_account mem fsize print_images w)
    as (r & t & _ & Htr & Hrun & _).
  destruct (total_count_range fsize) as [_ Htot].
  rewrite Htr.
  apply Forall_app; split; [constructor; [apply Emits_banner | constructor]|].
  apply Forall_app; split.
  { destruct print_images; constructor; [now apply Emits_clear | constructor]. }
  apply Forall_app; split.
  - eapply Forall_impl;
      [|apply (images_run_events mem print_images _ _ _ _ _ _ Hrun 0%nat eq_refl eq_refl)].
    intros e (k & Hk & He). apply (Emits_image _ _ _ k); [lia | exact He].
  - unfold cleanup. apply Forall_app; split.
    + destruct print_images; [|constructor].
      constructor; [now apply Emits_clear|].
      constructor; [now apply Emits_home | constructor].
    + destruct (error_of r =? TENSIL_ERROR_NONE); [|constructor].
      constructor; [apply Emits_summary | constructor].
Qed.

(** ** Live reporting *)

Lemma class_in_table (z : Z) :
  0 <= z < CIFAR_CLASSES_SIZE ->
  exists name, nth_error cifar_classes (Z.to_nat z) = Some name.
Proof.
  intros Hz. destruct (nth_error cifar_classes (Z.to_nat z)) as [name|] eqn:E.
  - now exists name.
  - apply nth_error_None in E. unfold CIFAR_CLASSES_SIZE in Hz.
    cbn [cifar_classes length] in E. lia.
Qed.

(** When the labels that the reporting block looks up all name a class, no
    run reads outside the class table. *)
Lemma labels_in_table_lookups {P : Platform} (mem : list byte) (fsize : Z)
      (print_images : bool) (w : world) :
  reported_labels_in_table mem (to_size_t fsize / 3073) ->
  lookups_in_table (trace (benchmark mem fsize print_images w)).
Proof.
  intros Hlab e0 Hin.
  pose proof (benchmark_events mem fsize print_images w) as Hall.
  rewrite Forall_forall in Hall. specialize (Hall _ Hin).
  destruct Hall as [ | | | | k e Hk He]; try reflexivity.
  destruct He as [ | | | | | | | | e Hp Hi Hpart | | | | result Hp Hi | ];
    try reflexivity.
  - destruct e; try discriminate Hpart; reflexivity.
  - rewrite label_record_at.
    assert (H0 : 0 <= label (record_at mem k)).
    { unfold record_at, label, byte_value. lia. }
    destruct (class_in_table (label (record_at mem k))) as [name1 ->];
      [split; [exact H0 | exact (Hlab k Hk Hi)]|].
    destruct (class_in_table (argmax CIFAR_CLASSES_SIZE result)) as [name2 ->];
      [apply argmax_in_range; reflexivity|].
    reflexivity.
Qed.

(** C9, as the code has it.  Two provisos are needed.  The driver's
    diagnostic printer, which the reporting block calls for every hundredth
    image, reports no error and leaves the machine unchanged; and the
    records whose index is a multiple of 100 carry a label below 10, so that
    the verdict line reads the name of the expected class inside the class
    table.  Then the run with live reporting reads nowhere outside the
    table, and switching live reporting on changes nothing but what is
    drawn: the benchmark returns the same value, ends with the same counters
    and the same machine, stages the same inputs, takes the same readings,
    fetches the same scores and so makes the same predictions, and prints
    the same summary line. *)
Theorem reporting_is_observational :
  forall (P : Platform) (mem : list byte) (fsize : Z) (w : world),
    quiet_printer ->
    reported_labels_in_table mem (to_size_t fsize / 3073) ->
    let b1 := benchmark mem fsize true w in
    let b0 := benchmark mem fsize false w in
    lookups_in_table (trace b1) /\
    returned b1 = returned b0 /\
    misclass_count (final b1) = misclass_count (final b0) /\
    total_seconds (final b1) = total_seconds (final b0) /\
    env (final b1) = env (final b0) /\
    staged_inputs (trace b1) = staged_inputs (trace b0) /\
    elapsed_readings (trace b1) = elapsed_readings (trace b0) /\
    fetched_outputs (trace b1) = fetched_outputs (trace b0) /\
    predictions (trace b1) = predictions (trace b0) /\
    summaries (trace b1) = summaries (trace b0).
Proof.
  intros P mem fsize w Hq Hlab b1 b0.
  split; [exact (labels_in_table_lookups mem fsize true w Hlab)|].
  destruct (benchmark_reporting mem fsize w Hq) as (Hr & Hfin & Hf).
  fold b1 b0 in Hr, Hfin, Hf.
  assert (Ho : fetched_outputs (trace b1) = fetched_outputs (trace b0)).
  { apply Hf. intros e He. destruct e; cbn in *; congruence. }
  repeat split.
  - exact Hr.
  - now rewrite Hfin.
  - now rewrite Hfin.
  - now rewrite Hfin.
  - apply Hf. intros e He. destruct e; cbn in *; congruence.
  - apply Hf. intros e He. destruct e; cbn in *; congruence.
  - exact Ho.
  - unfold predictions. now rewrite Ho.
  - apply Hf. intros e He. destruct e; cbn in *; congruence.
Qed.

Lemma reporting_is_observational_witness :
  let b1 := benchmark (P := Stub.quiet_platform) Stub.two_records 6146 true Stub.scenario in
  let b0 := benchmark (P := Stub.quiet_platform) Stub.two_records 6146 false Stub.scenario in
  quiet_printer (P := Stub.quiet_platform) /\
  reported_labels_in_table Stub.two_records (to_size_t 6146 / 3073) /\
  lookups_in_table (trace b1) /\
  returned b1 = returned b0 /\ predictions (trace b1) = [3; 7] /\
  predictions (trace b1) = predictions (trace b0) /\
  summaries (trace b1) = summaries (trace b0).
Proof.
  intros b1 b0.
  assert (Hq : quiet_printer (P := Stub.quiet_platform)) by (intros name w; reflexivity).
  assert (Hlab : reported_labels_in_table Stub.two_records (to_size_t 6146 / 3073)).
  { intros k Hk Hm. change (to_size_t 6146 / 3073) with 2 in Hk.
    destruct k as [|[|k]];
      [vm_compute; reflexivity | vm_compute in Hm; discriminate Hm | lia]. }
  assert (E : predictions (trace b1) = [3; 7]) by (vm_compute; reflexivity).
  destruct (reporting_is_observational Stub.quiet_platform Stub.two_records 6146
              Stub.scenario Hq Hlab)
    as (Hl & Hr & _ & _ & _ & _ & _ & _ & Hp & Hs).
  split; [exact Hq|]. split; [exact Hlab|]. split; [exact Hl|].
  split; [exact Hr|]. split; [exact E|]. split; [exact Hp | exact Hs].
Defined.

(** C9, as the design document states it, fails in two ways.  When the
    diagnostic printer reports an error for the first image, the run with
    live reporting aborts with that error, while the run without it
    completes and prints its summary.  And when the first record carries
    the label 200, the run with live reporting reads the class table at
    index 200, past its end, which the run without it never does. *)
Lemma reporting_changes_outcome :
  let m := Stub.with_print_errors [7] Stub.scenario in
  let b1 := benchmark (P := Stub.platform) Stub.two_records 6146 true m in
  let b0 := benchmark (P := Stub.platform) Stub.two_records 6146 false m in
  let m' := Stub.healthy Stub.mislabelled [F32.of_ratio 1 10] [(0, Stub.one_hot 3 1)] in
  let c1 := benchmark (P := Stub.quiet_platform) Stub.mislabelled 3073 true m' in
  let c0 := benchmark (P := Stub.quiet_platform) Stub.mislabelled 3073 false m' in
  returned b1 = 7 /\ returned b0 = TENSIL_ERROR_NONE /\
  predictions (trace b1) = [3] /\ predictions (trace b0) = [3; 7] /\
  summaries (trace b1) = [] /\ summaries (trace b0) <> [] /\
  ~ (returned b1 = returned b0 /\ predictions (trace b1) = predictions (trace b0)) /\
  forallb in_table (trace c1) = false /\ forallb in_table (trace c0) = true /\
  ~ lookups_in_table (trace c1).
Proof.
  intros m b1 b0 m' c1 c0.
  assert (H1 : returned b1 = 7) by (vm_compute; reflexivity).
  assert (H0 : returned b0 = TENSIL_ERROR_NONE) by (vm_compute; reflexivity).
  assert (Hc : forallb in_table (trace c1) = false) by (vm_compute; reflexivity).
  split; [exact H1|]. split; [exact H0|].
  split; [vm_compute; reflexivity|]. split; [vm_compute; reflexivity|].
  split; [vm_compute; reflexivity|]. split; [vm_compute; discriminate|].
  split; [intros [E _]; rewrite H1, H0 in E; discriminate E|].
  split; [exact Hc|]. split; [vm_compute; reflexivity|].
  intros Hall. apply (proj2 (forallb_forall in_table (trace c1))) in Hall.
  rewrite Hc in Hall. discriminate Hall.
Qed.

(** * Further properties of the code *)

(** ** [argmax] beyond the score vector of the benchmark *)

Lemma for_range_ext {S : Type} (body1 body2 : Z -> S -> S) :
  forall (n : nat) (lo : Z) (s : S),
    (forall i s', lo <= i < lo + Z.of_nat n -> body1 i s' = body2 i s') ->
    for_range n lo body1 s = for_range n lo body2 s.
Proof.
  induction n as [|n IH]; intros lo s H; [reflexivity|].
  cbn [for_range]. rewrite (H lo s) by lia. apply IH.
  intros i s' Hi. apply H. lia.
Qed.

Lemma for_range_last {S : Type} (body : Z -> S -> S) :
  forall (n : nat) (lo : Z) (s : S),
    for_range (Datatypes.S n) lo body s
    = body (lo + Z.of_nat n) (for_range n lo body s).
Proof.
  induction n as [|n IH]; intros lo s.
  - cbn. now rewrite Z.add_0_r.
  - change (for_range (Datatypes.S (Datatypes.S n)) lo body s)
      with (for_range (Datatypes.S n) (lo + 1) body (body lo s)).
    rewrite IH. cbn [for_range]. f_equal. lia.
Qed.

Lemma argmax_step_ext (b1 b2 : list float) (i : Z) (s : float * Z) :
  fread b1 i = fread b2 i -> argmax_step b1 i s = argmax_step b2 i s.
Proof. intros E. unfold argmax_step. destruct s as [max max_i]. now rewrite E. Qed.

(** X1.  [argmax] looks at the elements below [size] and at nothing else: two
    arrays that agree there give the same answer. *)
Theorem argmax_reads_below_size :
  forall (size : Z) (b1 b2 : list float),
    (forall i, 0 <= i < size -> fread b1 i = fread b2 i) ->
    argmax size b1 = argmax size b2.
Proof.
  intros size b1 b2 H. unfold argmax.
  destruct (Z.eqb_spec size 0) as [_|Hne]; [reflexivity|].
  destruct (Z_lt_le_dec size 1) as [Hneg|Hpos].
  - replace (Z.to_nat (size - 1)) with 0%nat by lia. reflexivity.
  - rewrite (H 0) by lia. f_equal.
    apply for_range_ext. intros i s' Hi. apply argmax_step_ext, H. lia.
Qed.

Lemma argmax_reads_below_size_witness :
  let b1 := [F32.of_ratio 5 10; F32.of_ratio 9 10] in
  let b2 := [F32.of_ratio 5 10; F32.of_ratio 9 10; F32.of_Z 7] in
  (forall i, 0 <= i < 2 -> fread b1 i = fread b2 i) /\
  argmax 2 b1 = argmax 2 b2.
Proof.
  intros b1 b2.
  assert (H : forall i, 0 <= i < 2 -> fread b1 i = fread b2 i).
  { intros i Hi. assert (E : i = 0 \/ i = 1) by lia. destruct E as [-> | ->]; reflexivity. }
  split; [exact H|]. exact (argmax_reads_below_size 2 b1 b2 H).
Defined.

Lemma SFltb_numbers (a b : float) :
  SFltb a b = true -> is_nan a = false /\ is_nan b = false.
Proof. unfold SFltb. destruct a, b; cbn; intros H; try discriminate H; auto. Qed.

(** X2.  A NaN in the first slot wins over everything, because no score compares
    greater than a NaN; a NaN anywhere else is never chosen, because it
    compares greater than nothing. *)
Theorem argmax_and_nan :
  forall (size : Z) (buffer : list float),
    0 < size ->
    (is_nan (fread buffer 0) = true -> argmax size buffer = 0) /\
    (0 < argmax size buffer -> is_nan (fread buffer (argmax size buffer)) = false).
Proof.
  intros size buffer Hs. unfold argmax.
  destruct (Z.eqb_spec size 0) as [->|_]; [lia|].
  pose (Inv := fun (_ : Z) (s : float * Z) =>
                 fst s = fread buffer (snd s) /\
                 (is_nan (fread buffer 0) = true -> snd s = 0) /\
                 (0 < snd s -> is_nan (fst s) = false)).
  assert (H : Inv (1 + Z.of_nat (Z.to_nat (size - 1)))
                  (for_range (Z.to_nat (size - 1)) 1 (argmax_step buffer)
                             (fread buffer 0, 0))).
  { apply (for_range_invariant Inv).
    - repeat split; cbn [fst snd]; auto; lia.
    - intros i [max max_i] Hi (Hm & Hn & Hp). cbn [fst snd] in *.
      unfold argmax_step. destruct (F32.gt (fread buffer i) max) eqn:Hgt.
      + unfold F32.gt in Hgt. apply SFltb_numbers in Hgt. destruct Hgt as [Hmax Hbi].
        repeat split; cbn [fst snd]; auto.
        intros Hnan. specialize (Hn Hnan). subst max_i. congruence.
      + repeat split; cbn [fst snd]; auto. }
  destruct H as (Hm & Hn & Hp). split; [exact Hn|].
  intros Hr. rewrite <- Hm. exact (Hp Hr).
Qed.

Lemma argmax_and_nan_witness :
  0 < 3 /\ is_nan (fread [S754_nan; F32.of_Z 1; F32.of_Z 2] 0) = true /\
  argmax 3 [S754_nan; F32.of_Z 1; F32.of_Z 2] = 0 /\
  0 < argmax 3 [F32.of_Z 1; S754_nan; F32.of_Z 2] /\
  is_nan (fread [F32.of_Z 1; S754_nan; F32.of_Z 2]
                (argmax 3 [F32.of_Z 1; S754_nan; F32.of_Z 2])) = false.
Proof.
  assert (H3 : 0 < 3) by lia.
  assert (Hn : is_nan (fread [S754_nan; F32.of_Z 1; F32.of_Z 2] 0) = true) by reflexivity.
  assert (Hp : 0 < argmax 3 [F32.of_Z 1; S754_nan; F32.of_Z 2]) by (vm_compute; reflexivity).
  split; [exact H3|]. split; [exact Hn|]. split.
  - exact (proj1 (argmax_and_nan 3 [S754_nan; F32.of_Z 1; F32.of_Z 2] H3) Hn).
  - split; [exact Hp|].
    exact (proj2 (argmax_and_nan 3 [F32.of_Z 1; S754_nan; F32.of_Z 2] H3) Hp).
Defined.

Lemma fread_app_left (l : list float) (x : float) (i : Z) :
  0 <= i < Z.of_nat (length l) -> fread (l ++ [x]) i = fread l i.
Proof. intros H. unfold fread. apply app_nth1. lia. Qed.

Lemma fread_app_last (l : list float) (x : float) :
  fread (l ++ [x]) (Z.of_nat (length l)) = x.
Proof. unfold fread. rewrite Nat2Z.id. apply nth_middle. Qed.

(** X3.  Scores can be fed one at a time: a new last score takes the prize only
    if it is strictly greater than the current winner. *)
Theorem argmax_one_more :
  forall (l : list float) (x : float),
    l <> [] ->
    let n := Z.of_nat (length l) in
    argmax (n + 1) (l ++ [x])
    = if F32.gt x (fread l (argmax n l)) then n else argmax n l.
Proof.
  intros l x Hne n.
  assert (Hn : 0 < n) by (subst n; destruct l; [congruence | cbn; lia]).
  pose proof (argmax_scan n l Hn) as (Hr & Hm & _).
  unfold argmax.
  destruct (Z.eqb_spec (n + 1) 0) as [E|_]; [lia|].
  destruct (Z.eqb_spec n 0) as [E|_]; [lia|].
  replace (Z.to_nat (n + 1 - 1)) with (Datatypes.S (Z.to_nat (n - 1))) by lia.
  rewrite for_range_last.
  replace (1 + Z.of_nat (Z.to_nat (n - 1))) with n by lia.
  rewrite (fread_app_left l x 0) by lia.
  rewrite (for_range_ext (argmax_step (l ++ [x])) (argmax_step l)).
  2:{ intros i s' Hi. apply argmax_step_ext, fread_app_left. lia. }
  destruct (for_range (Z.to_nat (n - 1)) 1 (argmax_step l) (fread l 0, 0))
    as [max max_i] eqn:E.
  cbn [fst snd] in *. unfold argmax_step. subst n.
  rewrite fread_app_last, Hm.
  destruct (F32.gt x (fread l max_i)); reflexivity.
Qed.

Lemma argmax_one_more_witness :
  let l := [F32.of_ratio 5 10; F32.of_ratio 9 10] in
  l <> [] /\
  argmax 3 (l ++ [F32.of_ratio 9 10]) = 1 /\
  argmax 3 (l ++ [F32.of_Z 1]) = 2.
Proof.
  intros l. assert (H : l <> []) by discriminate.
  split; [exact H|]. split.
  - exact (argmax_one_more l (F32.of_ratio 9 10) H).
  - exact (argmax_one_more l (F32.of_Z 1) H).
Defined.

(** X4.  The model's tensors are addressed by name only: every staging call
    writes 3 scalars of ["x:0"] at an offset below 1024, every fetch reads
    10 scalars of ["Identity:0"], and the diagnostic printer is asked for
    ["Identity:0"]. *)
Theorem tensors_addressed_by_name :
  forall (P : Platform) (mem : list byte) (fsize : Z) (print_images : bool)
         (w : world),
    Forall well_addressed (trace (benchmark mem fsize print_images w)).
Proof.
  intros P mem fsize print_images w.
  eapply Forall_impl; [|apply benchmark_events].
  intros e0 H0. destruct H0 as [ | | | | k e Hk He]; try exact I.
  destruct He; try exact I.
  - unfold load_event, well_addressed, CIFAR_PIXELS_SIZE, pixel_at, normalized_pixel.
    repeat split; lia.
  - unfold fetched, well_addressed. split; reflexivity.
  - destruct e; try discriminate; exact I.
  - reflexivity.
Qed.

(** X5.  With live reporting off the benchmark never touches the console and
    never calls the diagnostic printer: it only prints its banner and, if it
    completes, the summary line. *)
Theorem silent_without_reporting :
  forall (P : Platform) (mem : list byte) (fsize : Z) (w : world),
    Forall (fun e => reporting e = false) (trace (benchmark mem fsize false w)).
Proof.
  intros P mem fsize w.
  eapply Forall_impl; [|apply benchmark_events].
  intros e0 H0. destruct H0 as [ | Hp | Hp | | k e Hk He];
    try discriminate Hp; try reflexivity.
  destruct He; try discriminate; reflexivity.
Qed.

(** X6.  Every verdict line names the predicted class from the table.  The
    expected class is looked up by the label byte of a record whose index is
    a multiple of 100, and has a name exactly when that label is below 10. *)
Theorem verdict_lookups :
  forall (P : Platform) (mem : list byte) (fsize : Z) (print_images : bool)
         (w : world) (expected actual : option string),
    In (Ev_printf_classes expected actual) (trace (benchmark mem fsize print_images w)) ->
    print_images = true /\
    (exists name, actual = Some name) /\
    exists k : nat,
      Z.of_nat k < to_size_t fsize / 3073 /\
      Z.of_nat k mod 100 = 0 /\
      expected = nth_error cifar_classes (Z.to_nat (label (record_at mem k))) /\
      (expected = None <-> 10 <= label (record_at mem k)).
Proof.
  intros P mem fsize print_images w expected actual Hin.
  pose proof (benchmark_events mem fsize print_images w) as Hall.
  rewrite Forall_forall in Hall. specialize (Hall _ Hin).
  remember (Ev_printf_classes expected actual) as e0 eqn:Ee.
  destruct Hall as [ | | | | k e Hk He]; try discriminate Ee.
  destruct He as [ | | | | | | | | e Hp Hi Hpart | | | | result Hp Hi | ];
    try discriminate Ee.
  - subst e. discriminate Hpart.
  - pose proof (f_equal (fun e => match e with
                                  | Ev_printf_classes x _ => x
                                  | _ => None
                                  end) Ee) as E1.
    pose proof (f_equal (fun e => match e with
                                  | Ev_printf_classes _ y => y
                                  | _ => None
                                  end) Ee) as E2.
    cbv beta iota in E1, E2. subst expected actual. clear Ee.
    split; [exact Hp|]. split.
    + pose proof (argmax_in_range CIFAR_CLASSES_SIZE result ltac:(reflexivity)) as Hr.
      destruct (nth_error cifar_classes (Z.to_nat (argmax CIFAR_CLASSES_SIZE result)))
        as [name|] eqn:E; [now exists name|].
      apply nth_error_None in E. unfold CIFAR_CLASSES_SIZE in *.
      cbn [cifar_classes length] in E. lia.
    + exists k. rewrite label_record_at.
      split; [exact Hk|]. split; [exact Hi|]. split; [reflexivity|].
      rewrite nth_error_None. cbn [cifar_classes length].
      assert (0 <= label (record_at mem k)).
      { unfold record_at, label, byte_value. lia. }
      lia.
Qed.

Lemma verdict_lookups_witness :
  let b := benchmark (P := Stub.platform) Stub.mislabelled 3073 true
             (Stub.healthy Stub.mislabelled [F32.of_ratio 1 10] [(0, Stub.one_hot 3 1)]) in
  In (Ev_printf_classes None (Some "cat"%string)) (trace b) /\
  exists k : nat,
    Z.of_nat k < to_size_t 3073 / 3073 /\
    Z.of_nat k mod 100 = 0 /\
    None = nth_error cifar_classes (Z.to_nat (label (record_at Stub.mislabelled k))) /\
    (@None string = None <-> 10 <= label (record_at Stub.mislabelled k)).
Proof.
  intros b.
  assert (Hin : In (Ev_printf_classes None (Some "cat"%string)) (trace b)).
  { apply (nth_error_In (trace b) 3119). vm_compute. reflexivity. }
  split; [exact Hin|].
  exact (proj2 (proj2 (verdict_lookups Stub.platform Stub.mislabelled 3073 true _ _ _ Hin))).
Defined.

(** ** Tallies *)

Lemma reported_reporting (mem : list byte) (print_images : bool) (i p : Z) (s : float)
      (result : list float) :
  Forall (fun e => reporting e = true) (reported mem print_images i p s result).
Proof.
  unfold reported. destruct print_images; [|constructor].
  apply Forall_app; split; [repeat constructor|].
  destruct (i mod 100 =? 0); [|constructor].
  apply Forall_app; split.
  { eapply Forall_impl; [|apply picture_display]. intros e He.
    destruct e; cbn in *; congruence. }
  unfold verdict. repeat (constructor; [reflexivity|]).
  constructor; [|repeat constructor].
  destruct (argmax CIFAR_CLASSES_SIZE result =? u8read mem p 0); reflexivity.
Qed.

Lemma silent_reported {A : Type} (f : event -> list A) (mem : list byte)
      (print_images : bool) (i p : Z) (s : float) (result : list float) :
  (forall e, reporting e = true -> f e = []) ->
  flat_map f (reported mem print_images i p s result) = [].
Proof.
  intros Hf. apply flat_map_silent.
  eapply Forall_impl; [|apply reported_reporting]. exact Hf.
Qed.

Lemma display_reporting (e : event) : display e = true -> reporting e = true.
Proof. destruct e; cbn; congruence. Qed.

Lemma reporting_no_start (e : event) : reporting e = true -> start_of e = [].
Proof. destruct e; cbn; congruence. Qed.

Lemma reporting_no_stop (e : event) : reporting e = true -> stop_of e = [].
Proof. destruct e; cbn; congruence. Qed.

Lemma reporting_no_failed_run (e : event) : reporting e = true -> failed_run_of e = [].
Proof. destruct e; cbn; congruence. Qed.

Lemma reporting_no_run (e : event) : reporting e = true -> run_of e = [].
Proof. destruct e; cbn; congruence. Qed.

Lemma reporting_no_reading (e : event) : reporting e = true -> reading_of e = [].
Proof. destruct e; cbn; congruence. Qed.

Lemma reporting_no_output (e : event) : reporting e = true -> output_of e = [].
Proof. destruct e; cbn; congruence. Qed.

Lemma reporting_no_begin (e : event) : reporting e = true -> begin_of e = [].
Proof. destruct e; cbn; congruence. Qed.

Lemma starts_staged mem p k : flat_map start_of (staged mem p k) = [].
Proof. now apply silent_staged. Qed.

Lemma stops_staged mem p k : flat_map stop_of (staged mem p k) = [].
Proof. now apply silent_staged. Qed.

Lemma failed_runs_staged mem p k : flat_map failed_run_of (staged mem p k) = [].
Proof. now apply silent_staged. Qed.

Lemma starts_picture mem p : flat_map start_of (picture mem p) = [].
Proof. apply silent_picture. intros e He. apply reporting_no_start, display_reporting, He. Qed.

Lemma stops_picture mem p : flat_map stop_of (picture mem p) = [].
Proof. apply silent_picture. intros e He. apply reporting_no_stop, display_reporting, He. Qed.

Lemma failed_runs_picture mem p : flat_map failed_run_of (picture mem p) = [].
Proof.
  apply silent_picture. intros e He. apply reporting_no_failed_run, display_reporting, He.
Qed.

Lemma starts_reported mem pi i p s result :
  flat_map start_of (reported mem pi i p s result) = [].
Proof. apply silent_reported, reporting_no_start. Qed.

Lemma stops_reported mem pi i p s result :
  flat_map stop_of (reported mem pi i p s result) = [].
Proof. apply silent_reported, reporting_no_stop. Qed.

Lemma failed_runs_reported mem pi i p s result :
  flat_map failed_run_of (reported mem pi i p s result) = [].
Proof. apply silent_reported, reporting_no_failed_run. Qed.

Lemma runs_reported mem pi i p s result :
  flat_map run_of (reported mem pi i p s result) = [].
Proof. apply silent_reported, reporting_no_run. Qed.

Lemma readings_reported mem pi i p s result :
  flat_map reading_of (reported mem pi i p s result) = [].
Proof. apply silent_reported, reporting_no_reading. Qed.

Lemma outputs_reported mem pi i p s result :
  flat_map output_of (reported mem pi i p s result) = [].
Proof. apply silent_reported, reporting_no_output. Qed.

Create Rewrite HintDb tally.
#[global] Hint Rewrite @flat_map_app
  starts_staged stops_staged failed_runs_staged runs_staged readings_staged outputs_staged
  starts_picture stops_picture failed_runs_picture runs_picture readings_picture
  outputs_picture
  starts_reported stops_reported failed_runs_reported runs_reported readings_reported
  outputs_reported @app_nil_r @app_nil_l @length_app : tally.

Ltac read_tally :=
  unfold stopwatches_stopped, images_executed, elapsed_readings, stopwatches_started,
    executions_failed, fetched_outputs, timed, fetched, progress_line;
  autorewrite with tally;
  cbn [flat_map start_of stop_of failed_run_of run_of reading_of output_of
       load_event app length Z.eqb].

(** How the calls of one iteration add up. *)
Lemma image_tally (mem : list byte) (print_images : bool) (i : Z) (v : vars)
      (r : result unit) (v' : vars) (t : list event) :
  image_run mem print_images i v r v' t ->
  stopwatches_stopped t = images_executed t /\
  length (elapsed_readings t) = images_executed t /\
  stopwatches_started t = (images_executed t + executions_failed t)%nat /\
  (length (fetched_outputs t) <= images_executed t)%nat /\
  (stopwatches_started t <= 1)%nat /\
  (r = Next tt -> executions_failed t = 0%nat).
Proof.
  intros H.
  destruct H as [j error Hj He | error He | error He | s result error He
                | s result error He Hpi Hi | s result].
  - read_tally. repeat split; try lia; discriminate.
  - read_tally. rewrite ?(proj2 (Z.eqb_neq error 0) He). cbn [length app].
    repeat split; try lia; discriminate.
  - read_tally. rewrite ?(proj2 (Z.eqb_neq error 0) He). cbn [length app].
    repeat split; try lia; discriminate.
  - read_tally. rewrite ?(proj2 (Z.eqb_neq error 0) He). cbn [length app].
    repeat split; try lia; discriminate.
  - read_tally. repeat split; try lia; discriminate.
  - read_tally. repeat split; try lia.
Qed.

Lemma images_tally (mem : list byte) (print_images : bool) :
  forall (n : nat) (i : Z) (v : vars) (r : result unit) (v' : vars) (t : list event),
    images_run mem print_images n i v r v' t ->
    stopwatches_stopped t = images_executed t /\
    length (elapsed_readings t) = images_executed t /\
    stopwatches_started t = (images_executed t + executions_failed t)%nat /\
    (length (fetched_outputs t) <= images_executed t)%nat /\
    (stopwatches_started t <= images_begun t)%nat /\
    (images_begun t <= n)%nat /\
    (executions_failed t <= 1)%nat /\
    (r = Next tt -> executions_failed t = 0%nat) /\
    v_ptr v' = v_ptr v + 3073 * Z.of_nat (images_begun t).
Proof.
  induction 1 as [i v | n i v v' error t H1 | n i v v1 v2 r t1 t2 H1 Hrest IH].
  - cbn. repeat split; lia.
  - pose proof (image_tally _ _ _ _ _ _ _ H1) as (A1 & A2 & A3 & A4 & A5 & A6).
    pose proof (image_account _ _ _ _ _ _ _ H1) as (Hptr & _ & _ & Hbeg & _).
    rewrite Hbeg. repeat split; try lia. discriminate.
  - pose proof (image_tally _ _ _ _ _ _ _ H1) as (A1 & A2 & A3 & A4 & A5 & A6).
    pose proof (image_account _ _ _ _ _ _ _ H1) as (Hptr & _ & _ & Hbeg & _).
    destruct IH as (B1 & B2 & B3 & B4 & B5 & B6 & B7 & B8 & B9).
    specialize (A6 eq_refl).
    unfold stopwatches_stopped, images_executed, elapsed_readings, stopwatches_started,
      executions_failed, fetched_outputs, images_begun in *.
    rewrite !flat_map_app, !length_app.
    repeat split; try lia.
    intros ->. specialize (B8 eq_refl). lia.
Qed.

Lemma benchmark_tally {P : Platform} (mem : list byte) (fsize : Z)
      (print_images : bool) (w : world) :
  let b := benchmark mem fsize print_images w in
  let t := trace b in
  stopwatches_stopped t = images_executed t /\
  length (elapsed_readings t) = images_executed t /\
  stopwatches_started t = (images_executed t + executions_failed t)%nat /\
  (length (fetched_outputs t) <= images_executed t)%nat /\
  (stopwatches_started t <= images_begun t)%nat /\
  Z.of_nat (images_begun t) <= to_size_t fsize / 3073 /\
  (executions_failed t <= 1)%nat /\
  (returned b = TENSIL_ERROR_NONE -> executions_failed t = 0%nat) /\
  ptr (final b) = 3073 * Z.of_nat (images_begun t).
Proof.
  intros b t. subst t.
  destruct (benchmark_account mem fsize print_images w)
    as (r & t & Hr & Htr & Hrun & _ & _ & _ & Hcase).
  fold b in Hr, Htr, Hrun, Hcase.
  destruct (total_count_range fsize) as [_ Htot].
  pose proof (images_tally _ _ _ _ _ _ _ _ Hrun)
    as (B1 & B2 & B3 & B4 & B5 & B6 & B7 & B8 & B9).
  assert (Hall : forall A (f : event -> list A),
             (forall e, display e = true -> f e = []) -> f Ev_printf_testing = [] ->
             (forall a b c, f (Ev_printf_summary a b c) = []) ->
             flat_map f (trace b) = flat_map f t).
  { intros A f H1 H2 H3. rewrite Htr. now apply around_benchmark. }
  unfold stopwatches_stopped, images_executed, elapsed_readings, stopwatches_started,
    executions_failed, fetched_outputs, images_begun in *.
  rewrite (Hall _ stop_of), (Hall _ run_of), (Hall _ reading_of), (Hall _ start_of),
    (Hall _ failed_run_of), (Hall _ output_of), (Hall _ begin_of);
    try reflexivity;
    try (intros e; destruct e; cbn; congruence).
  cbn [vars_of start v_ptr] in B9.
  repeat split; try lia.
  intros H0. apply B8. destruct r as [[]|error]; [reflexivity|].
  destruct Hcase as [He _]. cbn in Hr. unfold TENSIL_ERROR_NONE in H0. congruence.
Qed.

(** X7.  In every run, complete or aborted, the read pointer has advanced
    by one record per image begun and stays inside the file: no image is
    begun beyond the [fsize / 3073]-th. *)
Theorem pointer_stays_in_file :
  forall (P : Platform) (mem : list byte) (fsize : Z) (print_images : bool)
         (w : world),
    let b := benchmark mem fsize print_images w in
    ptr (final b) = 3073 * Z.of_nat (images_begun (trace b)) /\
    Z.of_nat (images_begun (trace b)) <= to_size_t fsize / 3073 /\
    0 <= ptr (final b) <= to_size_t fsize.
Proof.
  intros P mem fsize print_images w b.
  destruct (benchmark_tally mem fsize print_images w)
    as (_ & _ & _ & _ & _ & Hb & _ & _ & Hp).
  fold b in Hb, Hp.
  split; [exact Hp|]. split; [exact Hb|].
  assert (H : 0 <= to_size_t fsize).
  { unfold to_size_t. apply Z.mod_pos_bound. reflexivity. }
  pose proof (Z.mul_div_le (to_size_t fsize) 3073 ltac:(lia)). lia.
Qed.

(** X8.  The counters of a run are ordered, whether it completes or aborts:
    misclassified <= score vectors fetched <= executions completed
    <= stopwatches started <= images begun <= records in the file. *)
Theorem counters_are_ordered :
  forall (P : Platform) (mem : list byte) (fsize : Z) (print_images : bool)
         (w : world),
    let b := benchmark mem fsize print_images w in
    0 <= misclass_count (final b) <= Z.of_nat (length (fetched_outputs (trace b))) /\
    (length (fetched_outputs (trace b)) <= images_executed (trace b))%nat /\
    (images_executed (trace b) <= stopwatches_started (trace b))%nat /\
    (stopwatches_started (trace b) <= images_begun (trace b))%nat /\
    Z.of_nat (images_begun (trace b)) <= to_size_t fsize / 3073.
Proof.
  intros P mem fsize print_images w b.
  destruct (benchmark_tally mem fsize print_images w)
    as (_ & _ & B3 & B4 & B5 & B6 & _).
  fold b in B3, B4, B5, B6.
  destruct (benchmark_account mem fsize print_images w)
    as (r & t & _ & Htr & _ & _ & _ & Hmis & _).
  fold b in Htr, Hmis.
  assert (Eo : fetched_outputs (trace b) = fetched_outputs t).
  { unfold fetched_outputs. rewrite Htr. apply around_benchmark; try reflexivity.
    apply display_no_output. }
  rewrite Eo in *. rewrite Hmis. unfold mismatches.
  pose proof (mismatches_from_bounds mem (fetched_outputs t) 0).
  repeat split; try lia; assumption.
Qed.

(** X9.  Stopwatches are stopped and read as often as executions succeed.
    Every stopwatch that is started is stopped, except the one around an
    execution that reports an error: that one is left running, and there is
    at most one such execution in a run.  A run that returns
    [TENSIL_ERROR_NONE] has stopped every stopwatch it started. *)
Theorem stopwatch_left_running_only_on_failure :
  forall (P : Platform) (mem : list byte) (fsize : Z) (print_images : bool)
         (w : world),
    let b := benchmark mem fsize print_images w in
    stopwatches_stopped (trace b) = images_executed (trace b) /\
    length (elapsed_readings (trace b)) = stopwatches_stopped (trace b) /\
    stopwatches_started (trace b)
    = (stopwatches_stopped (trace b) + executions_failed (trace b))%nat /\
    (executions_failed (trace b) <= 1)%nat /\
    (returned b = TENSIL_ERROR_NONE ->
     stopwatches_started (trace b) = stopwatches_stopped (trace b)).
Proof.
  intros P mem fsize print_images w b.
  destruct (benchmark_tally mem fsize print_images w)
    as (B1 & B2 & B3 & _ & _ & _ & B7 & B8 & _).
  fold b in B1, B2, B3, B7, B8.
  repeat split; try lia.
Qed.

Lemma stopwatch_left_running_only_on_failure_witness :
  let b := benchmark (P := Stub.platform) Stub.mislabelled 3073 false
                     (Stub.healthy Stub.mislabelled [] []) in
  returned b = TENSIL_ERROR_NONE /\
  stopwatches_started (trace b) = stopwatches_stopped (trace b).
Proof.
  intros b.
  assert (H : returned b = TENSIL_ERROR_NONE) by (vm_compute; reflexivity).
  split; [exact H|].
  exact (proj2 (proj2 (proj2 (proj2
           (stopwatch_left_running_only_on_failure Stub.platform Stub.mislabelled 3073
              false (Stub.healthy Stub.mislabelled [] []))))) H).
Defined.

(** ** What is printed, and when *)

Lemma progress_staged mem p k : flat_map progress_of (staged mem p k) = [].
Proof. now apply silent_staged. Qed.

Lemma previews_staged mem p k : flat_map preview_of (staged mem p k) = [].
Proof. now apply silent_staged. Qed.

Lemma prints_staged mem p k : flat_map print_of (staged mem p k) = [].
Proof. now apply silent_staged. Qed.

Lemma picture_cells (mem : list byte) (p : Z) :
  Forall (fun e => progress_of e = [] /\ preview_of e = [] /\ print_of e = [])
         (flat_map (fun j => picture_cell mem p (Z.of_nat j)) (seq 0 1024)).
Proof.
  apply Forall_flat_map. apply Forall_forall. intros j _.
  unfold picture_cell. destruct (Z.of_nat j mod 32 =? 0); repeat constructor.
Qed.

Lemma progress_picture mem p : flat_map progress_of (picture mem p) = [].
Proof.
  unfold picture. rewrite !flat_map_app.
  rewrite (flat_map_silent progress_of
             (flat_map (fun j => picture_cell mem p (Z.of_nat j)) (seq 0 1024))).
  - reflexivity.
  - eapply Forall_impl; [|apply picture_cells]. intros e He. apply He.
Qed.

Lemma previews_picture mem p : flat_map preview_of (picture mem p) = [tt].
Proof.
  unfold picture. rewrite !flat_map_app.
  rewrite (flat_map_silent preview_of
             (flat_map (fun j => picture_cell mem p (Z.of_nat j)) (seq 0 1024))).
  - reflexivity.
  - eapply Forall_impl; [|apply picture_cells]. intros e He. apply He.
Qed.

Lemma prints_picture mem p : flat_map print_of (picture mem p) = [].
Proof.
  unfold picture. rewrite !flat_map_app.
  rewrite (flat_map_silent print_of
             (flat_map (fun j => picture_cell mem p (Z.of_nat j)) (seq 0 1024))).
  - reflexivity.
  - eapply Forall_impl; [|apply picture_cells]. intros e He. apply He.
Qed.

Create Rewrite HintDb cadence.
#[global] Hint Rewrite @flat_map_app
  progress_staged previews_staged prints_staged outputs_staged
  progress_picture previews_picture prints_picture outputs_picture
  @app_nil_r @app_nil_l @length_app : cadence.

Ltac read_cadence :=
  unfold progress_lines, previews, diagnostic_prints, fetched_outputs,
    timed, fetched, progress_line, verdict;
  autorewrite with cadence;
  cbn [flat_map progress_of preview_of print_of output_of load_event app length
       Z.eqb seq map filter Nat.add].

(** The glyph of the progress line of image [k]: [progress[i % 4]]. *)
Lemma image_cadence (mem : list byte) (k : nat) (v : vars)
      (r : result unit) (v' : vars) (t : list event) :
  image_run mem true (Z.of_nat k) v r v' t ->
  progress_lines t
  = map (fun k => (Z.of_nat k, nth (Z.to_nat (Z.of_nat k mod 4)) progress zero))
        (seq k (length (fetched_outputs t))) /\
  previews t
  = length (filter (fun k => Z.of_nat k mod 100 =? 0)
                   (seq k (length (fetched_outputs t)))) /\
  diagnostic_prints t = previews t.
Proof.
  intros H.
  remember (Z.of_nat k) as i eqn:Ei. remember true as print_images eqn:Ep.
  destruct H as [j error Hj He | error He | error He | s result error He
                | s result error He Hpi Hi | s result]; subst i.
  - read_cadence. repeat split; reflexivity.
  - read_cadence. repeat split; reflexivity.
  - read_cadence. repeat split; reflexivity.
  - read_cadence. rewrite ?(proj2 (Z.eqb_neq error 0) He).
    cbn [app length seq map filter]. repeat split; reflexivity.
  - read_cadence. rewrite Hi. cbn [Z.eqb length]. repeat split; reflexivity.
  - unfold reported. subst print_images.
    destruct (Z.of_nat k mod 100 =? 0) eqn:E100;
      read_cadence; rewrite ?E100; cbn [length];
      repeat split; try reflexivity.
    all: destruct (argmax CIFAR_CLASSES_SIZE result =? u8read mem (v_ptr v) 0);
      reflexivity.
Qed.

Lemma images_cadence (mem : list byte) :
  forall (n : nat) (i : Z) (v : vars) (r : result unit) (v' : vars) (t : list event),
    images_run mem true n i v r v' t ->
    forall k : nat, i = Z.of_nat k ->
    progress_lines t
    = map (fun k => (Z.of_nat k, nth (Z.to_nat (Z.of_nat k mod 4)) progress zero))
          (seq k (length (fetched_outputs t))) /\
    previews t
    = length (filter (fun k => Z.of_nat k mod 100 =? 0)
                     (seq k (length (fetched_outputs t)))) /\
    diagnostic_prints t = previews t.
Proof.
  intros n i v r v' t H. remember true as print_images eqn:Ep.
  induction H as [i v | n i v v' error t H1 | n i v v1 v2 r t1 t2 H1 Hrest IH];
    intros k Ek; subst i print_images.
  - repeat split; reflexivity.
  - exact (image_cadence _ _ _ _ _ _ H1).
  - pose proof (image_cadence _ _ _ _ _ _ H1) as (A1 & A2 & A3).
    pose proof (image_account _ _ _ _ _ _ _ H1) as (_ & _ & _ & _ & _ & _ & Hone & _).
    destruct (IH (S k) ltac:(lia)) as (B1 & B2 & B3).
    unfold progress_lines, previews, diagnostic_prints, fetched_outputs in *.
    rewrite !flat_map_app, !length_app, Hone in *.
    rewrite A1, B1, A3, B3, A2, B2.
    change (1 + length (flat_map output_of t2))%nat
      with (S (length (flat_map output_of t2))).
    cbn [seq map filter].
    destruct (Z.of_nat k mod 100 =? 0); cbn [length app Nat.add]; repeat split;
      reflexivity.
Qed.

Lemma hundredths (n : nat) :
  Z.of_nat (length (filter (fun k => Z.of_nat k mod 100 =? 0) (seq 0 n)))
  = (Z.of_nat n + 99) / 100.
Proof.
  induction n as [|n IH]; [reflexivity|].
  rewrite seq_S, filter_app, length_app, Nat2Z.inj_add, IH, Nat2Z.inj_succ.
  cbn [Nat.add filter].
  pose proof (Z.div_mod (Z.of_nat n) 100 ltac:(lia)) as Hd.
  pose proof (Z.mod_pos_bound (Z.of_nat n) 100 ltac:(lia)) as Hm.
  assert (Hq : (Z.of_nat n + 99) / 100
               = Z.of_nat n / 100 + (if Z.of_nat n mod 100 =? 0 then 0 else 1)).
  { destruct (Z.eqb_spec (Z.of_nat n mod 100) 0) as [E|E].
    - symmetry. apply (Z.div_unique _ _ _ 99); lia.
    - symmetry. apply (Z.div_unique _ _ _ (Z.of_nat n mod 100 - 1)); lia. }
  assert (Hs : (Z.succ (Z.of_nat n) + 99) / 100 = Z.of_nat n / 100 + 1).
  { symmetry. apply (Z.div_unique _ _ _ (Z.of_nat n mod 100)); lia. }
  rewrite Hs, Hq.
  destruct (Z.of_nat n mod 100 =? 0); cbn [length]; lia.
Qed.

Lemma around_loop_printing {A : Type} (f : event -> list A) (print_images : bool)
      (t : list event) (error : tensil_error_t) (total_count mc : Z) (ts : float) :
  f Ev_printf_testing = [] -> f Ev_console_clear_screen = [] ->
  (forall x y, f (Ev_console_set_cursor_position x y) = []) ->
  (forall a b c, f (Ev_printf_summary a b c) = []) ->
  flat_map f ([Ev_printf_testing] ++
              (if print_images then [Ev_console_clear_screen] else []) ++ t ++
              cleanup print_images error total_count mc ts)
  = flat_map f t.
Proof.
  intros Ht Hc Hp Hs. unfold cleanup. rewrite !flat_map_app.
  destruct print_images, (error =? TENSIL_ERROR_NONE);
    cbn [flat_map app]; rewrite ?Ht, ?Hs, ?Hc, ?Hp;
    rewrite ?app_nil_r; reflexivity.
Qed.

(** X10.  With reporting on, a run, complete or aborted, prints one
    progress line per score vector fetched, numbered from 0 and with the
    glyph [progress[i % 4]]; it draws a preview for every hundredth image,
    that is [ceil(n / 100)] previews for [n] vectors, and calls the
    diagnostic printer once per preview. *)
Theorem reporting_cadence :
  forall (P : Platform) (mem : list byte) (fsize : Z) (w : world),
    let b := benchmark mem fsize true w in
    let n := length (fetched_outputs (trace b)) in
    progress_lines (trace b)
    = map (fun k => (Z.of_nat k, nth (Z.to_nat (Z.of_nat k mod 4)) progress zero))
          (seq 0 n) /\
    Z.of_nat (previews (trace b)) = (Z.of_nat n + 99) / 100 /\
    diagnostic_prints (trace b) = previews (trace b).
Proof.
  intros P mem fsize w b n. subst n.
  destruct (benchmark_account mem fsize true w)
    as (r & t & _ & Htr & Hrun & _).
  fold b in Htr, Hrun.
  destruct (images_cadence _ _ _ _ _ _ _ Hrun 0%nat eq_refl) as (B1 & B2 & B3).
  assert (Hall : forall A (f : event -> list A),
             f Ev_printf_testing = [] -> f Ev_console_clear_screen = [] ->
             (forall x y, f (Ev_console_set_cursor_position x y) = []) ->
             (forall a b c, f (Ev_printf_summary a b c) = []) ->
             flat_map f (trace b) = flat_map f t).
  { intros A f H1 H2 H3 H4. rewrite Htr.
    exact (around_loop_printing f true t _ _ _ _ H1 H2 H3 H4). }
  unfold progress_lines, previews, diagnostic_prints, fetched_outputs in *.
  rewrite (Hall _ progress_of), (Hall _ preview_of), (Hall _ print_of),
    (Hall _ output_of) by reflexivity.
  split; [exact B1|]. split; [|exact B3].
  rewrite B2. apply hundredths.
Qed.

(** ** Files *)

Lemma benchmark_no_filesystem {P : Platform} (mem : list byte) (fsize : Z)
      (print_images : bool) (w : world) :
  Forall (fun e => filesystem e = false) (trace (benchmark mem fsize print_images w)).
Proof.
  eapply Forall_impl; [|apply benchmark_events].
  intros e0 H0. destruct H0 as [ | | | | k e Hk He]; try reflexivity.
  destruct He; try reflexivity.
  destruct e; try discriminate; reflexivity.
Qed.

Lemma no_filesystem_opens (e : event) : filesystem e = false -> open_of e = [].
Proof. destruct e; cbn; congruence. Qed.

Lemma no_filesystem_closes (e : event) : filesystem e = false -> close_of e = [].
Proof. destruct e; cbn; congruence. Qed.

Lemma no_filesystem_failures (e : event) : filesystem e = false -> fs_failure e = [].
Proof. destruct e; cbn; congruence. Qed.

Lemma benchmark_silent_filesystem {P : Platform} {A : Type} (f : event -> list A)
      (mem : list byte) (fsize : Z) (print_images : bool) (w : world) :
  (forall e, filesystem e = false -> f e = []) ->
  flat_map f (trace (benchmark mem fsize print_images w)) = [].
Proof.
  intros Hf. apply flat_map_silent.
  eapply Forall_impl; [|apply benchmark_no_filesystem]. exact Hf.
Qed.

(** X11.  A file shorter than one record is not an error: nothing is staged or
    executed, the result is [TENSIL_ERROR_NONE], and the summary line reports
    0 images with an accuracy and a frame rate that are both NaN, the two
    quotients being 0/0. *)
Theorem short_file_summary :
  forall (P : Platform) (mem : list byte) (fsize : Z) (print_images : bool)
         (w : world),
    to_size_t fsize < 3073 ->
    let b := benchmark mem fsize print_images w in
    returned b = TENSIL_ERROR_NONE /\
    final b = initial w /\
    trace b = [Ev_printf_testing] ++
              (if print_images then [Ev_console_clear_screen] else []) ++
              (if print_images
               then [Ev_console_clear_screen; Ev_console_set_cursor_position 1 1]
               else []) ++
              [Ev_printf_summary 0 S754_nan S754_nan].
Proof.
  intros P mem fsize print_images w H b. subst b. unfold benchmark.
  assert (H0 : 0 <= to_size_t fsize).
  { unfold to_size_t. apply Z.mod_pos_bound. reflexivity. }
  change (CIFAR_PIXELS_SIZE * 3 + 1) with 3073.
  rewrite (Z.div_small (to_size_t fsize) 3073) by lia.
  change (Z.to_nat (to_size_t 0)) with 0%nat.
  cbn [for_each]. unfold ret. cbn [returned final trace error_of].
  split; [reflexivity|]. split; reflexivity.
Qed.

Lemma short_file_summary_witness :
  to_size_t 3072 < 3073 /\
  returned (benchmark (P := Stub.platform) Stub.mislabelled 3072 false Stub.scenario)
  = TENSIL_ERROR_NONE.
Proof.
  split; [reflexivity|].
  apply (short_file_summary Stub.platform Stub.mislabelled 3072 false Stub.scenario).
  reflexivity.
Defined.

(** X12.  The dataset file is closed exactly when it was opened, also when
    reading it fails, and it is opened at most once.  The read asks for the
    size that [f_stat] reported, narrowed to the 32 bits of the [UINT] count
    of [f_read].  When a filesystem call fails, it is the
    only one that does, its wrapped result is returned, and nothing but the
    filesystem calls and the "Reading" line has happened: the accelerator is
    not touched. *)
Theorem file_closed_when_opened :
  forall (P : Platform) (file_name : string) (print_images : bool) (w : world),
    let r := test_resnet20v2_on_cifar file_name print_images w in
    files_closed (trace r) = files_opened (trace r) /\
    (files_opened (trace r) <= 1)%nat /\
    (forall btr res, In (Ev_f_read btr res) (trace r) ->
                     btr = snd (fst (f_stat file_name w)) mod 2 ^ 32) /\
    (forall res, In res (fs_failures (trace r)) ->
                 fs_failures (trace r) = [res] /\
                 returned r = TENSIL_FS_ERROR res /\
                 Forall (fun e => filesystem e = true \/ e = Ev_printf_reading file_name)
                        (trace r)).
Proof.
  intros P file_name print_images w r. subst r.
  unfold test_resnet20v2_on_cifar, files_closed, files_opened, fs_failures.
  destruct (f_stat file_name w) as [[res fsize] w1]. cbn [fst snd].
  destruct (Z.eqb_spec res 0) as [E1|E1]; cbn [negb].
  2:{ cbn [trace returned flat_map open_of close_of fs_failure app length].
      rewrite (proj2 (Z.eqb_neq res 0) E1).
      split; [reflexivity|]. split; [lia|]. split.
      - intros btr res0 [H|[]]. discriminate H.
      - intros res0 [<-|[]]. split; [reflexivity|]. split; [reflexivity|].
        repeat (constructor; [first [left; reflexivity | right; reflexivity]|]).
        constructor. }
  subst res.
  destruct (f_open file_name w1) as [res2 w2].
  destruct (Z.eqb_spec res2 0) as [E2|E2]; cbn [negb].
  2:{ cbn [trace returned flat_map open_of close_of fs_failure app length Z.eqb].
      rewrite (proj2 (Z.eqb_neq res2 0) E2).
      split; [reflexivity|]. split; [cbn; lia|]. split.
      - intros btr res0 [H|[H|[]]]; discriminate H.
      - intros res0 [<-|[]]. split; [reflexivity|]. split; [reflexivity|].
        repeat (constructor; [first [left; reflexivity | right; reflexivity]|]).
        constructor. }
  subst res2.
  destruct (f_read (to_UINT fsize) w2) as [[res3 mem] w3].
  destruct (Z.eqb_spec res3 0) as [E3|E3]; cbn [negb].
  2:{ cbn [trace returned flat_map open_of close_of fs_failure app length Z.eqb].
      rewrite (proj2 (Z.eqb_neq res3 0) E3).
      split; [reflexivity|]. split; [cbn; lia|]. split.
      - intros btr res0 [H|[H|[H|[H|[H|[]]]]]]; try discriminate H.
        now inversion H.
      - intros res0 [<-|[]]. split; [reflexivity|]. split; [reflexivity|].
        repeat (constructor; [first [left; reflexivity | right; reflexivity]|]).
        constructor. }
  subst res3. unfold prepend. cbn [trace returned].
  rewrite !flat_map_app.
  rewrite (benchmark_silent_filesystem open_of), (benchmark_silent_filesystem close_of),
    (benchmark_silent_filesystem fs_failure)
    by (auto using no_filesystem_opens, no_filesystem_closes, no_filesystem_failures).
  cbn [flat_map open_of close_of fs_failure app length Z.eqb].
  split; [reflexivity|]. split; [lia|]. split.
  - intros btr res0 Hin.
    destruct Hin as [H|[H|[H|[H|[H|Hin]]]]]; try discriminate H.
    + now inversion H.
    + pose proof (benchmark_no_filesystem mem fsize print_images (f_close w3)) as Hall.
      rewrite Forall_forall in Hall. specialize (Hall _ Hin). discriminate Hall.
  - intros res0 [].
Qed.

Lemma file_closed_when_opened_witness :
  let r := test_resnet20v2_on_cifar (P := Stub.platform) "test_batch.bin" true
                                    unreadable in
  In 1 (fs_failures (trace r)) /\
  (fs_failures (trace r) = [1] /\
   returned r = TENSIL_FS_ERROR (Platform := Stub.platform) 1 /\
   Forall (fun e => filesystem e = true \/ e = Ev_printf_reading "test_batch.bin")
          (trace r)).
Proof.
  intros r.
  assert (H : In 1 (fs_failures (trace r))) by (vm_compute; auto).
  split; [exact H|].
  exact (proj2 (proj2 (proj2 (file_closed_when_opened Stub.platform "test_batch.bin"
                                 true unreadable))) 1 H).
Defined.

(** ** The entry point *)

Lemma tests_wrapped (t : list event) : tests (map Ev_test t) = t.
Proof.
  unfold tests. induction t as [|e t IH]; [reflexivity|]. cbn. now rewrite IH.
Qed.

Lemma step_errors_wrapped {B : Board} (t : list event) : step_errors (map Ev_test t) = [].
Proof.
  unfold step_errors. induction t as [|e t IH]; [reflexivity|]. cbn. exact IH.
Qed.

Lemma error_prints_wrapped (t : list event) : error_prints (map Ev_test t) = [].
Proof.
  unfold error_prints. induction t as [|e t IH]; [reflexivity|]. cbn. exact IH.
Qed.

(** X13.  [main] always exits with status 0.  It stops at the first set-up step
    that fails: that failure is the only one, the benchmark is not called,
    and the error is printed once, unless it is zero.  When no set-up step
    fails, the four steps have run in order (mount ["0:/"], initialise the
    driver, read the model file, load the model), then the benchmark on
    ["test_batch.bin"] with live reporting, and its error, if any, is
    printed once at the end. *)
Theorem main_stops_at_first_failure :
  forall (B : Board) (w : world),
    let m := main w in
    status m = 0 /\
    (forall error, In error (step_errors (log m)) ->
       step_errors (log m) = [error] /\
       tests (log m) = [] /\
       error_prints (log m) = if error =? 0 then [] else [error]) /\
    (step_errors (log m) = [] ->
     exists w' : world,
       let r := test_resnet20v2_on_cifar "test_batch.bin" true w' in
       log m = [Ev_f_mount "0:/" 0 0; Ev_driver_init 0;
                Ev_model_from_file MODEL_FILE_PATH 0; Ev_driver_load_model 0] ++
               map Ev_test (trace r) ++
               (if returned r =? 0 then [] else [Ev_error_print (returned r)])).
Proof.
  intros B w m. subst m. unfold main, main_body.
  destruct (f_mount "0:/" 0 w) as [res w1].
  destruct (Z.eqb_spec res 0) as [E1|E1]; cbn [negb].
  2:{ destruct (Z.eqb_spec (TENSIL_FS_ERROR res) 0) as [E|E]; cbn [negb status log];
        unfold step_errors, tests, error_prints;
        cbn [flat_map step_error test_of error_print_of app];
        rewrite (proj2 (Z.eqb_neq res 0) E1); cbn [app].
      - split; [reflexivity|]. split.
        + intros error [<-|[]]. rewrite E. repeat split; reflexivity.
        + discriminate.
      - split; [reflexivity|]. split.
        + intros error [<-|[]]. rewrite (proj2 (Z.eqb_neq _ 0) E).
          repeat split; reflexivity.
        + discriminate. }
  subst res.
  destruct (tensil_driver_init w1) as [error w2].
  destruct (Z.eqb_spec error 0) as [E2|E2]; cbn [negb].
  2:{ rewrite (proj2 (Z.eqb_neq error 0) E2). cbn [negb status log].
      unfold step_errors, tests, error_prints.
      cbn [flat_map step_error test_of error_print_of app Z.eqb].
      rewrite (proj2 (Z.eqb_neq error 0) E2); cbn [app].
      split; [reflexivity|]. split.
      - intros error0 [<-|[]]. rewrite (proj2 (Z.eqb_neq error 0) E2).
        repeat split; reflexivity.
      - discriminate. }
  subst error.
  destruct (tensil_model_from_file MODEL_FILE_PATH w2) as [error2 w3].
  destruct (Z.eqb_spec error2 0) as [E3|E3]; cbn [negb].
  2:{ rewrite (proj2 (Z.eqb_neq error2 0) E3). cbn [negb status log].
      unfold step_errors, tests, error_prints.
      cbn [flat_map step_error test_of error_print_of app Z.eqb].
      rewrite (proj2 (Z.eqb_neq error2 0) E3); cbn [app].
      split; [reflexivity|]. split.
      - intros error0 [<-|[]]. rewrite (proj2 (Z.eqb_neq error2 0) E3).
        repeat split; reflexivity.
      - discriminate. }
  subst error2.
  destruct (tensil_driver_load_model w3) as [error3 w4].
  destruct (Z.eqb_spec error3 0) as [E4|E4]; cbn [negb].
  2:{ rewrite (proj2 (Z.eqb_neq error3 0) E4). cbn [negb status log].
      unfold step_errors, tests, error_prints.
      cbn [flat_map step_error test_of error_print_of app Z.eqb].
      rewrite (proj2 (Z.eqb_neq error3 0) E4); cbn [app].
      split; [reflexivity|]. split.
      - intros error0 [<-|[]]. rewrite (proj2 (Z.eqb_neq error3 0) E4).
        repeat split; reflexivity.
      - discriminate. }
  subst error3.
  set (r := test_resnet20v2_on_cifar "test_batch.bin" true w4).
  assert (Hs : forall post,
             (forall e, In e post -> step_error e = []) ->
             step_errors ([Ev_f_mount "0:/" 0 0; Ev_driver_init 0;
                           Ev_model_from_file MODEL_FILE_PATH 0;
                           Ev_driver_load_model 0] ++ map Ev_test (trace r) ++ post)
             = []).
  { intros post Hpost. unfold step_errors. rewrite !flat_map_app.
    fold (step_errors (map Ev_test (trace r))). rewrite step_errors_wrapped.
    cbn [flat_map step_error Z.eqb app].
    induction post as [|e post IH]; [reflexivity|].
    cbn [flat_map]. rewrite (Hpost e (or_introl eq_refl)).
    apply IH. intros e' He'. apply Hpost. now right. }
  destruct (Z.eqb_spec (returned r) 0) as [E|E]; cbn [negb status log].
  - split; [reflexivity|]. split.
    + intros error0 Hin. exfalso.
      rewrite <- (app_nil_r (map Ev_test (trace r))) in Hin.
      rewrite Hs in Hin; [exact Hin | intros e []].
    + intros _. exists w4. fold r. cbn zeta.
      rewrite (proj2 (Z.eqb_eq (returned r) 0) E), app_nil_r. reflexivity.
  - split; [reflexivity|]. split.
    + intros error0 Hin. exfalso.
      rewrite <- app_assoc in Hin.
      rewrite Hs in Hin; [exact Hin | intros e [<-|[]]; reflexivity].
    + intros _. exists w4. fold r. cbn zeta.
      rewrite (proj2 (Z.eqb_neq (returned r) 0) E), <- app_assoc. reflexivity.
Qed.

Lemma main_stops_at_first_failure_witness :
  let m := main (B := stub_board 0 7 0 0) Stub.scenario in
  In 7 (step_errors (B := stub_board 0 7 0 0) (log m)) /\
  (step_errors (B := stub_board 0 7 0 0) (log m) = [7] /\
   tests (log m) = [] /\ error_prints (log m) = [7]).
Proof.
  intros m.
  assert (H : In 7 (step_errors (B := stub_board 0 7 0 0) (log m)))
    by (vm_compute; auto).
  split; [exact H|].
  exact (proj1 (proj2 (main_stops_at_first_failure (stub_board 0 7 0 0) Stub.scenario))
           7 H).
Defined.

(** ** What is read of the buffer *)

Section Frame.
Context {P : Platform}.
Variables mem mem' : list byte.

Lemma for_each_ext (body body' : Z -> M unit) :
  forall (n : nat) (lo : Z) (st : state),
    (forall j st0, lo <= j < lo + Z.of_nat n -> body j st0 = body' j st0) ->
    for_each n lo body st = for_each n lo body' st.
Proof.
  induction n as [|n IH]; intros lo st H; [reflexivity|].
  cbn [for_each]. unfold bind. rewrite (H lo st) by lia.
  destruct (body' lo st) as [[r st1] t1]. destruct r as [a|error]; [|reflexivity].
  rewrite (IH (lo + 1) st1); [reflexivity|].
  intros j st0 Hj. apply H. lia.
Qed.

Lemma u8read_agree (lo hi base j : Z) :
  (forall k : nat, lo <= Z.of_nat k < hi -> nth k mem x00 = nth k mem' x00) ->
  0 <= lo -> lo <= base + j < hi ->
  u8read mem base j = u8read mem' base j.
Proof.
  intros H Hlo Hj. unfold u8read. f_equal. apply H. lia.
Qed.

Lemma channel_mean_agree (lo hi base : Z) :
  (forall k : nat, lo <= Z.of_nat k < hi -> nth k mem x00 = nth k mem' x00) ->
  0 <= lo -> lo <= base -> base + 1024 <= hi ->
  channel_mean CIFAR_PIXELS_SIZE mem base = channel_mean CIFAR_PIXELS_SIZE mem' base.
Proof.
  intros H Hlo Hb Hhi. unfold channel_mean. f_equal.
  apply for_range_ext. intros i s Hi.
  rewrite (u8read_agree lo hi base i H Hlo); [reflexivity|].
  unfold CIFAR_PIXELS_SIZE in Hi. lia.
Qed.

Lemma load_image_agree (lo hi r g b : Z) (rm gm bm : float) (st : state) :
  (forall k : nat, lo <= Z.of_nat k < hi -> nth k mem x00 = nth k mem' x00) ->
  0 <= lo -> lo <= r -> r + 1024 <= hi -> lo <= g -> g + 1024 <= hi ->
  lo <= b -> b + 1024 <= hi ->
  load_image mem r g b rm gm bm st = load_image mem' r g b rm gm bm st.
Proof.
  intros H Hlo Hr Hr' Hg Hg' Hb Hb'. unfold load_image.
  apply for_each_ext. intros j st0 Hj. unfold CIFAR_PIXELS_SIZE in Hj.
  unfold normalized_pixel.
  rewrite (u8read_agree lo hi r j H Hlo), (u8read_agree lo hi g j H Hlo),
    (u8read_agree lo hi b j H Hlo) by lia.
  reflexivity.
Qed.

Lemma print_image_agree (lo hi r g b : Z) (st : state) :
  (forall k : nat, lo <= Z.of_nat k < hi -> nth k mem x00 = nth k mem' x00) ->
  0 <= lo -> lo <= r -> r + 1024 <= hi -> lo <= g -> g + 1024 <= hi ->
  lo <= b -> b + 1024 <= hi ->
  print_image mem r g b st = print_image mem' r g b st.
Proof.
  intros H Hlo Hr Hr' Hg Hg' Hb Hb'. unfold print_image.
  unfold bind at 1 3. unfold emit at 1 6.
  unfold bind at 1 4.
  rewrite (for_each_ext _
             (fun j =>
                emit (Ev_console_set_background_color
                        (u8read mem' r j) (u8read mem' g j) (u8read mem' b j)) ;;
                (if j mod 32 =? 0 then emit Ev_printf_newline else ret tt) ;;
                emit Ev_printf_cell)%harness); [reflexivity|].
  intros j st0 Hj. unfold CIFAR_PIXELS_SIZE in Hj.
  rewrite (u8read_agree lo hi r j H Hlo), (u8read_agree lo hi g j H Hlo),
    (u8read_agree lo hi b j H Hlo) by lia.
  reflexivity.
Qed.

Lemma classify_agree (st : state) :
  (forall k : nat, ptr st <= Z.of_nat k < ptr st + 3073 ->
                   nth k mem x00 = nth k mem' x00) ->
  0 <= ptr st ->
  classify mem st = classify mem' st.
Proof.
  intros H Hp. unfold classify, bind, get, put. cbv beta zeta.
  rewrite (u8read_agree (ptr st) (ptr st + 3073) (ptr st) 0 H Hp) by lia.
  rewrite (channel_mean_agree (ptr st) (ptr st + 3073) (ptr st + 1) H Hp),
    (channel_mean_agree (ptr st) (ptr st + 3073)
       (ptr st + 1 + CIFAR_PIXELS_SIZE) H Hp),
    (channel_mean_agree (ptr st) (ptr st + 3073)
       (ptr st + 1 + CIFAR_PIXELS_SIZE + CIFAR_PIXELS_SIZE) H Hp)
    by (unfold CIFAR_PIXELS_SIZE; lia).
  rewrite (load_image_agree (ptr st) (ptr st + 3073))
    by (assumption || (unfold CIFAR_PIXELS_SIZE; lia)).
  reflexivity.
Qed.

Lemma bind_next {A B : Type} (m : M A) (k : A -> M B) (st st' : state) (b : B)
      (t : list event) :
  bind m k st = (Next b, st', t) ->
  exists a st1 t1 t2,
    m st = (Next a, st1, t1) /\ k a st1 = (Next b, st', t2) /\ t = t1 ++ t2.
Proof.
  unfold bind. destruct (m st) as [[r st1] t1]. destruct r as [a|error].
  - destruct (k a st1) as [[r2 st2] t2] eqn:Ek. intros H.
    apply pair_equal_spec in H. destruct H as [H <-].
    apply pair_equal_spec in H. destruct H as [-> ->].
    exists a, st1, t1, t2. split; [reflexivity|]. split; [exact Ek|reflexivity].
  - intros H. apply pair_equal_spec in H. destruct H as [H _].
    apply pair_equal_spec in H. destruct H as [H _]. discriminate H.
Qed.

(** The channels that [classify] hands to the reporting block are those of
    the record at the read pointer. *)
Lemma classify_result (st st1 : state) (c : classified) (t : list event) :
  classify mem st = (Next c, st1, t) ->
  red c = ptr st + 1 /\ green c = ptr st + 1 + CIFAR_PIXELS_SIZE /\
  blue c = ptr st + 1 + CIFAR_PIXELS_SIZE + CIFAR_PIXELS_SIZE.
Proof.
  intros H. unfold classify in H.
  apply bind_next in H. destruct H as (st0 & s & t1 & t2 & Hm & H & _).
  unfold get in Hm. apply pair_equal_spec in Hm. destruct Hm as [Hm _].
  apply pair_equal_spec in Hm. destruct Hm as [Hm <-].
  assert (E : st0 = st) by congruence. subst st0. clear Hm. cbv beta zeta in H.
  repeat (apply bind_next in H;
          let a := fresh "a" in
          let s := fresh "s" in
          destruct H as (a & s & ? & ? & _ & H & _); cbv beta zeta in H).
  unfold ret in H. apply pair_equal_spec in H. destruct H as [H _].
  apply pair_equal_spec in H. destruct H as [H _].
  assert (E : c = _) by (symmetry; exact (f_equal (fun r => match r with
                                                | Next x => x
                                                | Goto_cleanup _ => c
                                                end) H)).
  rewrite E. repeat split; reflexivity.
Qed.

Lemma report_agree (lo hi i : Z) (c : classified) (st : state) :
  (forall k : nat, lo <= Z.of_nat k < hi -> nth k mem x00 = nth k mem' x00) ->
  0 <= lo -> lo <= red c -> red c + 1024 <= hi -> lo <= green c ->
  green c + 1024 <= hi -> lo <= blue c -> blue c + 1024 <= hi ->
  report mem i c st = report mem' i c st.
Proof.
  intros H Hlo Hr Hr' Hg Hg' Hb Hb'. unfold report.
  unfold bind at 1 2 9 10. unfold emit at 1 2 8 9. cbv beta iota.
  destruct (i mod 100 =? 0); [|reflexivity].
  unfold bind at 1 7.
  rewrite (print_image_agree lo hi (red c) (green c) (blue c) st H)
    by assumption.
  reflexivity.
Qed.

Lemma image_agree (print_images : bool) (i : Z) (st : state) :
  (forall k : nat, ptr st <= Z.of_nat k < ptr st + 3073 ->
                   nth k mem x00 = nth k mem' x00) ->
  0 <= ptr st ->
  image mem print_images i st = image mem' print_images i st.
Proof.
  intros H Hp. unfold image, bind. rewrite (classify_agree st H Hp).
  destruct (classify mem' st) as [[r st1] t1] eqn:Ec.
  destruct r as [c|error]; [|reflexivity].
  destruct print_images; [|reflexivity].
  rewrite <- (classify_agree st H Hp) in Ec.
  apply classify_result in Ec. destruct Ec as (Er & Eg & Eb).
  unfold CIFAR_PIXELS_SIZE in Eg, Eb.
  rewrite (report_agree (ptr st) (ptr st + 3073) i c st1 H) by lia.
  reflexivity.
Qed.

Lemma images_agree (print_images : bool) :
  forall (n : nat) (i : Z) (st : state),
    (forall k : nat, ptr st <= Z.of_nat k < ptr st + 3073 * Z.of_nat n ->
                     nth k mem x00 = nth k mem' x00) ->
    0 <= ptr st ->
    for_each n i (image mem print_images) st
    = for_each n i (image mem' print_images) st.
Proof.
  induction n as [|n IH]; intros i st H Hp; [reflexivity|].
  cbn [for_each]. unfold bind.
  rewrite (image_agree print_images i st) by (try assumption; intros k Hk; apply H; lia).
  destruct (image mem' print_images i st) as [[r st1] t1] eqn:E.
  destruct r as [[]|error]; [|reflexivity].
  apply image_course, image_account in E. destruct E as (Eptr & _).
  cbn [vars_of v_ptr] in Eptr.
  rewrite (IH (i + 1) st1); [reflexivity| |lia].
  intros k Hk. apply H. lia.
Qed.
End Frame.

(** X14.  The benchmark reads the buffer only inside the whole records that fit
    in [fsize] bytes: two buffers that agree on the first
    [3073 * (fsize / 3073)] bytes give the same run, call for call.  A
    trailing partial record is never looked at. *)
Theorem reads_stay_in_records :
  forall (P : Platform) (mem mem' : list byte) (fsize : Z) (print_images : bool)
         (w : world),
    (forall k : nat, Z.of_nat k < 3073 * (to_size_t fsize / 3073) ->
                     nth k mem x00 = nth k mem' x00) ->
    benchmark mem fsize print_images w = benchmark mem' fsize print_images w.
Proof.
  intros P mem mem' fsize print_images w H. unfold benchmark.
  change (CIFAR_PIXELS_SIZE * 3 + 1) with 3073.
  destruct (total_count_range fsize) as [Et Hr]. rewrite Et.
  rewrite (images_agree mem mem' print_images); [reflexivity| |cbn; lia].
  intros k Hk. apply H. cbn [initial ptr] in Hk. lia.
Qed.

Lemma reads_stay_in_records_witness :
  let mem := Stub.mislabelled ++ [xff] in
  let mem' := Stub.mislabelled ++ [x00; x01] in
  (forall k : nat, Z.of_nat k < 3073 * (to_size_t 3074 / 3073) ->
                   nth k mem x00 = nth k mem' x00) /\
  benchmark (P := Stub.platform) mem 3074 true Stub.scenario
  = benchmark (P := Stub.platform) mem' 3074 true Stub.scenario.
Proof.
  intros mem mem'.
  assert (H : forall k : nat, Z.of_nat k < 3073 * (to_size_t 3074 / 3073) ->
                              nth k mem x00 = nth k mem' x00).
  { intros k Hk. change (3073 * (to_size_t 3074 / 3073)) with 3073 in Hk.
    assert (Hl : length Stub.mislabelled = 3073%nat) by reflexivity.
    unfold mem, mem'. rewrite !app_nth1 by lia. reflexivity. }
  split; [exact H|].
  exact (reads_stay_in_records Stub.platform mem mem' 3074 true Stub.scenario H).
Defined.
